(** * schedbench: the Nomad benchmark driver, [bench/nomad/main.go]

    The driver is a command-line program with four sub-commands, each with
    the function that [main] calls for it: [setup] ([handleSetup]: write the
    job file from a template), [run] ([handleRun]: register a job K times),
    [status] ([handleStatus]: the allocation watch loop, which never
    returns) and [teardown] ([handleTeardown]: deregister every job and
    remove the working directory); [os.Args] is their argument.

    The program talks to its environment all the time (the Nomad API, the
    status server, the operating system), and one of its commands loops for
    ever, so the commands are embedded as interaction trees: every call
    that leaves the process is an event, and the answer of the environment
    is the event's response.  [run], [status] and [teardown] use the event
    type [benchE]; [handleSetup] and [main] add the calls on the job file
    and [os.Exit] ([procE]).  A run of a command is a trace in the sense of
    [ITree.Interp.Traces]. *)

From Stdlib Require Import ZArith String Ascii List Bool Lia Sorted.
From Stdlib Require Import DecimalString Program.Equality Wf_nat.
From Stdlib Require Import DecimalZ Permutation.
From ITree Require Import ITree Interp.Traces Eq.Shallow.
Import ListNotations ITreeNotations.

Local Open Scope string_scope.
Local Open Scope Z_scope.
Local Open Scope itree_scope.

(** ** Machine integers

    The binary is built for [GOARCH=amd64]: [int] and [int64] are 64-bit
    two's complement, [uint64] is 64-bit unsigned. *)

Definition min_int64 : Z := - 2 ^ 63.
Definition max_int64 : Z := 2 ^ 63 - 1.

(** Reduction of an integer to the [int64] range, as Go's arithmetic does. *)
Definition wrap64 (z : Z) : Z := (z + 2 ^ 63) mod 2 ^ 64 - 2 ^ 63.

(** [x++] on an [int64]. *)
Definition inc64 (x : Z) : Z := wrap64 (x + 1).

(** ** Go library functions used by the driver *)

(** An [error] is carried as the text that [%v] prints for it. *)
Definition Error : Type := string.

(** A [time.Time], as an instant on an integer time line. *)
Definition Time : Type := Z.

Definition digit_of (c : ascii) : option Z :=
  let n := Z.of_nat (nat_of_ascii c) in
  if (48 <=? n) && (n <=? 57) then Some (n - 48) else None.

Fixpoint parse_digits (s : string) (acc : Z) : option Z :=
  match s with
  | EmptyString => Some acc
  | String c s' =>
      match digit_of c with
      | Some d => parse_digits s' (acc * 10 + d)
      | None => None
      end
  end.

(** [strconv.Atoi] of the Go standard library: an optional sign, then one
    or more decimal digits, and the value must fit an [int].  [None] stands
    for a non-nil error (the driver does not look at which one). *)
Definition Atoi (s : string) : option Z :=
  match s with
  | EmptyString => None
  | String c rest =>
      let neg := Ascii.eqb c "-" in
      let digits := if neg || Ascii.eqb c "+" then rest else s in
      match digits with
      | EmptyString => None
      | _ =>
          match parse_digits digits 0 with
          | Some n =>
              let v := if neg then - n else n in
              if (min_int64 <=? v) && (v <=? max_int64) then Some v else None
          | None => None
          end
      end
  end.

(** The verb [%d] of [fmt.Sprintf]: the decimal numeral, with a minus sign
    for a negative number. *)
Definition fmt_d (i : Z) : string := NilZero.string_of_int (Z.to_int i).

(** ** Data of the Nomad API *)

(** An allocation as the watch loop sees it. *)
Record Allocation := {
  AllocID : string;
  ClientStatus : string
}.

(** [structs.AllocClientStatusPending] and [structs.AllocClientStatusRunning]. *)
Definition AllocClientStatusPending : string := "pending".
Definition AllocClientStatusRunning : string := "running".

Record QueryOptions := {
  AllowStale : bool;
  WaitIndex : Z
}.

Record QueryMeta := {
  LastIndex : Z
}.

(** An entry of [Jobs().List]. *)
Record JobListStub := {
  StubID : string
}.

(** The contents of a [bytes.Buffer]. *)
Definition Buffer : Type := list Byte.byte.

Section Bench.

(** The parsed job ([structs.Job]) and the fields of an [api.Job] other than
    its [ID] are passed around and never inspected. *)
Context {StructsJob JobBody : Type}.

Record ApiJob := {
  ID : string;
  Body : JobBody
}.

(** [apiJob.ID = id]. *)
Definition set_ID (job : ApiJob) (id : string) : ApiJob :=
  {| ID := id; Body := Body job |}.

(** ** Events: the calls that leave the process

    A pointer that may be nil is an [option]; a call that returns
    [(value, error)] answers with a sum, a call that returns only an
    [error] answers with an [option Error].  [log.Fatal*] and a run-time
    panic end the process: they have no answer. *)
Variant benchE : Type -> Type :=
| Getenv (key : string) : benchE string
    (* os.Getenv: the value, or the empty string when the variable is unset *)
| LogFatal (msg : string) : benchE void
    (* log.Fatalln, log.Fatalf: print msg, exit with status 1 *)
| LogPrintf (msg : string) : benchE unit
| Panic (msg : string) : benchE void
| ParseFile (path : string) : benchE (StructsJob + Error)
| GobRegister (ty : string) : benchE unit
| GobEncode (job : StructsJob) : benchE (Buffer + Error)
    (* gob.NewEncoder(buf).Encode(in): the bytes written to buf, or an error *)
| GobDecode (buf : Buffer) : benchE (option ApiJob * option Error)
    (* gob.NewDecoder(buf).Decode(&apiJob): what apiJob points to after the
       call (it was nil before), and the error *)
| ApiNewClient : benchE (option Error)
| JobsRegister (job : ApiJob) : benchE (option Error)
| JobsList : benchE (list JobListStub + Error)
| JobsDeregister (id : string) : benchE (option Error)
| RemoveAll (path : string) : benchE (option Error)
| StatusNewClient (addr : string) : benchE (option Error)
| AllocsList (q : QueryOptions) : benchE (list Allocation * QueryMeta + Error)
| TimeNowUTC : benchE Time
| StatusSet (name : string) (value : Z) (ts : Time) : benchE unit
    (* statusClient.Set(name, float64(value), ts); its result is dropped *).

Definition fatal {R : Type} (msg : string) : itree benchE R :=
  Vis (LogFatal msg) (fun v : void => match v with end).

Definition panic {R : Type} (msg : string) : itree benchE R :=
  Vis (Panic msg) (fun v : void => match v with end).

(** ** [convertStructJob] *)

Definition convertStructJob (job : StructsJob)
  : itree benchE (option ApiJob * option Error) :=
  ITree.trigger (GobRegister "[]map[string]interface {}") ;;
  ITree.trigger (GobRegister "[]interface {}") ;;
  e <- ITree.trigger (GobEncode job) ;;
  match e with
  | inr err => Ret (None, Some err)
  | inl buf =>
      d <- ITree.trigger (GobDecode buf) ;;
      match d with
      | (_, Some err) => Ret (None, Some err)
      | (apiJob, None) => Ret (apiJob, None)
      end
  end.

(** ** [handleRun] *)

Definition job_id (i : Z) : string := "job-" ++ fmt_d i.

(** One turn of [for i := 0; i < numJobs; i++ { ... }]; the loop state is
    [i] together with the job that [apiJob] points to. *)
Definition register_step (numJobs : Z) (s : Z * option ApiJob)
  : itree benchE (Z * option ApiJob + unit) :=
  let '(i, apiJob) := s in
  if i <? numJobs then
    match apiJob with
    | None => panic "invalid memory address or nil pointer dereference"
    | Some job =>
        let job := set_ID job (job_id i) in
        r <- ITree.trigger (JobsRegister job) ;;
        match r with
        | Some err => fatal ("failed registering jobs: " ++ err)
        | None => Ret (inl (inc64 i, Some job))
        end
    end
  else Ret (inr tt).

Definition handleRun (os_Args : list string) : itree benchE Z :=
  if negb (Nat.eqb (length os_Args) 2) then fatal "usage: nomad-bench run"
  else
    v <- ITree.trigger (Getenv "NOMAD_NUM_JOBS") ;;
    match Atoi v with
    | None => fatal "NOMAD_NUM_JOBS must be numeric"
    | Some numJobs =>
        p <- ITree.trigger (ParseFile "job.nomad") ;;
        match p with
        | inr err => fatal ("failed parsing job file: " ++ err)
        | inl job =>
            c <- convertStructJob job ;;
            match c with
            | (_, Some err) => fatal ("failed converting job: " ++ err)
            | (apiJob, None) =>
                n <- ITree.trigger ApiNewClient ;;
                match n with
                | Some err => fatal ("failed creating nomad client: " ++ err)
                | None =>
                    ITree.iter (register_step numJobs) (0, apiJob) ;;
                    Ret 0
                end
            end
        end
    end.

(** ** [handleStatus] *)

(** The variables of the watch loop: the cursor [index] (a [uint64], only
    ever compared and assigned) and the three last-emitted values
    ([int64]). *)
Record WatchState := {
  index : Z;
  lastPending : Z;
  lastRunning : Z;
  lastTotal : Z
}.

(** [var lastPending, lastRunning, lastTotal int64; var index uint64 = 1]. *)
Definition watch_init : WatchState :=
  {| index := 1; lastPending := 0; lastRunning := 0; lastTotal := 0 |}.

Definition watch_args (st : WatchState) : QueryOptions :=
  {| AllowStale := true; WaitIndex := index st |}.

(** The [switch] on the client status, on the pair
    [(allocsPending, allocsRunning)]. *)
Definition count_status (acc : Z * Z) (alloc : Allocation) : Z * Z :=
  let '(allocsPending, allocsRunning) := acc in
  if String.eqb (ClientStatus alloc) AllocClientStatusPending
  then (inc64 allocsPending, allocsRunning)
  else if String.eqb (ClientStatus alloc) AllocClientStatusRunning
  then (allocsPending, inc64 allocsRunning)
  else (allocsPending, allocsRunning).

(** [for _, alloc := range resp { switch ... }]. *)
Definition count_allocs (resp : list Allocation) : Z * Z :=
  fold_left count_status resp (0, 0).

(** [if v != last { last = v; statusClient.Set(name, float64(v), ts) }]:
    the value of [last] afterwards. *)
Definition set_if_changed (name : string) (v last : Z) (ts : Time)
  : itree benchE Z :=
  if negb (v =? last) then
    ITree.trigger (StatusSet name v ts) ;; Ret v
  else Ret last.

(** The body of the [for { ... }] loop.  [Ret (inl st)] goes round the loop
    again with the variables as in [st]; the body has no [break] and no
    [return]. *)
Definition watch_step (st : WatchState) : itree benchE (WatchState + Z) :=
  r <- ITree.trigger (AllocsList (watch_args st)) ;;
  match r with
  | inr err =>
      ITree.trigger (LogPrintf ("failed querying allocations: " ++ err)) ;;
      Ret (inl st)
  | inl (resp, qm) =>
      ts <- ITree.trigger TimeNowUTC ;;
      if LastIndex qm =? index st then Ret (inl st)
      else
        let allocsTotal := Z.of_nat (length resp) in
        let '(allocsPending, allocsRunning) := count_allocs resp in
        lastTotal' <- set_if_changed "placed" allocsTotal (lastTotal st) ts ;;
        lastPending' <- set_if_changed "booting" allocsPending (lastPending st) ts ;;
        lastRunning' <- set_if_changed "running" allocsRunning (lastRunning st) ts ;;
        Ret (inl {| index := LastIndex qm;
                    lastPending := lastPending';
                    lastRunning := lastRunning';
                    lastTotal := lastTotal' |})
  end.

Definition watch_loop (st : WatchState) : itree benchE Z :=
  ITree.iter watch_step st.

(** The deferred [statusClient.Close()] and the [return 0] after the loop
    are never reached: the loop has no exit, and [log.Fatal*] leaves the
    process without running deferred calls. *)
Definition handleStatus (os_Args : list string) : itree benchE Z :=
  if negb (Nat.eqb (length os_Args) 3) then fatal "usage: nomad-bench status <addr>"
  else
    n <- ITree.trigger ApiNewClient ;;
    match n with
    | Some err => fatal ("failed creating nomad client: " ++ err)
    | None =>
        s <- ITree.trigger (StatusNewClient (nth 2 os_Args "")) ;;
        match s with
        | Some err => fatal ("failed contacting status server: " ++ err)
        | None => watch_loop watch_init
        end
    end.

(** ** [handleTeardown] *)

(** [for _, job := range jobs { Deregister(job.ID) }]. *)
Fixpoint deregister_all (jobs : list JobListStub) : itree benchE unit :=
  match jobs with
  | [] => Ret tt
  | job :: rest =>
      r <- ITree.trigger (JobsDeregister (StubID job)) ;;
      match r with
      | Some err => fatal ("failed deregistering job: " ++ err)
      | None => deregister_all rest
      end
  end.

Definition handleTeardown (os_Args : list string) : itree benchE Z :=
  if negb (Nat.eqb (length os_Args) 3) then fatal "usage: nomad-bench teardown <dir>"
  else
    n <- ITree.trigger ApiNewClient ;;
    match n with
    | Some err => fatal ("failed creating nomad client: " ++ err)
    | None =>
        l <- ITree.trigger JobsList ;;
        match l with
        | inr err => fatal ("failed listing jobs: " ++ err)
        | inl jobs =>
            deregister_all jobs ;;
            r <- ITree.trigger (RemoveAll (nth 2 os_Args "")) ;;
            match r with
            | Some err => fatal ("failed cleaning up temp dir: " ++ err)
            | None => Ret 0
            end
        end
    end.

End Bench.

Arguments ApiJob : clear implicits.
Arguments benchE : clear implicits.

(** * Runs of the commands

    A run is a trace: the events in the order the command performs them,
    each with the answer of the environment.  A trace that ends in [TRet c]
    is a run that returns [c]; one that ends in [TEventEnd e] stops at the
    call [e] (for ever, when [e] is [LogFatal] or [Panic]). *)

Notation "e '/>' x ';>' tr" := (TEventResponse e x tr)
  (at level 60, x at next level, right associativity, only parsing).

(** [tr] starts with the call [e]. *)
Definition starts_with {E : Type -> Type} {R X : Type} (e : E X) (tr : @trace E R)
  : Prop :=
  tr = TEventEnd e \/ exists (x : X) (tr' : @trace E R), tr = TEventResponse e x tr'.

(** [tr] is [full] cut short: a run observed up to some call, or up to the
    answer of some call. *)
Inductive truncates {E : Type -> Type} {R : Type}
  : @trace E R -> @trace E R -> Prop :=
| trunc_end (full : @trace E R) : truncates TEnd full
| trunc_ret (r : R) : truncates (TRet r) (TRet r)
| trunc_wait {X : Type} (e : E X) : truncates (TEventEnd e) (TEventEnd e)
| trunc_call {X : Type} (e : E X) (x : X) (full : @trace E R) :
    truncates (TEventEnd e) (TEventResponse e x full)
| trunc_step {X : Type} (e : E X) (x : X) (tr full : @trace E R) :
    truncates tr full ->
    truncates (TEventResponse e x tr) (TEventResponse e x full).

(** The number of answered calls. *)
Fixpoint trace_size {E : Type -> Type} {R : Type} (tr : @trace E R) : nat :=
  match tr with
  | TEventResponse _ _ tr' => S (trace_size tr')
  | _ => O
  end.

Section Runs.

Context {StructsJob JobBody : Type}.

(** The traces of the driver. *)
Definition Run (R : Type) : Type := @trace (benchE StructsJob JobBody) R.

(** ** Runs of [handleRun] *)

(** The identifiers [job-i .. job-(i+n-1)]. *)
Definition ids_from (i : Z) (n : nat) : list string :=
  map (fun k => job_id (i + Z.of_nat k)) (seq 0 n).

(** The identifiers [job-0 .. job-(K-1)]. *)
Definition job_ids (K : Z) : list string := ids_from 0 (Z.to_nat K).

(** The loop of [handleRun] from its turn [i] on, and the [return 0] after
    it. *)
Definition register_loop (K i : Z) (job : ApiJob JobBody)
  : itree (benchE StructsJob JobBody) Z :=
  ITree.iter (register_step K) (i, Some job) ;; Ret 0.

(** Successful registrations of [job] under the identifiers [ids], one after
    the other, followed by [tail]. *)
Fixpoint register_trace {R : Type} (job : ApiJob JobBody) (ids : list string)
  (tail : Run R) : Run R :=
  match ids with
  | [] => tail
  | id :: rest =>
      JobsRegister (set_ID job id) /> None ;> register_trace job rest tail
  end.

(** The two [gob.Register] calls that open [convertStructJob]. *)
Definition gob_registered {R : Type} (tail : Run R) : Run R :=
  GobRegister "[]map[string]interface {}" /> tt ;>
  GobRegister "[]interface {}" /> tt ;> tail.

(** [convertStructJob] when both gob steps succeed. *)
Definition convert_ok_trace {R : Type} (job : StructsJob) (buf : Buffer)
  (apiJob : option (ApiJob JobBody)) (tail : Run R) : Run R :=
  gob_registered (GobEncode job /> inl buf ;> GobDecode buf /> (apiJob, None) ;> tail).

(** [handleRun] up to its loop, every step succeeding: the variable reads
    [v], the job file parses to [job], which converts to [apiJob]. *)
Definition run_prelude (v : string) (job : StructsJob) (buf : Buffer)
  (apiJob : ApiJob JobBody) (tail : Run Z) : Run Z :=
  Getenv "NOMAD_NUM_JOBS" /> v ;>
  ParseFile "job.nomad" /> inl job ;>
  convert_ok_trace job buf (Some apiJob) (ApiNewClient /> None ;> tail).

(** ** Runs of the watch loop *)

(** What the environment hands to one turn of the loop: a failed query, or
    a listing with its index and then the reading of the clock. *)
Inductive Poll :=
| PollErr (err : Error)
| PollOk (resp : list Allocation) (qm : QueryMeta) (ts : Time).

(** The variables after a turn. *)
Definition watch_next (st : WatchState) (p : Poll) : WatchState :=
  match p with
  | PollErr _ => st
  | PollOk resp qm _ =>
      if LastIndex qm =? index st then st
      else
        let allocsTotal := Z.of_nat (length resp) in
        let '(allocsPending, allocsRunning) := count_allocs resp in
        {| index := LastIndex qm;
           lastPending :=
             if negb (allocsPending =? lastPending st) then allocsPending
             else lastPending st;
           lastRunning :=
             if negb (allocsRunning =? lastRunning st) then allocsRunning
             else lastRunning st;
           lastTotal :=
             if negb (allocsTotal =? lastTotal st) then allocsTotal
             else lastTotal st |}
  end.

Definition set_trace {R : Type} (name : string) (v last : Z) (ts : Time)
  (tail : Run R) : Run R :=
  if negb (v =? last) then StatusSet name v ts /> tt ;> tail else tail.

(** The events of a turn, followed by [tail]. *)
Definition turn_trace {R : Type} (st : WatchState) (p : Poll) (tail : Run R)
  : Run R :=
  match p with
  | PollErr err =>
      AllocsList (watch_args st) /> inr err ;>
      LogPrintf ("failed querying allocations: " ++ err) /> tt ;> tail
  | PollOk resp qm ts =>
      AllocsList (watch_args st) /> inl (resp, qm) ;>
      TimeNowUTC /> ts ;>
      if LastIndex qm =? index st then tail
      else
        let allocsTotal := Z.of_nat (length resp) in
        let '(allocsPending, allocsRunning) := count_allocs resp in
        set_trace "placed" allocsTotal (lastTotal st) ts
          (set_trace "booting" allocsPending (lastPending st) ts
             (set_trace "running" allocsRunning (lastRunning st) ts tail))
  end.

Definition watch_state (st : WatchState) (script : list Poll) : WatchState :=
  fold_left watch_next script st.

(** The run of the loop over [script]; it ends at the next query, which
    waits for its answer. *)
Fixpoint watch_trace {R : Type} (st : WatchState) (script : list Poll) : Run R :=
  match script with
  | [] => TEventEnd (AllocsList (watch_args st))
  | p :: rest => turn_trace st p (watch_trace (watch_next st p) rest)
  end.

(** The samples sent to the status server, and the cursors ([WaitIndex])
    sent with the queries, in the order of the run. *)
Definition Sample : Type := string * Z * Time.

Definition sample_of {X : Type} (e : benchE StructsJob JobBody X) : list Sample :=
  match e with
  | StatusSet name v ts => [(name, v, ts)]
  | _ => []
  end.

Definition cursor_of {X : Type} (e : benchE StructsJob JobBody X) : list Z :=
  match e with
  | AllocsList q => [WaitIndex q]
  | _ => []
  end.

Fixpoint samples {R : Type} (tr : Run R) : list Sample :=
  match tr with
  | TEventResponse e _ tr' => sample_of e ++ samples tr'
  | TEventEnd e => sample_of e
  | _ => []
  end.

Fixpoint cursors {R : Type} (tr : Run R) : list Z :=
  match tr with
  | TEventResponse e _ tr' => cursor_of e ++ cursors tr'
  | TEventEnd e => cursor_of e
  | _ => []
  end.

(** The run ends in a [log.Fatal*]. *)
Fixpoint ends_fatally {R : Type} (tr : Run R) : Prop :=
  match tr with
  | TEventResponse _ _ tr' => ends_fatally tr'
  | TEventEnd e =>
      match e with
      | LogFatal _ => True
      | _ => False
      end
  | _ => False
  end.

(** The answer to a query does not report an index below the [WaitIndex]
    of the query. *)
Definition answer_not_behind {X : Type} (e : benchE StructsJob JobBody X)
  : X -> Prop :=
  match e in benchE _ _ X return X -> Prop with
  | AllocsList q =>
      fun r =>
        match r with
        | inl (_, qm) => WaitIndex q <= LastIndex qm
        | inr _ => True
        end
  | _ => fun _ => True
  end.

Fixpoint responses_never_behind {R : Type} (tr : Run R) : Prop :=
  match tr with
  | TEventResponse e x tr' => answer_not_behind e x /\ responses_never_behind tr'
  | _ => True
  end.

End Runs.

(** ** The aggregates *)

Definition metric_names : list string := ["placed"; "booting"; "running"].

(** The aggregate that a query response gives for a metric. *)
Definition metric_value (name : string) (resp : list Allocation) : Z :=
  if String.eqb name "placed" then Z.of_nat (length resp)
  else if String.eqb name "booting" then fst (count_allocs resp)
  else snd (count_allocs resp).

(** The value of the latest sample of [name] in [h], if there is one. *)
Definition last_emitted (name : string) (h : list Sample) : option Z :=
  fold_left
    (fun acc s => if String.eqb (fst (fst s)) name then Some (snd (fst s)) else acc)
    h None.

(** The same, with 0 when [h] has no sample of [name]. *)
Definition last_or_zero (name : string) (h : list Sample) : Z :=
  match last_emitted name h with
  | Some v => v
  | None => 0
  end.

(** One sample for each metric, with the aggregates of [resp]. *)
Definition candidates (resp : list Allocation) (ts : Time) : list Sample :=
  map (fun name => (name, metric_value name resp, ts)) metric_names.

Definition changed (h : list Sample) (s : Sample) : bool :=
  negb (snd (fst s) =? last_or_zero (fst (fst s)) h).

(** The last-emitted variables of the loop hold what the history [h] says. *)
Definition cache_ok (h : list Sample) (st : WatchState) : Prop :=
  lastTotal st = last_or_zero "placed" h /\
  lastPending st = last_or_zero "booting" h /\
  lastRunning st = last_or_zero "running" h.





(** * The rest of the program

    What the runs of the commands register, deregister, remove and write,
    and the two functions that touch the file system and the process:
    [handleSetup] and [main]. *)

(** ** What a run of [handleRun] registers *)

Section RunTraces.
Context {StructsJob JobBody : Type}.

Definition registration_of {X : Type} (e : benchE StructsJob JobBody X)
  : list (ApiJob JobBody) :=
  match e with
  | JobsRegister job => [job]
  | _ => []
  end.

(** The jobs passed to [jobs.Register], in the order of the run. *)
Fixpoint registrations {R : Type} (tr : @Run StructsJob JobBody R)
  : list (ApiJob JobBody) :=
  match tr with
  | TEventResponse e _ tr' => registration_of e ++ registrations tr'
  | TEventEnd e => registration_of e
  | _ => []
  end.

(** [handleRun] up to its loop when the decoder reports no error and leaves
    [apiJob] nil. *)
Definition run_prelude_nil (v : string) (job : StructsJob) (buf : Buffer)
  (tail : Run Z) : @Run StructsJob JobBody Z :=
  Getenv "NOMAD_NUM_JOBS" /> v ;>
  ParseFile "job.nomad" /> inl job ;>
  convert_ok_trace job buf None (ApiNewClient /> None ;> tail).





End RunTraces.

(** ** What a run of [handleTeardown] deregisters and removes *)

Section TeardownTraces.
Context {StructsJob JobBody : Type}.

(** Successful deregistrations of [jobs], one after the other, then [tail]. *)
Fixpoint deregister_trace {R : Type} (jobs : list JobListStub) (tail : Run R)
  : @Run StructsJob JobBody R :=
  match jobs with
  | [] => tail
  | job :: rest => JobsDeregister (StubID job) /> None ;> deregister_trace rest tail
  end.

(** [handleTeardown] up to the removal of the directory. *)
Definition teardown_prelude (jobs : list JobListStub) (tail : Run Z)
  : @Run StructsJob JobBody Z :=
  ApiNewClient /> None ;> JobsList /> inl jobs ;> deregister_trace jobs tail.

Definition removal_of {X : Type} (e : benchE StructsJob JobBody X) : list string :=
  match e with
  | RemoveAll path => [path]
  | _ => []
  end.

Fixpoint removals {R : Type} (tr : @Run StructsJob JobBody R) : list string :=
  match tr with
  | TEventResponse e _ tr' => removal_of e ++ removals tr'
  | TEventEnd e => removal_of e
  | _ => []
  end.

Definition deregistration_of {X : Type} (e : benchE StructsJob JobBody X) : list string :=
  match e with
  | JobsDeregister id => [id]
  | _ => []
  end.

Fixpoint deregistrations {R : Type} (tr : @Run StructsJob JobBody R) : list string :=
  match tr with
  | TEventResponse e _ tr' => deregistration_of e ++ deregistrations tr'
  | TEventEnd e => deregistration_of e
  | _ => []
  end.

(** The rest of [handleTeardown] once the jobs still to deregister are [jobs]. *)
Definition teardown_rest (os_Args : list string) (jobs : list JobListStub)
  : itree (benchE StructsJob JobBody) Z :=
  deregister_all jobs ;;
  r <- ITree.trigger (RemoveAll (nth 2 os_Args "")) ;;
  match r with
  | Some err => fatal ("failed cleaning up temp dir: " ++ err)%string
  | None => Ret 0
  end.
End TeardownTraces.


(** ** The calls of [handleStatus] *)

Section StatusTraces.
Context {StructsJob JobBody : Type}.

(** Every call of the run satisfies [P]. *)
Fixpoint all_calls {R : Type}
  (P : forall X : Type, benchE StructsJob JobBody X -> Prop)
  (tr : @Run StructsJob JobBody R) : Prop :=
  match tr with
  | TEventResponse e _ tr' => P _ e /\ all_calls P tr'
  | TEventEnd e => P _ e
  | _ => True
  end.

(** The calls of the status command: the two clients, the query (which
    allows stale reads), the clock, the log, and a sample of one of the
    three metrics. *)
Definition status_call (X : Type) (e : benchE StructsJob JobBody X) : Prop :=
  match e with
  | ApiNewClient | StatusNewClient _ | TimeNowUTC | LogPrintf _ | LogFatal _ => True
  | AllocsList q => AllowStale q = true
  | StatusSet name _ _ => In name metric_names
  | _ => False
  end.

End StatusTraces.

(** The response that the loop took last: the latest one whose index
    differed from the cursor of its turn. *)
Fixpoint last_taken (st : WatchState) (script : list Poll)
  (taken : option (list Allocation)) : option (list Allocation) :=
  match script with
  | [] => taken
  | p :: rest =>
      last_taken (watch_next st p) rest
        match p with
        | PollErr _ => taken
        | PollOk resp qm _ => if LastIndex qm =? index st then taken else Some resp
        end
  end.

(** The value that the status server holds for a metric when the loop took
    [taken] last: nothing was sent before the first response. *)
Definition expected_value (name : string) (taken : option (list Allocation)) : Z :=
  match taken with
  | Some resp => metric_value name resp
  | None => 0
  end.

(** The variables hold the aggregates of the response taken last. *)
Definition holds_taken (st : WatchState) (taken : option (list Allocation)) : Prop :=
  lastTotal st = expected_value "placed" taken /\
  lastPending st = expected_value "booting" taken /\
  lastRunning st = expected_value "running" taken.

(** ** [jobTemplate], [handleSetup] and [main] *)

(** A double quote, a line feed and a tab. *)
Definition dq : string := String (ascii_of_nat 34) EmptyString.
Definition nl : string := String (ascii_of_nat 10) EmptyString.
Definition tab : string := String (ascii_of_nat 9) EmptyString.

(** [jobTemplate], before and after its [%d]. *)
Definition jobTemplate_head : string :=
  nl ++
  "job " ++ dq ++ "bench" ++ dq ++ " {" ++ nl ++
  tab ++ "datacenters = [" ++ dq ++ "dc1" ++ dq ++ "]" ++ nl ++
  nl ++
  tab ++ "group " ++ dq ++ "cache" ++ dq ++ " {" ++ nl ++
  tab ++ tab ++ "count = ".

Definition jobTemplate_tail : string :=
  nl ++
  nl ++
  tab ++ tab ++ "restart {" ++ nl ++
  tab ++ tab ++ tab ++ "mode = " ++ dq ++ "fail" ++ dq ++ nl ++
  tab ++ tab ++ tab ++ "attempts = 0" ++ nl ++
  tab ++ tab ++ "}" ++ nl ++
  nl ++
  tab ++ tab ++ "task " ++ dq ++ "bench" ++ dq ++ " {" ++ nl ++
  tab ++ tab ++ tab ++ "driver = " ++ dq ++ "docker" ++ dq ++ nl ++
  nl ++
  tab ++ tab ++ tab ++ "config {" ++ nl ++
  tab ++ tab ++ tab ++ tab ++ "image = " ++ dq ++ "redis:latest" ++ dq ++ nl ++
  tab ++ tab ++ tab ++ "}" ++ nl ++
  nl ++
  tab ++ tab ++ tab ++ "resources {" ++ nl ++
  tab ++ tab ++ tab ++ tab ++ "cpu = 100" ++ nl ++
  tab ++ tab ++ tab ++ tab ++ "memory = 100" ++ nl ++
  tab ++ tab ++ tab ++ "}" ++ nl ++
  tab ++ tab ++ "}" ++ nl ++
  tab ++ "}" ++ nl ++
  "}" ++ nl.

(** [fmt.Sprintf(jobTemplate, numContainers)]. *)
Definition render_jobTemplate (numContainers : Z) : string :=
  jobTemplate_head ++ fmt_d numContainers ++ jobTemplate_tail.

(** The calls of [handleSetup] and [main] that the other commands do not make. *)
Variant procE : Type -> Type :=
| OsCreate (path : string) : procE (option Error)
| FileWriteString (content : string) : procE (option Error)
| FileClose : procE unit
| OsExit (code : Z) : procE void.

Section Commands.
Context {StructsJob JobBody : Type}.

Definition cmdE : Type -> Type := benchE StructsJob JobBody +' procE.

(** A handler of this file, called from [main]. *)
Definition lift {R : Type} (t : itree (benchE StructsJob JobBody) R) : itree cmdE R :=
  translate (fun X (e : benchE StructsJob JobBody X) => inl1 e) t.

(** [os.Exit(code)]: the process ends, the call has no answer. *)
Definition exit {R : Type} (code : Z) : itree cmdE R :=
  Vis (inr1 (OsExit code)) (fun v : void => match v with end).

(** The run of a handler, as a run of [main]. *)
Fixpoint lift_trace {R : Type} (tr : @trace (benchE StructsJob JobBody) R)
  : @trace cmdE R :=
  match tr with
  | TEnd => TEnd
  | TRet r => TRet r
  | TEventEnd e => TEventEnd (inl1 e)
  | TEventResponse e x tr' => TEventResponse (inl1 e) x (lift_trace tr')
  end.

(** The run of [os.Exit(handler())]: the run of the handler, with the call of
    [os.Exit] in the place of the return. *)
Fixpoint exit_trace {R : Type} (tr : @trace cmdE Z) : @trace cmdE R :=
  match tr with
  | TEnd => TEnd
  | TRet c => TEventEnd (inr1 (OsExit c))
  | TEventEnd e => TEventEnd e
  | TEventResponse e x tr' => TEventResponse e x (exit_trace tr')
  end.

(** The runs of [main] and of [handleSetup]. *)
Definition CmdRun (R : Type) : Type := @trace cmdE R.

Definition written_of {X : Type} (e : cmdE X) : list string :=
  match e with
  | inr1 (FileWriteString content) => [content]
  | _ => []
  end.

(** What the run writes to the job file. *)
Fixpoint writes {R : Type} (tr : CmdRun R) : list string :=
  match tr with
  | TEventResponse e _ tr' => written_of e ++ writes tr'
  | TEventEnd e => written_of e
  | _ => []
  end.

Definition exit_code_of {X : Type} (e : cmdE X) : list Z :=
  match e with
  | inr1 (OsExit code) => [code]
  | _ => []
  end.

(** The arguments of the calls of [os.Exit] in the run. *)
Fixpoint exit_codes {R : Type} (tr : CmdRun R) : list Z :=
  match tr with
  | TEventResponse e _ tr' => exit_code_of e ++ exit_codes tr'
  | TEventEnd e => exit_code_of e
  | _ => []
  end.

(** [handleSetup] up to the closing of the file, every step succeeding:
    the variable reads [v], which is the numeral of [numContainers]. *)
Definition setup_trace {R : Type} (v : string) (numContainers : Z) (tail : CmdRun R)
  : CmdRun R :=
  inl1 (Getenv "NOMAD_NUM_CONTAINERS") /> v ;>
  inr1 (OsCreate "job.nomad") /> None ;>
  inr1 (FileWriteString (render_jobTemplate numContainers)) /> None ;> tail.

(** [%q]: the quoting of Go's [strconv.Quote], which is not of this
    repository. *)
Variable fmt_q : string -> string.

(** The deferred [fh.Close()] runs when [handleSetup] returns, that is, on
    the one path that reaches [return 0]: [log.Fatalf] leaves the process
    without running deferred calls. *)
Definition handleSetup (os_Args : list string) : itree cmdE Z :=
  if negb (Nat.eqb (length os_Args) 2) then lift (fatal "usage: nomad-bench setup")
  else
    v <- lift (ITree.trigger (Getenv "NOMAD_NUM_CONTAINERS")) ;;
    match Atoi v with
    | None => lift (fatal "NOMAD_NUM_CONTAINERS must be numeric")
    | Some numContainers =>
        c <- ITree.trigger (inr1 (OsCreate "job.nomad")) ;;
        match c with
        | Some err => lift (fatal ("failed creating job file: " ++ err)%string)
        | None =>
            let jobContent := render_jobTemplate numContainers in
            w <- ITree.trigger (inr1 (FileWriteString jobContent)) ;;
            match w with
            | Some err => lift (fatal ("failed writing to job file: " ++ err)%string)
            | None => ITree.trigger (inr1 FileClose) ;; Ret 0
            end
        end
    end.

(** Each case of the [switch] ends in [os.Exit], so nothing follows it. *)
Definition main (os_Args : list string) : itree cmdE unit :=
  if Nat.ltb (length os_Args) 2
  then lift (fatal "usage: nomad-bench <command> [args]")
  else
    let cmd := nth 1 os_Args "" in
    if String.eqb cmd "setup" then c <- handleSetup os_Args ;; exit c
    else if String.eqb cmd "run" then c <- lift (handleRun os_Args) ;; exit c
    else if String.eqb cmd "status" then c <- lift (handleStatus os_Args) ;; exit c
    else if String.eqb cmd "teardown" then c <- lift (handleTeardown os_Args) ;; exit c
    else lift (fatal ("unknown command: " ++ fmt_q cmd)%string).

End Commands.

(** ** Sample data *)

Definition alloc (id status : string) : Allocation :=
  {| AllocID := id; ClientStatus := status |}.

Definition at_index (i : Z) : QueryMeta := {| LastIndex := i |}.

(** Two running allocations and one pending. *)
Definition three_allocs : list Allocation :=
  [alloc "a1" "running"; alloc "a2" "pending"; alloc "a3" "running"].

(** Two running allocations, none pending. *)
Definition two_running : list Allocation :=
  [alloc "a1" "running"; alloc "a2" "running"].


(** The orchestrator answers with index 5 and then, from a replica that
    lags behind, with index 3. *)
Definition stale_script : list Poll :=
  [PollOk three_allocs (at_index 5) 100; PollOk three_allocs (at_index 3) 200].

(** A failed query between two answers whose indices grow. *)
Definition growing_script : list Poll :=
  [PollOk three_allocs (at_index 5) 100; PollErr "EOF";
   PollOk two_running (at_index 8) 300].

Definition run_args : list string := ["nomad-bench"; "run"].
Definition status_args : list string := ["nomad-bench"; "status"; "127.0.0.1:8080"].
Definition teardown_args : list string := ["nomad-bench"; "teardown"; "/tmp/bench"].

Definition bench_job : ApiJob unit := {| ID := "bench"; Body := tt |}.

Definition setup_args : list string := ["nomad-bench"; "setup"].

(** Two jobs of the benchmark, as [Jobs().List] reports them. *)
Definition two_jobs : list JobListStub :=
  [{| StubID := "job-0" |}; {| StubID := "job-1" |}].

(** [%q] on a word that needs no escape: the word between double quotes. *)
Definition quote_plain (s : string) : string := dq ++ s ++ dq.

(** The run of [handleRun] that registers three jobs and returns. *)
Definition three_registered : @Run unit unit Z :=
  run_prelude "3" tt [] bench_job (register_trace bench_job (job_ids 3) (TRet 0)).

(** The run of [handleTeardown] that deregisters two jobs, removes the
    directory and returns. *)
Definition two_deregistered : @Run unit unit Z :=
  teardown_prelude two_jobs (RemoveAll "/tmp/bench" /> None ;> TRet 0).

(** A run of [handleStatus] over three answers. *)
Definition status_watched : @Run unit unit Z :=
  ApiNewClient /> None ;> StatusNewClient "127.0.0.1:8080" /> None ;>
  watch_trace watch_init growing_script.

(** The run of [handleSetup] that writes the job file for three containers. *)
Definition three_containers : @CmdRun unit unit Z :=
  setup_trace "3" 3 (inr1 FileClose /> tt ;> TRet 0).

(** * Facts *)

Local Open Scope list_scope.

#[local] Arguments String.append : simpl never.
#[local] Arguments Z.ltb : simpl never.
#[local] Arguments Z.eqb : simpl never.
#[local] Arguments Z.of_nat : simpl never.
#[local] Arguments Atoi : simpl never.

(** ** Traces of interaction trees *)

Section TraceFacts.

Context {E : Type -> Type} {R : Type}.

Lemma observe_iter {I : Type} (step : I -> itree E (I + R)) (i : I) :
  observe (ITree.iter step i) =
  observe (ITree.bind (step i)
             (fun lr => match lr with
                        | inl l => Tau (ITree.iter step l)
                        | inr r => Ret r
                        end)).
Proof. reflexivity. Qed.

Lemma observe_subst_ret {A : Type} (k : A -> itree E R) (a : A) :
  observe (ITree.subst k (Ret a)) = observe (k a).
Proof. reflexivity. Qed.

Lemma is_traceF_ret_inv (r : R) (tr : @trace E R) :
  is_traceF (RetF r) tr -> tr = TEnd \/ tr = TRet r.
Proof. intros H. inversion H; subst; auto. Qed.

Lemma is_traceF_vis_inv {X : Type} (e : E X) (k : X -> itree E R) (tr : @trace E R) :
  is_traceF (VisF e k) tr ->
  tr = TEnd \/ tr = TEventEnd e \/
  exists (x : X) (tr' : @trace E R), tr = TEventResponse e x tr' /\ is_trace (k x) tr'.
Proof.
  intros H. dependent destruction H; auto.
  right; right. eauto.
Qed.

Lemma is_traceF_vis_iff {X : Type} (e : E X) (k : X -> itree E R) (x : X)
  (tr : @trace E R) :
  is_traceF (VisF e k) (TEventResponse e x tr) <-> is_traceF (observe (k x)) tr.
Proof.
  split; intros H.
  - dependent destruction H. assumption.
  - constructor. assumption.
Qed.

Lemma is_traceF_tau_iff (t : itree E R) (tr : @trace E R) :
  is_traceF (TauF t) tr <-> is_traceF (observe t) tr.
Proof. symmetry. apply is_traceF_tau. Qed.

Lemma truncates_trans (a b c : @trace E R) :
  truncates a b -> truncates b c -> truncates a c.
Proof.
  intros Hab. revert c. induction Hab; intros c Hbc.
  - constructor.
  - exact Hbc.
  - exact Hbc.
  - dependent destruction Hbc. constructor.
  - dependent destruction Hbc. constructor. apply IHHab. assumption.
Qed.

(** The runs of a tree are closed under truncation. *)
Lemma is_traceF_truncates (ot : itree' E R) (full : @trace E R) :
  is_traceF ot full -> forall tr : @trace E R, truncates tr full -> is_traceF ot tr.
Proof.
  induction 1; intros tr' Htr.
  - dependent destruction Htr. constructor.
  - dependent destruction Htr; constructor.
  - constructor. apply IHis_traceF. assumption.
  - dependent destruction Htr; constructor.
  - dependent destruction Htr; constructor. apply IHis_traceF. assumption.
Qed.

Lemma truncates_no_return (tr full : @trace E R) :
  truncates tr full -> trace_ret full = None -> trace_ret tr = None.
Proof. induction 1; cbn; auto. Qed.

End TraceFacts.

(** One event of the run, or one silent step of a loop. *)
Ltac run_step :=
  cbn;
  first [ rewrite is_traceF_vis_iff | rewrite is_traceF_tau_iff ].

(** The next call of the run [H], or its end. *)
Ltac run_inv H :=
  cbn in H; apply is_traceF_vis_inv in H;
  destruct H as [-> | [-> | (? & ? & -> & H)]];
  [ try discriminate .. | unfold is_trace in H; cbn ].

(** ** Machine integers and [Atoi] *)

Lemma wrap64_id (z : Z) : min_int64 <= z <= max_int64 -> wrap64 z = z.
Proof.
  unfold min_int64, max_int64, wrap64. intros H.
  rewrite Z.mod_small by lia. lia.
Qed.

Lemma inc64_succ (x : Z) : 0 <= x < max_int64 -> inc64 x = x + 1.
Proof.
  intros H. unfold inc64. apply wrap64_id.
  unfold min_int64, max_int64 in *. lia.
Qed.

Lemma Atoi_range (v : string) (K : Z) :
  Atoi v = Some K -> min_int64 <= K <= max_int64.
Proof.
  unfold Atoi. destruct v as [|c rest]; [discriminate |].
  cbv zeta.
  destruct (if Ascii.eqb c "-" || Ascii.eqb c "+" then rest else String c rest);
    [discriminate |].
  destruct (parse_digits _ 0) as [n |]; [| discriminate].
  destruct (_ && _) eqn:Hr; [| discriminate].
  intros [= <-]. apply andb_true_iff in Hr. lia.
Qed.

(** ** [convertStructJob] *)

Section ConvertFacts.

Context {StructsJob JobBody : Type}.

#[local] Abbreviation ConvertRun :=
  (@Run StructsJob JobBody (option (ApiJob JobBody) * option Error)).

Lemma convert_encode_fails (job : StructsJob) (err : Error) (tr : ConvertRun) :
  is_trace (convertStructJob job) (gob_registered (GobEncode job /> inr err ;> tr)) <->
  tr = TEnd \/ tr = TRet (None, Some err).
Proof.
  unfold is_trace, convertStructJob, gob_registered.
  do 3 run_step. cbn. split.
  - apply is_traceF_ret_inv.
  - intros [-> | ->]; constructor.
Qed.

Lemma convert_decode_fails (job : StructsJob) (buf : Buffer)
  (partial : option (ApiJob JobBody)) (err : Error) (tr : ConvertRun) :
  is_trace (convertStructJob job)
    (gob_registered
       (GobEncode job /> inl buf ;> GobDecode buf /> (partial, Some err) ;> tr)) <->
  tr = TEnd \/ tr = TRet (None, Some err).
Proof.
  unfold is_trace, convertStructJob, gob_registered.
  do 4 run_step. cbn. split.
  - apply is_traceF_ret_inv.
  - intros [-> | ->]; constructor.
Qed.

Lemma convert_succeeds (job : StructsJob) (buf : Buffer)
  (apiJob : option (ApiJob JobBody)) (tr : ConvertRun) :
  is_trace (convertStructJob job) (convert_ok_trace job buf apiJob tr) <->
  tr = TEnd \/ tr = TRet (apiJob, None).
Proof.
  unfold is_trace, convertStructJob, convert_ok_trace, gob_registered.
  do 4 run_step. cbn. split.
  - apply is_traceF_ret_inv.
  - intros [-> | ->]; constructor.
Qed.

Lemma convert_error_nil (job : StructsJob) (tr : ConvertRun)
  (apiJob : option (ApiJob JobBody)) (err : Error) :
  is_trace (convertStructJob job) tr ->
  trace_ret tr = Some (apiJob, Some err) ->
  apiJob = None.
Proof.
  unfold is_trace, convertStructJob. intros H.
  run_inv H. run_inv H. run_inv H.
  match goal with x : (Buffer + Error)%type |- _ => destruct x as [buf | e] end.
  - run_inv H.
    match goal with x : (option (ApiJob JobBody) * option Error)%type |- _ =>
      destruct x as [p [e |]] end;
      cbn in H; apply is_traceF_ret_inv in H; destruct H as [-> | ->];
      cbn; congruence.
  - cbn in H. apply is_traceF_ret_inv in H. destruct H as [-> | ->];
      cbn; congruence.
Qed.

(** C7: [convertStructJob] gives all or nothing.  When the encode step
    fails it returns that error with a nil job; when the decode step fails
    it returns that error with a nil job, whatever the decoder left behind
    the pointer; when both succeed it returns the decoded job with a nil
    error.  No run returns an error together with a job. *)
Theorem convertStructJob_all_or_nothing (job : StructsJob) :
  (forall (err : Error) (tr : ConvertRun),
     is_trace (convertStructJob job)
       (gob_registered (GobEncode job /> inr err ;> tr)) <->
     tr = TEnd \/ tr = TRet (None, Some err)) /\
  (forall (buf : Buffer) (partial : option (ApiJob JobBody)) (err : Error)
          (tr : ConvertRun),
     is_trace (convertStructJob job)
       (gob_registered
          (GobEncode job /> inl buf ;> GobDecode buf /> (partial, Some err) ;> tr)) <->
     tr = TEnd \/ tr = TRet (None, Some err)) /\
  (forall (buf : Buffer) (apiJob : option (ApiJob JobBody)) (tr : ConvertRun),
     is_trace (convertStructJob job) (convert_ok_trace job buf apiJob tr) <->
     tr = TEnd \/ tr = TRet (apiJob, None)) /\
  (forall (tr : ConvertRun) (apiJob : option (ApiJob JobBody)) (err : Error),
     is_trace (convertStructJob job) tr ->
     trace_ret tr = Some (apiJob, Some err) ->
     apiJob = None).
Proof.
  split; [| split; [| split]].
  - intros err tr. apply convert_encode_fails.
  - intros buf partial err tr. apply convert_decode_fails.
  - intros buf apiJob tr. apply convert_succeeds.
  - intros tr apiJob err. apply convert_error_nil.
Qed.

End ConvertFacts.

(** ** [handleRun] *)

Section RunFacts.

Context {StructsJob JobBody : Type}.

#[local] Abbreviation RunZ := (@Run StructsJob JobBody Z).

Lemma ids_from_S (i : Z) (n : nat) :
  ids_from i (S n) = job_id i :: ids_from (i + 1) n.
Proof.
  unfold ids_from. cbn [seq map]. f_equal.
  - f_equal. lia.
  - rewrite <- seq_shift, map_map. apply map_ext. intros k. f_equal. lia.
Qed.

Lemma job_ids_length (K : Z) : 0 <= K -> Z.of_nat (length (job_ids K)) = K.
Proof.
  intros H. unfold job_ids, ids_from. rewrite length_map, length_seq. lia.
Qed.

Lemma job_ids_nth (K i : Z) :
  0 <= i < K -> nth_error (job_ids K) (Z.to_nat i) = Some (job_id i).
Proof.
  intros H. unfold job_ids, ids_from.
  rewrite nth_error_map, nth_error_seq.
  destruct (Nat.ltb_spec (Z.to_nat i) (Z.to_nat K)) as [_ | Hge]; [| lia].
  cbn. f_equal. f_equal. lia.
Qed.

Lemma register_loop_done (K i : Z) (job : ApiJob JobBody) (tr : RunZ) :
  K <= i ->
  is_trace (register_loop K i job) tr <-> tr = TEnd \/ tr = TRet 0.
Proof.
  intros H. unfold is_trace, register_loop.
  rewrite observe_bind, observe_iter, observe_bind. unfold register_step.
  replace (i <? K) with false by (symmetry; apply Z.ltb_ge; lia).
  cbn. split.
  - apply is_traceF_ret_inv.
  - intros [-> | ->]; constructor.
Qed.

Lemma register_loop_fails (K i : Z) (job : ApiJob JobBody) (err : Error) (tr : RunZ) :
  i < K ->
  is_trace (register_loop K i job)
    (JobsRegister (set_ID job (job_id i)) /> Some err ;> tr) <->
  tr = TEnd \/ tr = TEventEnd (LogFatal ("failed registering jobs: " ++ err)%string).
Proof.
  intros H. unfold is_trace, register_loop.
  rewrite observe_bind, observe_iter, observe_bind. unfold register_step.
  replace (i <? K) with true by (symmetry; apply Z.ltb_lt; lia).
  run_step. cbn. split.
  - intros Htr. apply is_traceF_vis_inv in Htr.
    destruct Htr as [Htr | [Htr | (x & _)]]; auto. destruct x.
  - intros [-> | ->]; constructor.
Qed.

Lemma register_loop_first (K i : Z) (job : ApiJob JobBody) (tr : RunZ) :
  i < K ->
  is_trace (register_loop K i job) tr ->
  tr = TEnd \/ starts_with (JobsRegister (set_ID job (job_id i))) tr.
Proof.
  intros H. unfold is_trace, register_loop.
  rewrite observe_bind, observe_iter, observe_bind. unfold register_step.
  replace (i <? K) with true by (symmetry; apply Z.ltb_lt; lia).
  cbn. intros Htr. apply is_traceF_vis_inv in Htr.
  unfold starts_with. destruct Htr as [Htr | [Htr | (x & tr' & Htr & _)]]; eauto.
Qed.

Lemma register_loop_next (K i : Z) (job : ApiJob JobBody) (tail : RunZ) :
  0 <= i < K -> K <= max_int64 ->
  is_trace (register_loop K i job)
    (JobsRegister (set_ID job (job_id i)) /> None ;> tail) <->
  is_trace (register_loop K (i + 1) (set_ID job (job_id i))) tail.
Proof.
  intros H HK. unfold is_trace, register_loop.
  rewrite observe_bind, observe_iter, observe_bind. unfold register_step at 1.
  replace (i <? K) with true by (symmetry; apply Z.ltb_lt; lia).
  do 2 run_step. rewrite inc64_succ by lia. reflexivity.
Qed.

(** The loop overwrites the identifier before it uses it. *)
Lemma register_loop_ID (K i : Z) (job : ApiJob JobBody) (id : string) (tr : RunZ) :
  is_trace (register_loop K i (set_ID job id)) tr <->
  is_trace (register_loop K i job) tr.
Proof.
  unfold is_trace, register_loop.
  rewrite (observe_bind (ITree.iter _ (i, Some (set_ID job id)))).
  rewrite (observe_bind (ITree.iter _ (i, Some job))).
  rewrite !observe_iter.
  rewrite (observe_bind (register_step K (i, Some (set_ID job id)))).
  rewrite (observe_bind (register_step K (i, Some job))).
  unfold register_step.
  destruct (i <? K); cbn; reflexivity.
Qed.

Lemma register_loop_steps (K : Z) (n : nat) :
  forall (i : Z) (job : ApiJob JobBody) (tail : RunZ),
  0 <= i -> i + Z.of_nat n <= K -> K <= max_int64 ->
  is_trace (register_loop K i job) (register_trace job (ids_from i n) tail) <->
  is_trace (register_loop K (i + Z.of_nat n) job) tail.
Proof.
  induction n as [|n IH]; intros i job tail Hi Hle HK.
  - cbn. replace (i + Z.of_nat 0) with i by lia. reflexivity.
  - rewrite ids_from_S. cbn [register_trace].
    rewrite register_loop_next by lia.
    rewrite register_loop_ID, IH by lia.
    replace (i + 1 + Z.of_nat n) with (i + Z.of_nat (S n)) by lia. reflexivity.
Qed.

Lemma handleRun_prelude (os_Args : list string) (v : string) (K : Z)
  (job : StructsJob) (buf : Buffer) (apiJob : ApiJob JobBody) (tail : RunZ) :
  length os_Args = 2%nat ->
  Atoi v = Some K ->
  is_trace (handleRun os_Args) (run_prelude v job buf apiJob tail) <->
  is_trace (register_loop K 0 apiJob) tail.
Proof.
  intros Hargs HK.
  unfold handleRun, run_prelude, convert_ok_trace, gob_registered, register_loop, is_trace.
  rewrite Hargs. cbn [Nat.eqb negb].
  run_step. rewrite observe_subst_ret, HK.
  do 6 run_step. reflexivity.
Qed.

Lemma handleRun_not_numeric (os_Args : list string) (v : string) (tr : RunZ) :
  length os_Args = 2%nat ->
  Atoi v = None ->
  is_trace (handleRun os_Args) (Getenv "NOMAD_NUM_JOBS" /> v ;> tr) <->
  tr = TEnd \/ tr = TEventEnd (LogFatal "NOMAD_NUM_JOBS must be numeric").
Proof.
  intros Hargs HK. unfold handleRun, is_trace.
  rewrite Hargs. cbn [Nat.eqb negb].
  run_step. rewrite observe_subst_ret, HK. cbn. split.
  - intros H. apply is_traceF_vis_inv in H.
    destruct H as [H | [H | (x & _)]]; auto. destruct x.
  - intros [-> | ->]; constructor.
Qed.

Lemma handleRun_registrations (os_Args : list string) (v : string) (K i : Z)
  (job : StructsJob) (buf : Buffer) (apiJob : ApiJob JobBody) (tail : RunZ) :
  length os_Args = 2%nat ->
  Atoi v = Some K ->
  0 <= i <= K ->
  is_trace (handleRun os_Args)
    (run_prelude v job buf apiJob (register_trace apiJob (job_ids i) tail)) <->
  is_trace (register_loop K i apiJob) tail.
Proof.
  intros Hargs HK Hi. pose proof (Atoi_range v K HK) as [_ Hmax].
  rewrite (handleRun_prelude os_Args v K) by assumption.
  unfold job_ids. rewrite register_loop_steps by lia.
  replace (0 + Z.of_nat (Z.to_nat i)) with i by lia. reflexivity.
Qed.

(** What a run registers, read off its shape. *)
Lemma registrations_ID (job : ApiJob JobBody) (ids : list string) :
  map ID (map (set_ID job) ids) = ids.
Proof.
  rewrite map_map. apply map_id.
Qed.

Lemma registrations_register_trace (job : ApiJob JobBody) (ids : list string)
  (tail : RunZ) :
  registrations (register_trace job ids tail) =
  map (set_ID job) ids ++ registrations tail.
Proof.
  induction ids as [|id ids IH]; cbn [register_trace map app]; [reflexivity |].
  cbn [registrations registration_of app]. rewrite IH. reflexivity.
Qed.

Lemma registrations_run_prelude (v : string) (job : StructsJob) (buf : Buffer)
  (apiJob : ApiJob JobBody) (tail : RunZ) :
  registrations (run_prelude v job buf apiJob tail) = registrations tail.
Proof. reflexivity. Qed.

(** C5: when every registration succeeds, [handleRun] registers the job
    under the identifiers job-0, job-1, ..., job-(K-1), in that order, and
    then returns 0 and does nothing else: K registrations in all.  After
    the registrations of job-0 .. job-(i-1) succeeded, with i < K, the next
    call is the registration of job-i; when it fails, the command logs the
    failure and dies, and no registration follows.  The job of a
    registration carries the identifier of its turn in its [ID] field and
    is the converted job in everything else: the [ID] fields of the
    registrations of the complete run are job-0 .. job-(K-1), and those of
    the run in which the registration of job-i fails are job-0 .. job-i. *)
Theorem handleRun_registers_in_order (os_Args : list string) (v : string) (K : Z)
  (job : StructsJob) (buf : Buffer) (apiJob : ApiJob JobBody) :
  length os_Args = 2%nat ->
  Atoi v = Some K ->
  0 < K ->
  (forall tr : RunZ,
     is_trace (handleRun os_Args)
       (run_prelude v job buf apiJob (register_trace apiJob (job_ids K) tr)) <->
     tr = TEnd \/ tr = TRet 0) /\
  (forall n : Z, 0 <= n -> Z.of_nat (length (job_ids n)) = n) /\
  (forall n i : Z, 0 <= i < n ->
     nth_error (job_ids n) (Z.to_nat i) = Some ("job-" ++ fmt_d i)%string) /\
  (forall (i : Z) (tr : RunZ),
     0 <= i < K ->
     is_trace (handleRun os_Args)
       (run_prelude v job buf apiJob (register_trace apiJob (job_ids i) tr)) ->
     tr = TEnd \/
     starts_with (JobsRegister (set_ID apiJob ("job-" ++ fmt_d i)%string)) tr) /\
  (forall (i : Z) (err : Error) (tr : RunZ),
     0 <= i < K ->
     is_trace (handleRun os_Args)
       (run_prelude v job buf apiJob
          (register_trace apiJob (job_ids i)
             (JobsRegister (set_ID apiJob ("job-" ++ fmt_d i)%string) /> Some err ;> tr))) <->
     tr = TEnd \/
     tr = TEventEnd (LogFatal ("failed registering jobs: " ++ err)%string)) /\
  (forall id : string,
     ID (set_ID apiJob id) = id /\ Body (set_ID apiJob id) = Body apiJob) /\
  (forall tr : RunZ,
     tr = TEnd \/ tr = TRet 0 ->
     map ID (registrations
               (run_prelude v job buf apiJob (register_trace apiJob (job_ids K) tr))) =
     job_ids K /\
     Z.of_nat (length (registrations
               (run_prelude v job buf apiJob (register_trace apiJob (job_ids K) tr)))) =
     K) /\
  (forall (i : Z) (err : Error) (tr : RunZ),
     0 <= i < K ->
     tr = TEnd \/
     tr = TEventEnd (LogFatal ("failed registering jobs: " ++ err)%string) ->
     map ID (registrations
               (run_prelude v job buf apiJob
                  (register_trace apiJob (job_ids i)
                     (JobsRegister (set_ID apiJob ("job-" ++ fmt_d i)%string)
                        /> Some err ;> tr)))) =
     job_ids i ++ [("job-" ++ fmt_d i)%string]).
Proof.
  intros Hargs HK Hpos.
  split; [| split; [| split; [| split; [| split; [| split; [| split]]]]]].
  - intros tr.
    rewrite (handleRun_registrations os_Args v K K) by (assumption || lia).
    apply register_loop_done. lia.
  - intros n Hn. apply job_ids_length. assumption.
  - intros n i Hi. apply job_ids_nth. assumption.
  - intros i tr Hi.
    rewrite (handleRun_registrations os_Args v K i) by (assumption || lia).
    apply register_loop_first. lia.
  - intros i err tr Hi.
    rewrite (handleRun_registrations os_Args v K i) by (assumption || lia).
    apply register_loop_fails. lia.
  - intros id. split; reflexivity.
  - intros tr Htr.
    rewrite registrations_run_prelude, registrations_register_trace.
    assert (Hnil : registrations tr = []) by (destruct Htr as [-> | ->]; reflexivity).
    rewrite Hnil, app_nil_r, registrations_ID, length_map.
    split; [reflexivity |]. apply job_ids_length. lia.
  - intros i err tr Hi Htr.
    rewrite registrations_run_prelude, registrations_register_trace.
    assert (Hnil : registrations tr = []) by (destruct Htr as [-> | ->]; reflexivity).
    cbn [registrations registration_of app]. rewrite Hnil.
    rewrite map_app, registrations_ID. reflexivity.
Qed.

(** C6, as the code has it: [handleRun] checks that NOMAD_NUM_JOBS is
    numeric and nothing more.  When [Atoi] rejects the value (the empty
    string of an unset variable included) the command dies with its
    diagnostic right after reading the variable, before any other call.  A
    numeric value that is zero or negative is accepted: when the later
    steps succeed the command registers nothing and returns 0. *)
Theorem handleRun_validates_numeric (os_Args : list string) (v : string) :
  length os_Args = 2%nat ->
  (Atoi v = None ->
   forall tr : RunZ,
     is_trace (handleRun os_Args) (Getenv "NOMAD_NUM_JOBS" /> v ;> tr) <->
     tr = TEnd \/ tr = TEventEnd (LogFatal "NOMAD_NUM_JOBS must be numeric")) /\
  Atoi "" = None /\
  (forall K : Z,
     Atoi v = Some K -> K <= 0 ->
     forall (job : StructsJob) (buf : Buffer) (apiJob : ApiJob JobBody) (tr : RunZ),
       is_trace (handleRun os_Args) (run_prelude v job buf apiJob tr) <->
       tr = TEnd \/ tr = TRet 0).
Proof.
  intros Hargs. split; [| split].
  - intros HK tr. apply handleRun_not_numeric; assumption.
  - reflexivity.
  - intros K HK Hle job buf apiJob tr.
    rewrite (handleRun_prelude os_Args v K) by assumption.
    apply register_loop_done. lia.
Qed.

End RunFacts.

(** ** [handleTeardown] *)

Section TeardownFacts.

Context {StructsJob JobBody : Type}.

#[local] Abbreviation RunZ := (@Run StructsJob JobBody Z).

(** C9: when the listing of the jobs succeeds and is empty, the call that
    follows it is the removal of the working directory (no deregistration
    comes in between), and when the removal succeeds [handleTeardown]
    returns 0. *)
Theorem handleTeardown_no_jobs (os_Args : list string) :
  length os_Args = 3%nat ->
  (forall tr : RunZ,
     is_trace (handleTeardown os_Args)
       (ApiNewClient /> None ;> JobsList /> inl [] ;> tr) ->
     tr = TEnd \/ starts_with (RemoveAll (nth 2 os_Args "")) tr) /\
  (forall tr : RunZ,
     is_trace (handleTeardown os_Args)
       (ApiNewClient /> None ;> JobsList /> inl [] ;>
        RemoveAll (nth 2 os_Args "") /> None ;> tr) <->
     tr = TEnd \/ tr = TRet 0).
Proof.
  intros Hargs. unfold handleTeardown, is_trace. rewrite Hargs. cbn [Nat.eqb negb].
  split; intros tr.
  - do 2 run_step. cbn. intros H. apply is_traceF_vis_inv in H.
    unfold starts_with. destruct H as [H | [H | (x & tr' & H & _)]]; eauto.
  - do 3 run_step. cbn. split.
    + apply is_traceF_ret_inv.
    + intros [-> | ->]; constructor.
Qed.

End TeardownFacts.

(** ** The aggregates of a query response *)







(** ** The watch loop *)

Section WatchFacts.

Context {StructsJob JobBody : Type}.

#[local] Abbreviation RunZ := (@Run StructsJob JobBody Z).
#[local] Abbreviation turn_samples st p :=
  (samples (@turn_trace StructsJob JobBody Z st p TEnd)).

(** A turn of the loop: the runs of the loop that start with the events of
    the turn are those that go on as the loop does from the next state. *)
Lemma watch_loop_turn (st : WatchState) (p : Poll) (tr : RunZ) :
  is_trace (watch_loop st) (turn_trace st p tr) <->
  is_trace (watch_loop (watch_next st p)) tr.
Proof.
  unfold is_trace, watch_loop.
  rewrite observe_iter, observe_bind.
  destruct p as [err | resp qm ts]; unfold turn_trace, watch_next.
  - do 3 run_step. reflexivity.
  - do 2 run_step. cbn.
    destruct (LastIndex qm =? index st).
    + run_step. reflexivity.
    + destruct (count_allocs resp) as [allocsPending allocsRunning].
      unfold set_if_changed, set_trace.
      destruct (negb (Z.of_nat (length resp) =? lastTotal st));
      destruct (negb (allocsPending =? lastPending st));
      destruct (negb (allocsRunning =? lastRunning st));
      repeat run_step; reflexivity.
Qed.

Lemma watch_loop_first (st : WatchState) (tr : RunZ) :
  is_trace (watch_loop st) tr ->
  tr = TEnd \/ starts_with (AllocsList (watch_args st)) tr.
Proof.
  unfold is_trace, watch_loop. rewrite observe_iter, observe_bind. cbn.
  intros H. apply is_traceF_vis_inv in H.
  destruct H as [H | [H | (x & tr' & H & _)]]; subst; unfold starts_with; eauto.
Qed.

Lemma watch_loop_waits (st : WatchState) :
  is_trace (watch_loop st) (TEventEnd (AllocsList (watch_args st)) : RunZ).
Proof.
  unfold is_trace, watch_loop. rewrite observe_iter, observe_bind. cbn. constructor.
Qed.

(** After a failed query only the log line can follow. *)
Lemma watch_loop_after_error (st : WatchState) (err : Error) (tr : RunZ) :
  is_trace (watch_loop st) (AllocsList (watch_args st) /> inr err ;> tr) ->
  tr = TEnd \/
  starts_with (LogPrintf ("failed querying allocations: " ++ err)%string) tr.
Proof.
  unfold is_trace, watch_loop. rewrite observe_iter, observe_bind.
  run_step. cbn. intros H. apply is_traceF_vis_inv in H.
  destruct H as [H | [H | (x & tr' & H & _)]]; subst; unfold starts_with; eauto.
Qed.

Lemma watch_trace_sound (script : list Poll) : forall st : WatchState,
  is_trace (watch_loop st) (watch_trace st script : RunZ).
Proof.
  induction script as [|p rest IH]; intros st; cbn [watch_trace].
  - apply watch_loop_waits.
  - apply watch_loop_turn, IH.
Qed.

(** One turn of any run of the loop: the run stops inside the turn, or it
    has the whole turn and goes on as a run from the next state. *)
Lemma watch_loop_unroll (st : WatchState) (tr : RunZ) :
  is_trace (watch_loop st) tr ->
  exists p : Poll,
    truncates tr (turn_trace st p TEnd) \/
    exists tr' : RunZ,
      tr = turn_trace st p tr' /\ is_trace (watch_loop (watch_next st p)) tr'.
Proof.
  intros H. unfold is_trace, watch_loop in H.
  rewrite observe_iter, observe_bind in H. cbn in H.
  apply is_traceF_vis_inv in H. destruct H as [-> | [-> | (x & tr1 & -> & H)]].
  - exists (PollErr ""). left. constructor.
  - exists (PollErr ""). left. constructor.
  - unfold is_trace in H. destruct x as [[resp qm] | err]; cbn in H.
    + apply is_traceF_vis_inv in H. destruct H as [-> | [-> | (ts & tr2 & -> & H)]].
      * exists (PollOk resp qm 0). left. repeat constructor.
      * exists (PollOk resp qm 0). left. repeat constructor.
      * exists (PollOk resp qm ts). unfold is_trace in H. cbn in H.
        unfold turn_trace, watch_next.
        destruct (LastIndex qm =? index st).
        { cbn in H. apply is_traceF_tau_iff in H. right.
          exists tr2. split; [reflexivity | exact H]. }
        destruct (count_allocs resp) as [allocsPending allocsRunning].
        unfold set_if_changed in H. unfold set_trace.
        destruct (negb (Z.of_nat (length resp) =? lastTotal st));
        destruct (negb (allocsPending =? lastPending st));
        destruct (negb (allocsRunning =? lastRunning st));
        cbn in H;
        repeat match type of H with
        | is_traceF (VisF _ _) _ =>
            apply is_traceF_vis_inv in H;
            destruct H as [-> | [-> | ([] & ? & -> & H)]];
            [ left; repeat constructor | left; repeat constructor
            | unfold is_trace in H; cbn in H ]
        end;
        try (apply is_traceF_tau_iff in H; right; eexists;
             split; [reflexivity | exact H]).
    + apply is_traceF_vis_inv in H. destruct H as [-> | [-> | ([] & tr2 & -> & H)]].
      * exists (PollErr err). left. repeat constructor.
      * exists (PollErr err). left. repeat constructor.
      * exists (PollErr err). right. unfold is_trace in H. cbn in H.
        apply is_traceF_tau_iff in H. exists tr2. split; [reflexivity | exact H].
Qed.

(** What holds of [tail] under the events of a turn holds whatever the turn
    sends. *)
Lemma turn_trace_rect (P : RunZ -> RunZ -> Prop) (st : WatchState) (p : Poll)
  (a b : RunZ) :
  (forall (X : Type) (e : benchE StructsJob JobBody X) (x : X) (a' b' : RunZ),
     P a' b' -> P (e /> x ;> a') (e /> x ;> b')) ->
  P a b -> P (turn_trace st p a) (turn_trace st p b).
Proof.
  intros Hstep H. destruct p as [err | resp qm ts]; cbn; [repeat apply Hstep; exact H |].
  destruct (LastIndex qm =? index st); [repeat apply Hstep; exact H |].
  destruct (count_allocs resp) as [allocsPending allocsRunning].
  unfold set_trace.
  destruct (negb (Z.of_nat (length resp) =? lastTotal st));
  destruct (negb (allocsPending =? lastPending st));
  destruct (negb (allocsRunning =? lastRunning st));
  repeat apply Hstep; exact H.
Qed.

Lemma trace_size_turn_trace (st : WatchState) (p : Poll) (tr : RunZ) :
  (trace_size tr < trace_size (turn_trace st p tr))%nat.
Proof.
  destruct p as [err | resp qm ts]; cbn; [lia |].
  destruct (LastIndex qm =? index st); [lia |].
  destruct (count_allocs resp) as [allocsPending allocsRunning].
  unfold set_trace.
  destruct (negb (Z.of_nat (length resp) =? lastTotal st));
  destruct (negb (allocsPending =? lastPending st));
  destruct (negb (allocsRunning =? lastRunning st)); cbn; lia.
Qed.

Lemma turn_trace_truncates (st : WatchState) (p : Poll) (tr full : RunZ) :
  truncates tr full -> truncates (turn_trace st p tr) (turn_trace st p full).
Proof.
  apply (turn_trace_rect (fun a b => truncates a b)).
  intros X e x a' b' H. constructor. exact H.
Qed.

Lemma watch_trace_no_return (script : list Poll) : forall st : WatchState,
  trace_ret (watch_trace st script : RunZ) = None.
Proof.
  induction script as [|p rest IH]; intros st; cbn [watch_trace]; [reflexivity |].
  apply (turn_trace_rect (fun a _ => trace_ret a = None) st p _ TEnd); [| apply IH].
  intros X e x a' b' H. exact H.
Qed.

Lemma watch_loop_complete (tr : RunZ) : forall st : WatchState,
  is_trace (watch_loop st) tr ->
  exists script : list Poll, truncates tr (watch_trace st script).
Proof.
  induction tr as [tr IH] using (induction_ltof1 _ trace_size). unfold ltof in IH.
  intros st H. apply watch_loop_unroll in H.
  destruct H as (p & [Hshort | (tr' & -> & Hnext)]).
  - exists [p]. cbn [watch_trace].
    apply (truncates_trans _ _ _ Hshort), turn_trace_truncates. constructor.
  - destruct (IH tr' (trace_size_turn_trace st p tr') _ Hnext) as (script & Hs).
    exists (p :: script). cbn [watch_trace]. apply turn_trace_truncates, Hs.
Qed.

(** The runs of the loop are the runs over the scripts, and what they are
    cut to. *)
Lemma watch_loop_runs (st : WatchState) (tr : RunZ) :
  is_trace (watch_loop st) tr <->
  exists script : list Poll, truncates tr (watch_trace st script).
Proof.
  split.
  - apply watch_loop_complete.
  - intros (script & Hs). unfold is_trace.
    apply (is_traceF_truncates _ (watch_trace st script)); [| exact Hs].
    apply (watch_trace_sound script st).
Qed.

Lemma watch_loop_no_return (st : WatchState) (tr : RunZ) :
  is_trace (watch_loop st) tr -> trace_ret tr = None.
Proof.
  intros H. apply watch_loop_complete in H. destruct H as (script & Hs).
  apply (truncates_no_return _ _ Hs), watch_trace_no_return.
Qed.

(** *** The cursor *)

Lemma cursors_turn_trace (st : WatchState) (p : Poll) (tail : RunZ) :
  cursors (turn_trace st p tail) = index st :: cursors tail.
Proof.
  destruct p as [err | resp qm ts]; cbn; [reflexivity |].
  destruct (LastIndex qm =? index st); [reflexivity |].
  destruct (count_allocs resp) as [allocsPending allocsRunning].
  unfold set_trace.
  destruct (negb (Z.of_nat (length resp) =? lastTotal st));
  destruct (negb (allocsPending =? lastPending st));
  destruct (negb (allocsRunning =? lastRunning st)); reflexivity.
Qed.

Lemma watch_next_index (st : WatchState) (p : Poll) :
  index (watch_next st p) =
  match p with
  | PollErr _ => index st
  | PollOk _ qm _ => LastIndex qm
  end.
Proof.
  destruct p as [err | resp qm ts]; cbn; [reflexivity |].
  destruct (Z.eqb_spec (LastIndex qm) (index st)) as [Heq | Hne];
    [symmetry; exact Heq |].
  destruct (count_allocs resp). reflexivity.
Qed.

Lemma cursors_truncates (tr full : RunZ) :
  truncates tr full -> exists l : list Z, cursors full = cursors tr ++ l.
Proof.
  induction 1 as [full | r | X e | X e x full | X e x tr full H IH]; cbn.
  - eauto.
  - exists []. reflexivity.
  - exists []. rewrite app_nil_r. reflexivity.
  - eauto.
  - destruct IH as [l ->]. exists l. rewrite app_assoc. reflexivity.
Qed.

Lemma responses_turn_trace (st : WatchState) (p : Poll) (tr : RunZ) :
  responses_never_behind (turn_trace st p tr) ->
  match p with
  | PollErr _ => True
  | PollOk _ qm _ => index st <= LastIndex qm
  end /\ responses_never_behind tr.
Proof.
  destruct p as [err | resp qm ts]; cbn; [tauto |].
  destruct (LastIndex qm =? index st); [tauto |].
  destruct (count_allocs resp) as [allocsPending allocsRunning].
  unfold set_trace.
  destruct (negb (Z.of_nat (length resp) =? lastTotal st));
  destruct (negb (allocsPending =? lastPending st));
  destruct (negb (allocsRunning =? lastRunning st)); cbn; tauto.
Qed.

Lemma cursors_run_head (st : WatchState) (tr : RunZ) :
  is_trace (watch_loop st) tr ->
  cursors tr = [] \/ exists l : list Z, cursors tr = index st :: l.
Proof.
  intros H. apply watch_loop_first in H.
  destruct H as [-> | [-> | (x & tr' & ->)]]; cbn; eauto.
Qed.

Lemma run_cursors_sorted (tr : RunZ) : forall st : WatchState,
  is_trace (watch_loop st) tr ->
  responses_never_behind tr ->
  Sorted Z.le (cursors tr).
Proof.
  induction tr as [tr IH] using (induction_ltof1 _ trace_size). unfold ltof in IH.
  intros st H Hnb. apply watch_loop_unroll in H.
  destruct H as (p & [Hshort | (tr' & -> & Hnext)]).
  - apply cursors_truncates in Hshort. destruct Hshort as [l Hl].
    rewrite cursors_turn_trace in Hl. cbn in Hl.
    destruct (cursors tr) as [|c [|c' cs]]; [repeat constructor .. | discriminate Hl].
  - rewrite cursors_turn_trace.
    apply responses_turn_trace in Hnb. destruct Hnb as [Hp Hnb].
    constructor.
    + apply (IH tr' (trace_size_turn_trace st p tr') _ Hnext Hnb).
    + destruct (cursors_run_head _ _ Hnext) as [-> | [l ->]]; constructor.
      rewrite watch_next_index. destruct p; [lia | exact Hp].
Qed.

(** C1, as the code has it: a turn of the loop that takes a successful
    answer leaves the cursor at the index that the answer reports, whatever
    that index is, and a failed query leaves the cursor alone.  So in every
    run of the loop in which no answer reports an index below the
    [WaitIndex] of its query, the cursors sent with the queries never
    decrease. *)
Theorem watch_cursor_nondecreasing (st : WatchState) (tr : RunZ) :
  is_trace (watch_loop st) tr ->
  responses_never_behind tr ->
  Sorted Z.le (cursors tr) /\
  (forall (s : WatchState) (p : Poll) (tail : RunZ),
     is_trace (watch_loop s) (turn_trace s p tail) <->
     is_trace (watch_loop (watch_next s p)) tail) /\
  (forall (s : WatchState) (p : Poll),
     index (watch_next s p) =
     match p with
     | PollErr _ => index s
     | PollOk _ qm _ => LastIndex qm
     end).
Proof.
  intros H Hnb. split; [| split].
  - apply (run_cursors_sorted tr st H Hnb).
  - apply watch_loop_turn.
  - apply watch_next_index.
Qed.

(** C3: when a query succeeds and reports the index that the loop holds,
    the turn is the query and the reading of the clock and nothing else: no
    sample is sent, whatever the response lists, and the loop goes on from
    the same state, cursor included, so its next call is the same query. *)
Theorem watch_same_index_noop (st : WatchState) (resp : list Allocation)
  (qm : QueryMeta) (ts : Time) :
  LastIndex qm = index st ->
  (forall tr : RunZ,
     is_trace (watch_loop st)
       (AllocsList (watch_args st) /> inl (resp, qm) ;> TimeNowUTC /> ts ;> tr) <->
     is_trace (watch_loop st) tr) /\
  (forall tr : RunZ,
     is_trace (watch_loop st) tr ->
     tr = TEnd \/ starts_with (AllocsList (watch_args st)) tr) /\
  watch_next st (PollOk resp qm ts) = st /\
  turn_samples st (PollOk resp qm ts) = [].
Proof.
  intros Heq. apply Z.eqb_eq in Heq.
  split; [| split; [| split]].
  - intros tr. pose proof (watch_loop_turn st (PollOk resp qm ts) tr) as H.
    unfold turn_trace, watch_next in H. rewrite Heq in H. exact H.
  - apply watch_loop_first.
  - unfold watch_next. rewrite Heq. reflexivity.
  - unfold turn_trace. rewrite Heq. reflexivity.
Qed.

(** C4: when the query fails, the loop logs the failure and goes on from
    the same state: nothing but the log line can follow the failed query,
    after it the loop behaves as it does from the state it was in, and its
    next call is the query with the same cursor.  No sample is sent, and no
    run of the loop ever returns. *)
Theorem watch_query_error_retries (st : WatchState) (err : Error) :
  (forall tr : RunZ,
     is_trace (watch_loop st)
       (AllocsList (watch_args st) /> inr err ;>
        LogPrintf ("failed querying allocations: " ++ err)%string /> tt ;> tr) <->
     is_trace (watch_loop st) tr) /\
  (forall tr : RunZ,
     is_trace (watch_loop st) (AllocsList (watch_args st) /> inr err ;> tr) ->
     tr = TEnd \/
     starts_with (LogPrintf ("failed querying allocations: " ++ err)%string) tr) /\
  is_trace (watch_loop st)
    (AllocsList (watch_args st) /> inr err ;>
     LogPrintf ("failed querying allocations: " ++ err)%string /> tt ;>
     (TEventEnd (AllocsList (watch_args st)) : RunZ)) /\
  (forall tr : RunZ,
     is_trace (watch_loop st) tr ->
     (tr = TEnd \/ starts_with (AllocsList (watch_args st)) tr) /\
     trace_ret tr = None) /\
  watch_next st (PollErr err) = st /\
  turn_samples st (PollErr err) = [].
Proof.
  split; [| split; [| split; [| split; [| split]]]].
  - intros tr. apply (watch_loop_turn st (PollErr err) tr).
  - apply watch_loop_after_error.
  - apply (watch_loop_turn st (PollErr err)). apply watch_loop_waits.
  - intros tr H. split; [apply watch_loop_first | apply (watch_loop_no_return st)];
      exact H.
  - reflexivity.
  - reflexivity.
Qed.

End WatchFacts.

(** *** The samples *)

Section SampleFacts.

Context {StructsJob JobBody : Type}.

#[local] Abbreviation RunZ := (@Run StructsJob JobBody Z).
#[local] Abbreviation turn_samples st p :=
  (samples (@turn_trace StructsJob JobBody Z st p TEnd)).

Lemma samples_turn_trace (st : WatchState) (p : Poll) (tail : RunZ) :
  samples (turn_trace st p tail) = turn_samples st p ++ samples tail.
Proof.
  destruct p as [err | resp qm ts]; cbn; [reflexivity |].
  destruct (LastIndex qm =? index st); [reflexivity |].
  destruct (count_allocs resp) as [allocsPending allocsRunning].
  unfold set_trace.
  destruct (negb (Z.of_nat (length resp) =? lastTotal st));
  destruct (negb (allocsPending =? lastPending st));
  destruct (negb (allocsRunning =? lastRunning st)); reflexivity.
Qed.

Lemma samples_watch_trace_snoc (script : list Poll) (p : Poll) :
  forall st : WatchState,
  samples (watch_trace st (script ++ [p]) : RunZ) =
  samples (watch_trace st script : RunZ) ++ turn_samples (watch_state st script) p.
Proof.
  induction script as [|q rest IH]; intros st; cbn [watch_trace app].
  - rewrite samples_turn_trace. cbn. rewrite app_nil_r. reflexivity.
  - rewrite (samples_turn_trace st q (watch_trace _ (rest ++ [p]))).
    rewrite (samples_turn_trace st q (watch_trace _ rest)).
    rewrite IH, app_assoc. reflexivity.
Qed.

Lemma last_emitted_snoc (name : string) (h : list Sample) (s : Sample) :
  last_emitted name (h ++ [s]) =
  if String.eqb (fst (fst s)) name then Some (snd (fst s)) else last_emitted name h.
Proof. unfold last_emitted. rewrite fold_left_app. reflexivity. Qed.

Lemma last_or_zero_snoc (name : string) (h : list Sample) (n : string) (v : Z)
  (ts : Time) :
  last_or_zero name (h ++ [(n, v, ts)]) =
  if String.eqb n name then v else last_or_zero name h.
Proof.
  unfold last_or_zero. rewrite last_emitted_snoc. cbn.
  destruct (String.eqb n name); reflexivity.
Qed.

(** The samples of a turn that takes a response: the candidates that differ
    from what the history says was sent last. *)
Lemma turn_samples_changed (h : list Sample) (st : WatchState)
  (resp : list Allocation) (qm : QueryMeta) (ts : Time) :
  cache_ok h st ->
  LastIndex qm <> index st ->
  turn_samples st (PollOk resp qm ts) = filter (changed h) (candidates resp ts).
Proof.
  intros (Ht & Hp & Hr) Hne. unfold turn_trace.
  apply Z.eqb_neq in Hne. rewrite Hne.
  unfold candidates, changed, metric_names, metric_value.
  cbn [map filter fst snd String.eqb Ascii.eqb Bool.eqb].
  destruct (count_allocs resp) as [allocsPending allocsRunning]. cbn [fst snd].
  rewrite <- Ht, <- Hp, <- Hr. unfold set_trace.
  destruct (negb (Z.of_nat (length resp) =? lastTotal st));
  destruct (negb (allocsPending =? lastPending st));
  destruct (negb (allocsRunning =? lastRunning st)); reflexivity.
Qed.

(** The invariant of the loop: its last-emitted variables agree with the
    samples sent so far. *)
Lemma cache_ok_turn (h : list Sample) (st : WatchState) (p : Poll) :
  cache_ok h st -> cache_ok (h ++ turn_samples st p) (watch_next st p).
Proof.
  intros (Ht & Hp & Hr). unfold cache_ok.
  destruct p as [err | resp qm ts]; cbn [turn_trace watch_next samples sample_of app].
  - rewrite app_nil_r. auto.
  - destruct (LastIndex qm =? index st); [cbn; rewrite app_nil_r; auto |].
    destruct (count_allocs resp) as [allocsPending allocsRunning].
    cbn [lastTotal lastPending lastRunning].
    unfold set_trace.
    destruct (negb (Z.of_nat (length resp) =? lastTotal st));
    destruct (negb (allocsPending =? lastPending st));
    destruct (negb (allocsRunning =? lastRunning st));
    cbn [samples sample_of app];
    repeat match goal with
    | |- context [ ?l ++ ?a :: ?b :: ?m ] =>
        change (l ++ a :: b :: m) with (l ++ [a] ++ b :: m);
        rewrite (app_assoc l [a])
    end;
    rewrite ?app_nil_r, ?last_or_zero_snoc;
    cbn [String.eqb Ascii.eqb Bool.eqb]; auto.
Qed.

Lemma cache_ok_run (script : list Poll) :
  forall (h : list Sample) (st : WatchState),
  cache_ok h st ->
  cache_ok (h ++ samples (watch_trace st script : RunZ)) (watch_state st script).
Proof.
  induction script as [|p rest IH]; intros h st Hok;
    cbn [watch_trace watch_state fold_left].
  - cbn. rewrite app_nil_r. exact Hok.
  - rewrite samples_turn_trace, app_assoc. apply IH, cache_ok_turn, Hok.
Qed.

Lemma cache_ok_init : cache_ok [] watch_init.
Proof. repeat split. Qed.

Lemma candidates_In (resp : list Allocation) (ts : Time) (name : string) (v : Z)
  (ts' : Time) :
  In (name, v, ts') (candidates resp ts) <->
  In name metric_names /\ v = metric_value name resp /\ ts' = ts.
Proof.
  unfold candidates. rewrite in_map_iff. split.
  - intros (n & Heq & Hin). inversion Heq; subst. auto.
  - intros (Hin & -> & ->). eauto.
Qed.

Lemma candidates_names_NoDup (h : list Sample) (resp : list Allocation) (ts : Time) :
  NoDup (map (fun s : Sample => fst (fst s)) (filter (changed h) (candidates resp ts))).
Proof.
  unfold candidates, metric_names. cbn [map filter].
  repeat match goal with
  | |- context [ if changed h ?s then _ else _ ] => destruct (changed h s)
  end;
  cbn [map fst]; repeat constructor; cbn; intuition discriminate.
Qed.

(** C2, as the code has it: in a turn that takes a response (its index is
    not the cursor), the loop sends at most one sample for each of placed,
    booting and running, stamped with the time read after the query, and it
    sends the sample of a metric exactly when the aggregate differs from
    the value of the last sample sent for that metric, or from 0 when no
    sample was sent for it yet. *)
Theorem watch_emits_on_change (script : list Poll) (resp : list Allocation)
  (qm : QueryMeta) (ts : Time) :
  LastIndex qm <> index (watch_state watch_init script) ->
  let before : RunZ := watch_trace watch_init script in
  let after : RunZ := watch_trace watch_init (script ++ [PollOk resp qm ts]) in
  is_trace (watch_loop watch_init) after /\
  exists new : list Sample,
    samples after = samples before ++ new /\
    NoDup (map (fun s : Sample => fst (fst s)) new) /\
    forall (name : string) (v : Z) (ts' : Time),
      In (name, v, ts') new <->
      In name metric_names /\ v = metric_value name resp /\ ts' = ts /\
      v <> last_or_zero name (samples before).
Proof.
  intros Hne before after. split; [apply watch_trace_sound |].
  exists (turn_samples (watch_state watch_init script) (PollOk resp qm ts)).
  pose proof (cache_ok_run script [] watch_init cache_ok_init) as Hok.
  cbn [app] in Hok. fold before in Hok.
  rewrite (turn_samples_changed (samples before)) by assumption.
  split; [| split].
  - unfold after. rewrite samples_watch_trace_snoc.
    rewrite (turn_samples_changed (samples before)) by assumption. reflexivity.
  - apply candidates_names_NoDup.
  - intros name v ts'. rewrite filter_In, candidates_In. unfold changed. cbn [fst snd].
    rewrite negb_true_iff, Z.eqb_neq. tauto.
Qed.

End SampleFacts.

(** ** [handleStatus] *)

Section StatusFacts.

Context {StructsJob JobBody : Type}.

#[local] Abbreviation RunZ := (@Run StructsJob JobBody Z).

(** C10: once [handleStatus] has its two clients, it behaves as the watch
    loop does from the state with the cursor 1 and the three last-emitted
    values 0; so the first query goes out with [WaitIndex] 1 and
    [AllowStale] set, and no other call comes before it. *)
Theorem handleStatus_initial_state (os_Args : list string) :
  length os_Args = 3%nat ->
  watch_init = {| index := 1; lastPending := 0; lastRunning := 0; lastTotal := 0 |} /\
  (forall tr : RunZ,
     is_trace (handleStatus os_Args)
       (ApiNewClient /> None ;> StatusNewClient (nth 2 os_Args "") /> None ;> tr) <->
     is_trace (watch_loop watch_init) tr) /\
  is_trace (handleStatus os_Args)
    (ApiNewClient /> None ;> StatusNewClient (nth 2 os_Args "") /> None ;>
     (TEventEnd (AllocsList {| AllowStale := true; WaitIndex := 1 |}) : RunZ)) /\
  (forall tr : RunZ,
     is_trace (handleStatus os_Args)
       (ApiNewClient /> None ;> StatusNewClient (nth 2 os_Args "") /> None ;> tr) ->
     tr = TEnd \/
     starts_with (AllocsList {| AllowStale := true; WaitIndex := 1 |}) tr).
Proof.
  intros Hargs.
  assert (Hloop : forall tr : RunZ,
     is_trace (handleStatus os_Args)
       (ApiNewClient /> None ;> StatusNewClient (nth 2 os_Args "") /> None ;> tr) <->
     is_trace (watch_loop watch_init) tr).
  { intros tr. unfold handleStatus, is_trace. rewrite Hargs. cbn [Nat.eqb negb].
    do 2 run_step. cbn. reflexivity. }
  split; [reflexivity |]. split; [exact Hloop |]. split.
  - apply Hloop. apply (watch_loop_waits watch_init).
  - intros tr H. apply Hloop in H. apply (watch_loop_first watch_init) in H. exact H.
Qed.

End StatusFacts.

(** * Facts about the rest of the program *)

Lemma is_trace_subst_ret {E : Type -> Type} {A R : Type} (k : A -> itree E R) (a : A)
  (tr : @trace E R) :
  is_trace (ITree.subst k (Ret a)) tr <-> is_trace (k a) tr.
Proof. unfold is_trace. rewrite observe_subst_ret. reflexivity. Qed.

Section FatalFacts.
Context {StructsJob JobBody : Type}.

(** After a fatal log line nothing follows. *)
Lemma fatal_runs {R : Type} (msg : string)
  (k : void -> itree (benchE StructsJob JobBody) R) (tr : @Run StructsJob JobBody R) :
  is_traceF (VisF (LogFatal msg) k) tr <-> tr = TEnd \/ tr = TEventEnd (LogFatal msg).
Proof.
  split.
  - intros H. apply is_traceF_vis_inv in H. destruct H as [H | [H | (x & _)]]; auto.
    destruct x.
  - intros [-> | ->]; constructor.
Qed.

End FatalFacts.

(** ** Every run of [handleRun] *)

(** [%d] prints different numbers differently. *)
Lemma to_int_not_nil (z : Z) :
  Z.to_int z <> Decimal.Pos Decimal.Nil /\ Z.to_int z <> Decimal.Neg Decimal.Nil.
Proof.
  pose proof (DecimalZ.to_of (Z.to_int z)) as H. rewrite DecimalZ.of_to in H.
  split; intros Heq; rewrite Heq in H; discriminate H.
Qed.

Lemma fmt_d_inj (a b : Z) : fmt_d a = fmt_d b -> a = b.
Proof.
  unfold fmt_d. intros H.
  apply (f_equal NilZero.int_of_string) in H.
  destruct (to_int_not_nil a) as [Ha1 Ha2]. destruct (to_int_not_nil b) as [Hb1 Hb2].
  rewrite !NilZero.isi in H by assumption.
  injection H as H. apply (f_equal Z.of_int) in H.
  rewrite !DecimalZ.of_to in H. exact H.
Qed.

(** One digit of a numeral. *)
Ltac read_digit :=
  cbn [NilEmpty.string_of_uint parse_digits];
  match goal with
  | |- context [digit_of ?c] =>
      let v := eval vm_compute in (digit_of c) in change (digit_of c) with v
  end;
  cbv beta iota.

Lemma parse_digits_acc (d : Decimal.uint) : forall (p : positive),
  parse_digits (NilEmpty.string_of_uint d) (Z.pos p) = Some (Z.pos (Pos.of_uint_acc d p)).
Proof.
  induction d as [| d IH | d IH | d IH | d IH | d IH | d IH | d IH | d IH | d IH | d IH];
    intros p; [reflexivity | read_digit; cbn [Pos.of_uint_acc]; rewrite <- IH; f_equal; lia ..].
Qed.

Lemma parse_digits_uint (d : Decimal.uint) :
  parse_digits (NilEmpty.string_of_uint d) 0 = Some (Z.of_uint d).
Proof.
  unfold Z.of_uint.
  induction d as [| d IH | d IH | d IH | d IH | d IH | d IH | d IH | d IH | d IH | d IH];
    [reflexivity | read_digit; exact IH
    | read_digit; cbn [Pos.of_uint Z.of_N]; rewrite <- parse_digits_acc; f_equal ..].
Qed.

Lemma string_of_uint_digit (d : Decimal.uint) :
  d <> Decimal.Nil ->
  exists (c : ascii) (rest : string),
    NilEmpty.string_of_uint d = String c rest /\
    Ascii.eqb c "-" = false /\ Ascii.eqb c "+" = false.
Proof.
  intros Hd. destruct d; [congruence | cbn; eexists _, _; repeat split ..].
Qed.

(** What [%d] prints, [Atoi] reads back. *)
Lemma Atoi_fmt_d (n : Z) :
  min_int64 <= n <= max_int64 -> Atoi (fmt_d n) = Some n.
Proof.
  intros Hn. unfold fmt_d.
  pose proof (DecimalZ.of_to n) as Hof.
  assert (Hrange : (min_int64 <=? n) && (n <=? max_int64) = true).
  { apply andb_true_iff. split; apply Z.leb_le; lia. }
  destruct (Z.to_int n) as [u | u] eqn:Hu.
  - assert (Hnil : u <> Decimal.Nil).
    { intros ->. destruct (to_int_not_nil n) as [H _]. congruence. }
    cbn [NilZero.string_of_int]. unfold NilZero.string_of_uint.
    replace (match u with Decimal.Nil => "0" | _ => NilEmpty.string_of_uint u end)
      with (NilEmpty.string_of_uint u) by (destruct u; congruence).
    destruct (string_of_uint_digit u Hnil) as (c & rest & Hs & Hm & Hp).
    unfold Atoi. rewrite Hs, Hm, Hp. cbn [orb]. rewrite <- Hs, parse_digits_uint.
    cbn [Z.of_int] in Hof. rewrite Hof, Hrange. reflexivity.
  - assert (Hnil : u <> Decimal.Nil).
    { intros ->. destruct (to_int_not_nil n) as [_ H]. congruence. }
    cbn [NilZero.string_of_int]. unfold NilZero.string_of_uint.
    replace (match u with Decimal.Nil => "0" | _ => NilEmpty.string_of_uint u end)
      with (NilEmpty.string_of_uint u) by (destruct u; congruence).
    destruct (string_of_uint_digit u Hnil) as (c & rest & Hs & _).
    unfold Atoi. cbn [Ascii.eqb Bool.eqb orb]. rewrite Hs, <- Hs, parse_digits_uint.
    cbn [Z.of_int] in Hof. rewrite Hof, Hrange. reflexivity.
Qed.

Lemma job_id_inj (i j : Z) : job_id i = job_id j -> i = j.
Proof.
  unfold job_id. cbn [String.append]. intros H. injection H as H. apply fmt_d_inj, H.
Qed.

Lemma ids_from_NoDup (i : Z) (n : nat) : NoDup (ids_from i n).
Proof.
  unfold ids_from. apply NoDup_map_NoDup_ForallPairs; [| apply seq_NoDup].
  intros a b _ _ H. apply job_id_inj in H. lia.
Qed.

Section RunRuns.
Context {StructsJob JobBody : Type}.
#[local] Abbreviation RunZ := (@Run StructsJob JobBody Z).

(** The registrations of the loop from its turn [i] on: an initial part of
    job-i .. job-(K-1); the loop returns after the whole of it. *)
Lemma register_loop_prefix (K : Z) (m : nat) :
  forall (i : Z) (job : ApiJob JobBody) (tr : RunZ),
  0 <= i -> K <= max_int64 -> Z.to_nat (K - i) = m ->
  is_trace (register_loop K i job) tr ->
  exists n : nat,
    (n <= m)%nat /\
    registrations tr = map (set_ID job) (ids_from i n) /\
    (forall c : Z, trace_ret tr = Some c -> c = 0 /\ n = m).
Proof.
  induction m as [|m IH]; intros i job tr Hi HK Hm H.
  - apply register_loop_done in H; [| lia].
    exists 0%nat. destruct H as [-> | ->]; cbn; repeat split; try lia; congruence.
  - assert (Hlt : i < K) by lia.
    pose proof (register_loop_first K i job tr Hlt H) as [-> | [-> | (x & tr' & ->)]].
    + exists 0%nat. cbn. repeat split; try lia; discriminate.
    + exists 1%nat. cbn. rewrite Z.add_0_r. repeat split; try lia; discriminate.
    + destruct x as [err |].
      * apply register_loop_fails in H; [| lia].
        exists 1%nat. cbn. rewrite Z.add_0_r.
        destruct H as [-> | ->]; cbn; repeat split; try lia; discriminate.
      * apply register_loop_next in H; [| lia | lia].
        apply register_loop_ID in H.
        destruct (IH (i + 1) job tr' ltac:(lia) HK ltac:(lia) H) as (n & Hn & Hreg & Hret).
        exists (S n). rewrite ids_from_S. cbn. rewrite Hreg.
        split; [lia |]. split; [reflexivity |].
        intros c Hc. destruct (Hret c Hc) as [-> ->]. split; reflexivity.
Qed.

(** With [apiJob] nil the loop registers nothing: it returns at once when
    there is nothing to do, and panics in its first turn otherwise. *)
Lemma nil_loop_runs (K : Z) (tr : RunZ) :
  is_trace (ITree.iter (register_step K) (0, None) ;; Ret 0) tr ->
  registrations tr = [] /\
  (forall c : Z, trace_ret tr = Some c -> c = 0 /\ K <= 0).
Proof.
  unfold is_trace. rewrite observe_bind, observe_iter, observe_bind. unfold register_step.
  destruct (Z.ltb_spec 0 K) as [HK | HK]; cbn; intros H.
  - apply is_traceF_vis_inv in H. destruct H as [-> | [-> | ([] & _)]];
      cbn; split; try reflexivity; intros ? ?; discriminate.
  - apply is_traceF_ret_inv in H. destruct H as [-> | ->]; cbn; split; try reflexivity;
      intros c Hc; [discriminate |]. split; [congruence | assumption].
Qed.

End RunRuns.

(** Case analysis on the next call of a run: the run was cut before the
    call, or at the call, or the call was answered by [x]. *)
Ltac quiet_run :=
  left; cbn; split; reflexivity.

Ltac run_cases H x :=
  cbn in H; apply is_traceF_vis_inv in H;
  let t := fresh "tr" in
  destruct H as [-> | [-> | (x & t & -> & H)]];
  [ quiet_run | quiet_run | unfold is_trace in H ].

Ltac fatal_run H :=
  let v := fresh "v" in run_cases H v; destruct v.

Section RunShape.
Context {StructsJob JobBody : Type}.
#[local] Abbreviation RunZ := (@Run StructsJob JobBody Z).

(** The runs of [handleRun]: those that stop before the loop, those that
    reach the loop with [apiJob] nil, and those that reach it with a job. *)
Lemma handleRun_runs (os_Args : list string) (tr : RunZ) :
  is_trace (handleRun os_Args) tr ->
  (registrations tr = [] /\ trace_ret tr = None) \/
  (exists (v : string) (K : Z) (job : StructsJob) (buf : Buffer) (tail : RunZ),
     length os_Args = 2%nat /\ Atoi v = Some K /\
     tr = run_prelude_nil v job buf tail /\
     is_trace (ITree.iter (register_step K) (0, None) ;; Ret 0) tail) \/
  (exists (v : string) (K : Z) (job : StructsJob) (buf : Buffer)
          (apiJob : ApiJob JobBody) (tail : RunZ),
     length os_Args = 2%nat /\ Atoi v = Some K /\
     tr = run_prelude v job buf apiJob tail /\
     is_trace (register_loop K 0 apiJob) tail).
Proof.
  unfold handleRun, is_trace.
  destruct (Nat.eqb (length os_Args) 2) eqn:Hargs; cbn [negb]; intros H;
    [| fatal_run H].
  apply Nat.eqb_eq in Hargs.
  run_cases H v. rewrite observe_subst_ret in H. cbv beta in H.
  destruct (Atoi v) as [K |] eqn:HK; [| fatal_run H].
  run_cases H parsed. destruct parsed as [job | err]; [| fatal_run H].
  run_cases H u1. run_cases H u2. destruct u1, u2.
  run_cases H encoded. destruct encoded as [buf | err]; [| fatal_run H].
  run_cases H decoded. destruct decoded as [p [err |]]; [fatal_run H |].
  run_cases H client. destruct client as [err |]; [fatal_run H |].
  destruct p as [apiJob |].
  - right. right. exists v, K, job, buf, apiJob. eexists. repeat split; try eassumption.
  - right. left. exists v, K, job, buf. eexists. repeat split; try eassumption.
Qed.

Lemma ids_from_nth (i : Z) (n k : nat) :
  (k < n)%nat -> nth_error (ids_from i n) k = Some (job_id (i + Z.of_nat k)).
Proof.
  intros Hk. unfold ids_from. rewrite nth_error_map, nth_error_seq.
  destruct (Nat.ltb_spec k n) as [_ | Hge]; [reflexivity | lia].
Qed.

(** X1: whatever the environment answers, the jobs registered in a run are
    the parsed job under the identifiers job-0, job-1, ... in this order,
    without a gap and without a repeat, and never more than the K that
    NOMAD_NUM_JOBS holds: the [ID] field of the k-th registration is job-k,
    and every registered job is the converted job in everything else.  A
    registration takes place only after the variable, the job file, the
    conversion and the client all succeeded. *)
Theorem handleRun_registers_prefix (os_Args : list string) (tr : RunZ) :
  is_trace (handleRun os_Args) tr ->
  registrations tr <> [] ->
  exists (v : string) (K : Z) (job : StructsJob) (buf : Buffer)
         (apiJob : ApiJob JobBody) (tail : RunZ) (n : nat),
    length os_Args = 2%nat /\ Atoi v = Some K /\
    tr = run_prelude v job buf apiJob tail /\
    (0 < n)%nat /\ Z.of_nat n <= K /\
    registrations tr = map (set_ID apiJob) (ids_from 0 n) /\
    length (registrations tr) = n /\
    (forall k : nat, (k < n)%nat ->
       nth_error (map ID (registrations tr)) k =
       Some ("job-" ++ fmt_d (Z.of_nat k))%string) /\
    (forall j : ApiJob JobBody, In j (registrations tr) -> Body j = Body apiJob).
Proof.
  intros H Hreg. apply handleRun_runs in H.
  destruct H as [(Hnone & _) | [(v & K & job & buf & tail & _ & _ & -> & H)
                               | (v & K & job & buf & apiJob & tail & Hargs & HK & -> & H)]].
  - contradiction.
  - apply nil_loop_runs in H. destruct H as [Hnone _]. cbn in Hreg. contradiction.
  - pose proof (Atoi_range v K HK) as [_ Hmax].
    apply (register_loop_prefix K _ 0 apiJob tail (Z.le_refl 0) Hmax eq_refl) in H.
    destruct H as (n & Hn & Hregs & _). rewrite registrations_run_prelude in Hreg |- *.
    assert (Hpos : (0 < n)%nat).
    { destruct n; [| lia]. cbn in Hregs. congruence. }
    exists v, K, job, buf, apiJob, tail, n.
    split; [exact Hargs |]. split; [exact HK |]. split; [reflexivity |].
    split; [exact Hpos |]. split; [lia |]. split; [exact Hregs |].
    rewrite Hregs. split; [| split].
    + unfold ids_from. rewrite !length_map, length_seq. reflexivity.
    + intros k Hk. rewrite registrations_ID, (ids_from_nth 0 n k Hk). reflexivity.
    + intros j Hj. apply in_map_iff in Hj. destruct Hj as (id & <- & _). reflexivity.
Qed.

(** *** No run is stuck *)















(** X3: each step before the loop ends the command when it fails: the wrong
    number of arguments, a job file that does not parse, a conversion whose
    encoding or decoding fails, no client.  Only the fatal log line
    follows, with the diagnostic of that step; nothing is registered. *)
Theorem handleRun_failures (os_Args : list string) :
  (length os_Args <> 2%nat ->
   forall tr : RunZ,
     is_trace (handleRun os_Args) tr <->
     tr = TEnd \/ tr = TEventEnd (LogFatal "usage: nomad-bench run")) /\
  (length os_Args = 2%nat ->
   forall (v : string) (K : Z), Atoi v = Some K ->
   (forall (err : Error) (tr : RunZ),
      is_trace (handleRun os_Args)
        (Getenv "NOMAD_NUM_JOBS" /> v ;> ParseFile "job.nomad" /> inr err ;> tr) <->
      tr = TEnd \/
      tr = TEventEnd (LogFatal ("failed parsing job file: " ++ err)%string)) /\
   (forall (job : StructsJob) (err : Error) (tr : RunZ),
      is_trace (handleRun os_Args)
        (Getenv "NOMAD_NUM_JOBS" /> v ;> ParseFile "job.nomad" /> inl job ;>
         gob_registered (GobEncode job /> inr err ;> tr)) <->
      tr = TEnd \/
      tr = TEventEnd (LogFatal ("failed converting job: " ++ err)%string)) /\
   (forall (job : StructsJob) (buf : Buffer) (p : option (ApiJob JobBody))
           (err : Error) (tr : RunZ),
      is_trace (handleRun os_Args)
        (Getenv "NOMAD_NUM_JOBS" /> v ;> ParseFile "job.nomad" /> inl job ;>
         gob_registered
           (GobEncode job /> inl buf ;> GobDecode buf /> (p, Some err) ;> tr)) <->
      tr = TEnd \/
      tr = TEventEnd (LogFatal ("failed converting job: " ++ err)%string)) /\
   (forall (job : StructsJob) (buf : Buffer) (p : option (ApiJob JobBody))
           (err : Error) (tr : RunZ),
      is_trace (handleRun os_Args)
        (Getenv "NOMAD_NUM_JOBS" /> v ;> ParseFile "job.nomad" /> inl job ;>
         convert_ok_trace job buf p (ApiNewClient /> Some err ;> tr)) <->
      tr = TEnd \/
      tr = TEventEnd (LogFatal ("failed creating nomad client: " ++ err)%string))).
Proof.
  split.
  - intros Hargs tr. unfold handleRun, is_trace.
    apply Nat.eqb_neq in Hargs. rewrite Hargs. cbn. apply fatal_runs.
  - intros Hargs v K HK.
    unfold handleRun, convert_ok_trace, gob_registered, is_trace.
    rewrite Hargs. cbn [Nat.eqb negb].
    split; [| split; [| split]].
    + intros err tr. run_step. rewrite observe_subst_ret, HK.
      run_step. cbn. apply fatal_runs.
    + intros job err tr. run_step. rewrite observe_subst_ret, HK.
      do 4 run_step. cbn. apply fatal_runs.
    + intros job buf p err tr. run_step. rewrite observe_subst_ret, HK.
      do 5 run_step. cbn. apply fatal_runs.
    + intros job buf p err tr. run_step. rewrite observe_subst_ret, HK.
      do 6 run_step. cbn. apply fatal_runs.
Qed.

Lemma handleRun_registered_ids (os_Args : list string) (tr : RunZ) :
  is_trace (handleRun os_Args) tr ->
  exists n : nat, map ID (registrations tr) = ids_from 0 n.
Proof.
  intros H. apply handleRun_runs in H.
  destruct H as [(Hnone & _) | [(v & K & job & buf & tail & _ & _ & -> & H)
                               | (v & K & job & buf & apiJob & tail & Hargs & HK & -> & H)]].
  - exists 0%nat. rewrite Hnone. reflexivity.
  - apply nil_loop_runs in H. destruct H as [Hnone _].
    exists 0%nat. cbn. rewrite Hnone. reflexivity.
  - pose proof (Atoi_range v K HK) as [_ Hmax].
    apply (register_loop_prefix K _ 0 apiJob tail (Z.le_refl 0) Hmax eq_refl) in H.
    destruct H as (n & _ & Hregs & _).
    exists n. cbn. rewrite Hregs. apply registrations_ID.
Qed.

Lemma handleRun_returns_zero (os_Args : list string) (tr : RunZ) (c : Z) :
  is_trace (handleRun os_Args) tr -> trace_ret tr = Some c -> c = 0.
Proof.
  intros H Hret. apply handleRun_runs in H.
  destruct H as [(_ & Hnone) | [(v & K & job & buf & tail & _ & _ & -> & H)
                               | (v & K & job & buf & apiJob & tail & _ & HK & -> & H)]].
  - congruence.
  - apply nil_loop_runs in H. destruct H as [_ Hc]. apply (Hc c Hret).
  - pose proof (Atoi_range v K HK) as [_ Hmax].
    apply (register_loop_prefix K _ 0 apiJob tail (Z.le_refl 0) Hmax eq_refl) in H.
    destruct H as (n & _ & _ & Hc). apply (Hc c Hret).
Qed.

(** X4: no two registrations of a run carry the same identifier, so no job
    of the benchmark replaces another one: the decimal numerals of
    different loop counters differ. *)
Theorem handleRun_ids_distinct (os_Args : list string) (tr : RunZ) :
  is_trace (handleRun os_Args) tr ->
  NoDup (map ID (registrations tr)).
Proof.
  intros H. apply handleRun_registered_ids in H. destruct H as (n & ->).
  apply ids_from_NoDup.
Qed.

End RunShape.

(** ** Every run of [handleTeardown] *)

Section TeardownRuns.
Context {StructsJob JobBody : Type}.
#[local] Abbreviation RunZ := (@Run StructsJob JobBody Z).

Lemma handleTeardown_listed (os_Args : list string) (jobs : list JobListStub) (tr : RunZ) :
  length os_Args = 3%nat ->
  is_trace (handleTeardown os_Args) (ApiNewClient /> None ;> JobsList /> inl jobs ;> tr) <->
  is_trace (teardown_rest os_Args jobs) tr.
Proof.
  intros Hargs. unfold handleTeardown, teardown_rest, is_trace. rewrite Hargs. cbn [Nat.eqb negb].
  do 2 run_step. cbn. reflexivity.
Qed.

Lemma teardown_rest_next (os_Args : list string) (job : JobListStub)
  (jobs : list JobListStub) (tr : RunZ) :
  is_trace (teardown_rest os_Args (job :: jobs)) (JobsDeregister (StubID job) /> None ;> tr) <->
  is_trace (teardown_rest os_Args jobs) tr.
Proof.
  unfold teardown_rest, is_trace. run_step. cbn. reflexivity.
Qed.

Lemma teardown_rest_fails (os_Args : list string) (job : JobListStub) (jobs : list JobListStub)
  (err : Error) (tr : RunZ) :
  is_trace (teardown_rest os_Args (job :: jobs)) (JobsDeregister (StubID job) /> Some err ;> tr) <->
  tr = TEnd \/ tr = TEventEnd (LogFatal ("failed deregistering job: " ++ err)%string).
Proof.
  unfold teardown_rest, is_trace. run_step. cbn. split.
  - intros H. apply is_traceF_vis_inv in H. destruct H as [H | [H | (x & _)]]; auto. destruct x.
  - intros [-> | ->]; constructor.
Qed.

Lemma teardown_rest_first (os_Args : list string) (job : JobListStub)
  (jobs : list JobListStub) (tr : RunZ) :
  is_trace (teardown_rest os_Args (job :: jobs)) tr ->
  tr = TEnd \/ starts_with (JobsDeregister (StubID job)) tr.
Proof.
  unfold teardown_rest, is_trace. cbn. intros H. apply is_traceF_vis_inv in H.
  unfold starts_with. destruct H as [H | [H | (x & tr' & H & _)]]; eauto.
Qed.

Lemma teardown_rest_remove (os_Args : list string) (tr : RunZ) :
  is_trace (teardown_rest os_Args []) tr ->
  tr = TEnd \/ starts_with (RemoveAll (nth 2 os_Args "")) tr.
Proof.
  unfold teardown_rest, is_trace. cbn. intros H. apply is_traceF_vis_inv in H.
  unfold starts_with. destruct H as [H | [H | (x & tr' & H & _)]]; eauto.
Qed.

Lemma teardown_rest_removed (os_Args : list string) (r : option Error) (tr : RunZ) :
  is_trace (teardown_rest os_Args []) (RemoveAll (nth 2 os_Args "") /> r ;> tr) <->
  tr = TEnd \/
  tr = match r with
       | Some err => TEventEnd (LogFatal ("failed cleaning up temp dir: " ++ err)%string)
       | None => TRet 0
       end.
Proof.
  unfold teardown_rest, is_trace. run_step. destruct r as [err |]; cbn; split.
  - intros H. apply is_traceF_vis_inv in H. destruct H as [H | [H | (x & _)]]; auto. destruct x.
  - intros [-> | ->]; constructor.
  - apply is_traceF_ret_inv.
  - intros [-> | ->]; constructor.
Qed.

Lemma teardown_rest_steps (os_Args : list string) (done rest : list JobListStub) (tr : RunZ) :
  is_trace (teardown_rest os_Args (done ++ rest)) (deregister_trace done tr) <->
  is_trace (teardown_rest os_Args rest) tr.
Proof.
  induction done as [|job done IH]; cbn [app deregister_trace]; [reflexivity |].
  rewrite teardown_rest_next. exact IH.
Qed.

Lemma removals_deregister_trace (jobs : list JobListStub) (tail : RunZ) :
  removals (deregister_trace jobs tail) = removals tail.
Proof. induction jobs as [|job jobs IH]; cbn; auto. Qed.

Lemma deregistrations_deregister_trace (jobs : list JobListStub) (tail : RunZ) :
  deregistrations (deregister_trace jobs tail) = map StubID jobs ++ deregistrations tail.
Proof. induction jobs as [|job jobs IH]; cbn; [reflexivity | rewrite IH; reflexivity]. Qed.

Lemma teardown_rest_runs (os_Args : list string) (jobs : list JobListStub) :
  forall tr : RunZ,
  is_trace (teardown_rest os_Args jobs) tr ->
  (removals tr <> [] ->
   removals tr = [nth 2 os_Args ""] /\
   deregistrations tr = map StubID jobs /\
   exists tail : RunZ,
     tr = deregister_trace jobs tail /\
     starts_with (RemoveAll (nth 2 os_Args "")) tail) /\
  (forall c : Z, trace_ret tr = Some c ->
     c = 0 /\
     tr = deregister_trace jobs (RemoveAll (nth 2 os_Args "") /> None ;> TRet 0)) /\
  (exists rest : list string, map StubID jobs = deregistrations tr ++ rest).
Proof.
  induction jobs as [|job jobs IH]; intros tr H.
  - apply teardown_rest_remove in H as Hfirst.
    destruct Hfirst as [-> | [-> | (r & tr' & ->)]].
    + cbn. repeat split; try congruence. exists []. reflexivity.
    + cbn. repeat split; try congruence; [| exists []; reflexivity].
      exists (TEventEnd (RemoveAll (nth 2 os_Args ""))).
      split; [reflexivity | left; reflexivity].
    + apply teardown_rest_removed in H.
      assert (Hrem : removals tr' = [] /\ deregistrations tr' = []).
      { destruct H as [-> | ->]; [| destruct r]; cbn; auto. }
      destruct Hrem as [Hrem Hder]. cbn. rewrite Hrem, Hder.
      split; [| split].
      * intros _. split; [reflexivity |]. split; [reflexivity |].
        eexists. split; [reflexivity |]. right. eauto.
      * intros c Hc. destruct H as [-> | ->]; [discriminate |].
        destruct r; cbn in Hc; [discriminate |].
        injection Hc as <-. split; reflexivity.
      * exists []. reflexivity.
  - apply teardown_rest_first in H as Hfirst.
    destruct Hfirst as [-> | [-> | (r & tr' & ->)]].
    + cbn. repeat split; try congruence. eexists. reflexivity.
    + cbn. repeat split; try congruence. eexists. reflexivity.
    + destruct r as [err |].
      * apply teardown_rest_fails in H.
        destruct H as [-> | ->]; cbn; repeat split; try congruence; eexists; reflexivity.
      * apply teardown_rest_next in H. destruct (IH tr' H) as (Ha & Hb & (rest & Hc)).
        cbn. split; [| split].
        -- intros Hne. destruct (Ha Hne) as (Hr & Hd & tail & -> & Hs).
           split; [exact Hr |]. split; [rewrite Hd; reflexivity |].
           exists tail. split; [reflexivity | exact Hs].
        -- intros c Hret. destruct (Hb c Hret) as [-> ->]. split; reflexivity.
        -- exists rest. rewrite Hc. reflexivity.
Qed.

Lemma handleTeardown_runs (os_Args : list string) (tr : RunZ) :
  is_trace (handleTeardown os_Args) tr ->
  (removals tr = [] /\ deregistrations tr = [] /\ trace_ret tr = None) \/
  exists (jobs : list JobListStub) (tail : RunZ),
    length os_Args = 3%nat /\
    tr = ApiNewClient /> None ;> JobsList /> inl jobs ;> tail /\
    is_trace (teardown_rest os_Args jobs) tail.
Proof.
  unfold handleTeardown, is_trace.
  destruct (Nat.eqb (length os_Args) 3) eqn:Hargs; cbn [negb]; intros H.
  2: { cbn in H. apply is_traceF_vis_inv in H.
       destruct H as [-> | [-> | ([] & _)]]; left; cbn; auto. }
  apply Nat.eqb_eq in Hargs.
  cbn in H. apply is_traceF_vis_inv in H.
  destruct H as [-> | [-> | (client & tr1 & -> & H)]]; [left; cbn; auto .. |].
  unfold is_trace in H. destruct client as [err |]; cbn in H.
  { apply is_traceF_vis_inv in H.
    destruct H as [-> | [-> | ([] & _)]]; left; cbn; auto. }
  apply is_traceF_vis_inv in H.
  destruct H as [-> | [-> | (listed & tr2 & -> & H)]]; [left; cbn; auto .. |].
  unfold is_trace in H. destruct listed as [jobs | err]; cbn in H.
  - right. exists jobs, tr2. repeat split; assumption.
  - apply is_traceF_vis_inv in H.
    destruct H as [-> | [-> | ([] & _)]]; left; cbn; auto.
Qed.

Lemma handleTeardown_returns_zero (os_Args : list string) (tr : RunZ) (c : Z) :
  is_trace (handleTeardown os_Args) tr -> trace_ret tr = Some c -> c = 0.
Proof.
  intros H Hret. apply handleTeardown_runs in H.
  destruct H as [(_ & _ & Hnone) | (jobs & tail & _ & -> & H)]; [congruence |].
  apply teardown_rest_runs in H. destruct H as (_ & Hb & _). apply (Hb c Hret).
Qed.

(** Every listed job is deregistered, the directory is removed, 0 is
    returned: a run. *)
Lemma handleTeardown_success (os_Args : list string) (jobs : list JobListStub) :
  length os_Args = 3%nat ->
  is_trace (handleTeardown os_Args)
    (teardown_prelude jobs (RemoveAll (nth 2 os_Args "") /> None ;> TRet 0 : RunZ)).
Proof.
  intros Hargs. unfold teardown_prelude. apply handleTeardown_listed; [exact Hargs |].
  rewrite <- (app_nil_r jobs) at 1. apply teardown_rest_steps.
  apply teardown_rest_removed. right. reflexivity.
Qed.

(** X5: with the client created and the listing answered by [jobs], as long
    as every deregistration succeeds the jobs are deregistered one by one in
    the order of the listing; the call after the last one is the removal of
    the directory given on the command line, and when that succeeds the
    command returns 0. *)
Theorem handleTeardown_deregisters_all (os_Args : list string) (jobs : list JobListStub) :
  length os_Args = 3%nat ->
  (forall (done rest : list JobListStub) (job : JobListStub) (tail : RunZ),
     jobs = done ++ job :: rest ->
     is_trace (handleTeardown os_Args)
       (ApiNewClient /> None ;> JobsList /> inl jobs ;> deregister_trace done tail) ->
     tail = TEnd \/ starts_with (JobsDeregister (StubID job)) tail) /\
  (forall tail : RunZ,
     is_trace (handleTeardown os_Args) (teardown_prelude jobs tail) ->
     tail = TEnd \/ starts_with (RemoveAll (nth 2 os_Args "")) tail) /\
  (forall tr : RunZ,
     is_trace (handleTeardown os_Args)
       (teardown_prelude jobs (RemoveAll (nth 2 os_Args "") /> None ;> tr)) <->
     tr = TEnd \/ tr = TRet 0).
Proof.
  intros Hargs. split; [| split].
  - intros done rest job tail -> H.
    apply handleTeardown_listed in H; [| exact Hargs].
    apply teardown_rest_steps in H. apply teardown_rest_first in H. exact H.
  - intros tail H. unfold teardown_prelude in H.
    apply handleTeardown_listed in H; [| exact Hargs].
    rewrite <- (app_nil_r jobs) in H at 1.
    apply teardown_rest_steps in H. apply teardown_rest_remove in H. exact H.
  - intros tr. unfold teardown_prelude.
    rewrite handleTeardown_listed by exact Hargs.
    rewrite <- (app_nil_r jobs) at 1.
    rewrite teardown_rest_steps. apply teardown_rest_removed.
Qed.

(** X6: the first deregistration that fails ends the command: after it only
    the fatal log line can follow, so the jobs listed after the failing one
    stay registered and the directory is not removed. *)
Theorem handleTeardown_fails_fast (os_Args : list string)
  (done rest : list JobListStub) (job : JobListStub) (err : Error) (tr : RunZ) :
  length os_Args = 3%nat ->
  is_trace (handleTeardown os_Args)
    (ApiNewClient /> None ;> JobsList /> inl (done ++ job :: rest) ;>
     deregister_trace done (JobsDeregister (StubID job) /> Some err ;> tr)) <->
  tr = TEnd \/ tr = TEventEnd (LogFatal ("failed deregistering job: " ++ err)%string).
Proof.
  intros Hargs. rewrite handleTeardown_listed by exact Hargs.
  rewrite teardown_rest_steps. apply teardown_rest_fails.
Qed.

(** X7: in no run is the directory removed before every listed job has been
    deregistered with success: a run with a removal consists of the client,
    the listing, one successful deregistration for each listed job, in the
    order of the listing, and then the removal; there is one removal, of the
    directory given on the command line. *)
Theorem handleTeardown_removes_last (os_Args : list string) (tr : RunZ) :
  is_trace (handleTeardown os_Args) tr ->
  removals tr <> [] ->
  length os_Args = 3%nat /\
  removals tr = [nth 2 os_Args ""] /\
  exists (jobs : list JobListStub) (tail : RunZ),
    tr = teardown_prelude jobs tail /\
    starts_with (RemoveAll (nth 2 os_Args "")) tail /\
    deregistrations tr = map StubID jobs.
Proof.
  intros H Hrem. apply handleTeardown_runs in H.
  destruct H as [(Hnone & _) | (jobs & tail & Hargs & -> & H)]; [contradiction |].
  apply teardown_rest_runs in H. destruct H as (Ha & _ & _).
  cbn in Hrem. destruct (Ha Hrem) as (Hr & Hd & tail' & -> & Hs).
  split; [exact Hargs |]. split; [exact Hr |].
  exists jobs, tail'. split; [reflexivity |]. split; [exact Hs | exact Hd].
Qed.

(** X8: the jobs are deregistered in the order of the listing, none is
    skipped and none comes that was not listed: in every run the
    identifiers deregistered so far are an initial part of the identifiers
    of the listing.  Without a successful listing nothing is deregistered. *)
Theorem handleTeardown_deregisters_in_order (os_Args : list string) (tr : RunZ) :
  is_trace (handleTeardown os_Args) tr ->
  deregistrations tr = [] \/
  exists (jobs : list JobListStub) (tail : RunZ) (rest : list string),
    tr = ApiNewClient /> None ;> JobsList /> inl jobs ;> tail /\
    map StubID jobs = deregistrations tr ++ rest.
Proof.
  intros H. apply handleTeardown_runs in H.
  destruct H as [(_ & Hnone & _) | (jobs & tail & Hargs & -> & H)]; [left; exact Hnone |].
  apply teardown_rest_runs in H. destruct H as (_ & _ & rest & Hrest).
  right. exists jobs, tail, rest. split; [reflexivity | exact Hrest].
Qed.

(** X9: the command returns only 0, and only at the end of the one complete
    run: every listed job deregistered, then the directory removed, all with
    success. *)
Theorem handleTeardown_returns_after_removal (os_Args : list string) (tr : RunZ) (c : Z) :
  is_trace (handleTeardown os_Args) tr ->
  trace_ret tr = Some c ->
  c = 0 /\
  length os_Args = 3%nat /\
  exists jobs : list JobListStub,
    tr = teardown_prelude jobs (RemoveAll (nth 2 os_Args "") /> None ;> TRet 0).
Proof.
  intros H Hret. apply handleTeardown_runs in H.
  destruct H as [(_ & _ & Hnone) | (jobs & tail & Hargs & -> & H)]; [congruence |].
  apply teardown_rest_runs in H. destruct H as (_ & Hb & _).
  destruct (Hb c Hret) as [-> ->].
  split; [reflexivity |]. split; [exact Hargs |]. exists jobs. reflexivity.
Qed.

(** X10: each step before the deregistrations, and the removal after them,
    ends the command when it fails: the wrong number of arguments, no
    client, no listing, no removal.  Only the fatal log line follows, with
    the diagnostic of that step. *)
Theorem handleTeardown_failures (os_Args : list string) :
  (length os_Args <> 3%nat ->
   forall tr : RunZ,
     is_trace (handleTeardown os_Args) tr <->
     tr = TEnd \/ tr = TEventEnd (LogFatal "usage: nomad-bench teardown <dir>")) /\
  (length os_Args = 3%nat ->
   (forall (err : Error) (tr : RunZ),
      is_trace (handleTeardown os_Args) (ApiNewClient /> Some err ;> tr) <->
      tr = TEnd \/
      tr = TEventEnd (LogFatal ("failed creating nomad client: " ++ err)%string)) /\
   (forall (err : Error) (tr : RunZ),
      is_trace (handleTeardown os_Args)
        (ApiNewClient /> None ;> JobsList /> inr err ;> tr) <->
      tr = TEnd \/
      tr = TEventEnd (LogFatal ("failed listing jobs: " ++ err)%string)) /\
   (forall (jobs : list JobListStub) (err : Error) (tr : RunZ),
      is_trace (handleTeardown os_Args)
        (teardown_prelude jobs (RemoveAll (nth 2 os_Args "") /> Some err ;> tr)) <->
      tr = TEnd \/
      tr = TEventEnd (LogFatal ("failed cleaning up temp dir: " ++ err)%string))).
Proof.
  split.
  - intros Hargs tr. unfold handleTeardown, is_trace.
    apply Nat.eqb_neq in Hargs. rewrite Hargs. cbn. apply fatal_runs.
  - intros Hargs. split; [| split].
    + intros err tr. unfold handleTeardown, is_trace. rewrite Hargs. cbn [Nat.eqb negb].
      run_step. cbn. apply fatal_runs.
    + intros err tr. unfold handleTeardown, is_trace. rewrite Hargs. cbn [Nat.eqb negb].
      do 2 run_step. cbn. apply fatal_runs.
    + intros jobs err tr. unfold teardown_prelude.
      rewrite handleTeardown_listed by exact Hargs.
      rewrite <- (app_nil_r jobs) at 1.
      rewrite teardown_rest_steps. apply (teardown_rest_removed os_Args (Some err)).
Qed.

End TeardownRuns.

(** ** Every run of [handleStatus] *)

Section StatusRuns.
Context {StructsJob JobBody : Type}.
#[local] Abbreviation RunZ := (@Run StructsJob JobBody Z).

Lemma all_calls_truncates (P : forall X : Type, benchE StructsJob JobBody X -> Prop)
  (tr full : RunZ) :
  truncates tr full -> all_calls P full -> all_calls P tr.
Proof.
  induction 1; cbn; try tauto.
Qed.

Lemma all_calls_set_trace (name : string) (v last : Z) (ts : Time) (tail : RunZ) :
  In name metric_names ->
  all_calls status_call tail ->
  all_calls status_call (set_trace name v last ts tail).
Proof.
  intros Hn Ht. unfold set_trace. destruct (negb (v =? last)); cbn; auto.
Qed.

Lemma all_calls_turn_trace (st : WatchState) (p : Poll) (tail : RunZ) :
  all_calls status_call tail -> all_calls status_call (turn_trace st p tail).
Proof.
  intros Ht. destruct p as [err | resp qm ts]; cbn; [auto |].
  split; [reflexivity |]. split; [exact I |].
  destruct (LastIndex qm =? index st); [exact Ht |].
  destruct (count_allocs resp) as [allocsPending allocsRunning].
  repeat apply all_calls_set_trace; cbn; auto.
Qed.

Lemma all_calls_watch_trace (script : list Poll) : forall st : WatchState,
  all_calls status_call (watch_trace st script : RunZ).
Proof.
  induction script as [|p rest IH]; intros st; cbn [watch_trace].
  - reflexivity.
  - apply all_calls_turn_trace, IH.
Qed.

(** The runs of [handleStatus]: those that stop before the loop, and those
    of the loop after the two clients. *)
Lemma handleStatus_runs (os_Args : list string) (tr : RunZ) :
  is_trace (handleStatus os_Args) tr ->
  (cursors tr = [] /\ samples tr = [] /\ trace_ret tr = None /\
   all_calls status_call tr) \/
  exists tail : RunZ,
    length os_Args = 3%nat /\
    tr = ApiNewClient /> None ;> StatusNewClient (nth 2 os_Args "") /> None ;> tail /\
    is_trace (watch_loop watch_init) tail.
Proof.
  unfold handleStatus, is_trace.
  destruct (Nat.eqb (length os_Args) 3) eqn:Hargs; cbn [negb]; intros H.
  2: { cbn in H. apply is_traceF_vis_inv in H.
       destruct H as [-> | [-> | ([] & _)]]; left; cbn; repeat split. }
  apply Nat.eqb_eq in Hargs.
  cbn in H. apply is_traceF_vis_inv in H.
  destruct H as [-> | [-> | (client & tr1 & -> & H)]]; [left; cbn; repeat split .. |].
  unfold is_trace in H. destruct client as [err |]; cbn in H.
  { apply is_traceF_vis_inv in H.
    destruct H as [-> | [-> | ([] & _)]]; left; cbn; repeat split. }
  apply is_traceF_vis_inv in H.
  destruct H as [-> | [-> | (status & tr2 & -> & H)]]; [left; cbn; repeat split .. |].
  unfold is_trace in H. destruct status as [err |]; cbn in H.
  - apply is_traceF_vis_inv in H.
    destruct H as [-> | [-> | ([] & _)]]; left; cbn; repeat split.
  - right. exists tr2. repeat split; assumption.
Qed.

Lemma handleStatus_watches (os_Args : list string) (tr : RunZ) :
  length os_Args = 3%nat ->
  is_trace (handleStatus os_Args)
    (ApiNewClient /> None ;> StatusNewClient (nth 2 os_Args "") /> None ;> tr) <->
  is_trace (watch_loop watch_init) tr.
Proof.
  intros Hargs. unfold handleStatus, is_trace. rewrite Hargs. cbn [Nat.eqb negb].
  do 2 run_step. cbn. reflexivity.
Qed.

Lemma handleStatus_no_return (os_Args : list string) (tr : RunZ) :
  is_trace (handleStatus os_Args) tr -> trace_ret tr = None.
Proof.
  intros H. apply handleStatus_runs in H.
  destruct H as [(_ & _ & Hr & _) | (tail & _ & -> & H)]; [exact Hr |].
  cbn. apply (watch_loop_no_return watch_init), H.
Qed.

Lemma ends_fatally_truncates (tr full : RunZ) :
  truncates tr full -> ends_fatally tr -> ends_fatally full.
Proof.
  induction 1; cbn; try tauto.
  destruct e; cbn; tauto.
Qed.

Lemma turn_trace_not_fatal (st : WatchState) (p : Poll) (tail : RunZ) :
  ends_fatally (turn_trace st p tail) -> ends_fatally tail.
Proof.
  destruct p as [err | resp qm ts]; cbn; [auto |].
  destruct (LastIndex qm =? index st); [auto |].
  destruct (count_allocs resp) as [allocsPending allocsRunning].
  unfold set_trace.
  destruct (negb (_ =? lastTotal st)), (negb (_ =? lastPending st)),
    (negb (_ =? lastRunning st)); cbn; auto.
Qed.

Lemma watch_trace_not_fatal (script : list Poll) : forall st : WatchState,
  ~ ends_fatally (watch_trace st script : RunZ).
Proof.
  induction script as [|p rest IH]; intros st; cbn [watch_trace].
  - cbn. tauto.
  - intros H. apply turn_trace_not_fatal in H. exact (IH _ H).
Qed.

(** X11: the status command does not come to an end by itself.  No run
    returns; and once the two clients are there no run ends in a fatal log
    line either: a run that ends fatally has made no query and sent no
    sample. *)
Theorem handleStatus_never_returns (os_Args : list string) (tr : RunZ) :
  is_trace (handleStatus os_Args) tr ->
  trace_ret tr = None /\
  (ends_fatally tr -> cursors tr = [] /\ samples tr = []).
Proof.
  intros H. apply handleStatus_runs in H.
  destruct H as [(Hc & Hs & Hr & _) | (tail & _ & -> & H)].
  - split; [exact Hr |]. intros _. split; assumption.
  - split.
    + cbn. apply (watch_loop_no_return watch_init), H.
    + cbn. intros Hf. apply watch_loop_complete in H. destruct H as (script & Hs).
      apply (ends_fatally_truncates _ _ Hs) in Hf.
      destruct (watch_trace_not_fatal script watch_init Hf).
Qed.

(** X12: the status command only observes.  In every run each call is the
    creation of one of the two clients, the query of the allocations with
    stale reads allowed, the reading of the clock, a log line, or a sample
    of one of the metrics placed, booting and running; it registers and
    deregisters no job and touches no file. *)
Theorem handleStatus_only_observes (os_Args : list string) (tr : RunZ) :
  is_trace (handleStatus os_Args) tr ->
  all_calls status_call tr.
Proof.
  intros H. apply handleStatus_runs in H.
  destruct H as [(_ & _ & _ & Hall) | (tail & _ & -> & H)]; [exact Hall |].
  cbn. split; [exact I |]. split; [exact I |].
  apply watch_loop_complete in H. destruct H as (script & Hs).
  apply (all_calls_truncates _ _ _ Hs), all_calls_watch_trace.
Qed.

(** X13: before the loop, the wrong number of arguments and the failure to
    create either client end the command: only the fatal log line follows,
    with the diagnostic of that step, and no query is made. *)
Theorem handleStatus_failures (os_Args : list string) :
  (length os_Args <> 3%nat ->
   forall tr : RunZ,
     is_trace (handleStatus os_Args) tr <->
     tr = TEnd \/ tr = TEventEnd (LogFatal "usage: nomad-bench status <addr>")) /\
  (length os_Args = 3%nat ->
   (forall (err : Error) (tr : RunZ),
      is_trace (handleStatus os_Args) (ApiNewClient /> Some err ;> tr) <->
      tr = TEnd \/
      tr = TEventEnd (LogFatal ("failed creating nomad client: " ++ err)%string)) /\
   (forall tr : RunZ,
      is_trace (handleStatus os_Args) (ApiNewClient /> None ;> tr) ->
      tr = TEnd \/ starts_with (StatusNewClient (nth 2 os_Args "")) tr) /\
   (forall (err : Error) (tr : RunZ),
      is_trace (handleStatus os_Args)
        (ApiNewClient /> None ;> StatusNewClient (nth 2 os_Args "") /> Some err ;> tr) <->
      tr = TEnd \/
      tr = TEventEnd (LogFatal ("failed contacting status server: " ++ err)%string))).
Proof.
  split.
  - intros Hargs tr. unfold handleStatus, is_trace.
    apply Nat.eqb_neq in Hargs. rewrite Hargs. cbn. apply fatal_runs.
  - intros Hargs. unfold handleStatus, is_trace. rewrite Hargs. cbn [Nat.eqb negb].
    split; [| split].
    + intros err tr. run_step. cbn. apply fatal_runs.
    + intros tr. run_step. cbn. intros H. apply is_traceF_vis_inv in H.
      unfold starts_with. destruct H as [H | [H | (x & tr' & H & _)]]; eauto.
    + intros err tr. do 2 run_step. cbn. apply fatal_runs.
Qed.

End StatusRuns.

(** *** The status server follows the loop *)

Section SinkFacts.
Context {StructsJob JobBody : Type}.
#[local] Abbreviation RunZ := (@Run StructsJob JobBody Z).

Lemma holds_taken_next (st : WatchState) (p : Poll) (taken : option (list Allocation)) :
  holds_taken st taken ->
  holds_taken (watch_next st p)
    match p with
    | PollErr _ => taken
    | PollOk resp qm _ => if LastIndex qm =? index st then taken else Some resp
    end.
Proof.
  intros Hst. destruct p as [err | resp qm ts]; cbn [watch_next]; [exact Hst |].
  destruct (LastIndex qm =? index st); [exact Hst |].
  unfold holds_taken, expected_value, metric_value. cbn [String.eqb Ascii.eqb Bool.eqb].
  destruct (count_allocs resp) as [allocsPending allocsRunning].
  cbn [lastTotal lastPending lastRunning fst snd].
  split; [| split].
  - destruct (Z.eqb_spec (Z.of_nat (length resp)) (lastTotal st)); cbn; congruence.
  - destruct (Z.eqb_spec allocsPending (lastPending st)); cbn; congruence.
  - destruct (Z.eqb_spec allocsRunning (lastRunning st)); cbn; congruence.
Qed.

Lemma holds_taken_run (script : list Poll) :
  forall (st : WatchState) (taken : option (list Allocation)),
  holds_taken st taken ->
  holds_taken (watch_state st script) (last_taken st script taken).
Proof.
  induction script as [|p rest IH]; intros st taken Hst;
    cbn [watch_state fold_left last_taken].
  - exact Hst.
  - apply IH, holds_taken_next, Hst.
Qed.

(** X14: the status server follows the loop.  After any number of completed
    turns from the start, the latest sample sent for each metric carries the
    aggregate of the response that the loop took last; and where no sample
    was ever sent for a metric, that aggregate is 0 (or no response was
    taken yet).  So a server that starts from 0 shows the latest aggregates,
    although only changes are sent. *)
Theorem watch_sink_in_sync (script : list Poll) (name : string) :
  In name metric_names ->
  is_trace (watch_loop watch_init) (watch_trace watch_init script : RunZ) /\
  last_or_zero name (samples (watch_trace watch_init script : RunZ)) =
  expected_value name (last_taken watch_init script None).
Proof.
  intros Hname. split; [apply watch_trace_sound |].
  pose proof (cache_ok_run (StructsJob := StructsJob) (JobBody := JobBody)
                script [] watch_init cache_ok_init) as (Ht & Hp & Hr).
  pose proof (holds_taken_run script watch_init None) as (Ht' & Hp' & Hr').
  { repeat split. }
  cbn [app] in Ht, Hp, Hr.
  destruct Hname as [<- | [<- | [<- | []]]]; congruence.
Qed.

End SinkFacts.

(** ** The aggregates and the order of the response *)

Lemma count_status_status (acc : Z * Z) (a a' : Allocation) :
  ClientStatus a = ClientStatus a' -> count_status acc a = count_status acc a'.
Proof. intros H. unfold count_status. rewrite H. reflexivity. Qed.

Lemma count_status_comm (acc : Z * Z) (a b : Allocation) :
  count_status (count_status acc a) b = count_status (count_status acc b) a.
Proof.
  destruct acc as [p r]. unfold count_status.
  destruct (String.eqb (ClientStatus a) AllocClientStatusPending),
    (String.eqb (ClientStatus a) AllocClientStatusRunning),
    (String.eqb (ClientStatus b) AllocClientStatusPending),
    (String.eqb (ClientStatus b) AllocClientStatusRunning); reflexivity.
Qed.

Lemma count_status_same (resp : list Allocation) :
  forall (resp' : list Allocation) (acc : Z * Z),
  map ClientStatus resp = map ClientStatus resp' ->
  fold_left count_status resp acc = fold_left count_status resp' acc.
Proof.
  induction resp as [|a resp IH]; intros [|a' resp'] acc H; try discriminate H.
  - reflexivity.
  - cbn in H. injection H as Ha H. cbn [fold_left].
    rewrite (count_status_status acc a a' Ha). apply IH, H.
Qed.

Lemma count_status_permutation (ls ls' : list string) :
  Permutation ls ls' ->
  forall (resp resp' : list Allocation) (acc : Z * Z),
  map ClientStatus resp = ls -> map ClientStatus resp' = ls' ->
  fold_left count_status resp acc = fold_left count_status resp' acc.
Proof.
  induction 1 as [| x l l' Hp IH | x y l | l l' l'' Hp1 IH1 Hp2 IH2];
    intros resp resp' acc Hr Hr'.
  - apply count_status_same. rewrite Hr, Hr'. reflexivity.
  - destruct resp as [|a resp]; [discriminate Hr |].
    destruct resp' as [|a' resp']; [discriminate Hr' |].
    cbn in Hr, Hr'. injection Hr as Ha Hr. injection Hr' as Ha' Hr'.
    cbn [fold_left]. rewrite (count_status_status acc a a') by congruence.
    apply IH; assumption.
  - destruct resp as [|a [|b resp]]; try discriminate Hr.
    destruct resp' as [|b' [|a' resp']]; try discriminate Hr'.
    cbn in Hr, Hr'. injection Hr as Ha Hb Hr. injection Hr' as Hb' Ha' Hr'.
    cbn [fold_left]. rewrite (count_status_comm acc a b).
    rewrite (count_status_status acc b b') by congruence.
    rewrite (count_status_status _ a a') by congruence.
    apply count_status_same. congruence.
  - assert (Hmid : map ClientStatus (map (alloc "") l') = l').
    { rewrite map_map. apply map_id. }
    rewrite (IH1 resp (map (alloc "") l') acc Hr Hmid).
    apply IH2; assumption.
Qed.

(** X15: the three aggregates depend only on how many allocations of each
    client status the response holds: neither the order in which the
    orchestrator lists the allocations nor their identifiers change what
    is sent. *)
Theorem aggregates_order_independent (resp resp' : list Allocation) (name : string) :
  Permutation (map ClientStatus resp) (map ClientStatus resp') ->
  count_allocs resp = count_allocs resp' /\
  metric_value name resp = metric_value name resp'.
Proof.
  intros H.
  assert (Hc : count_allocs resp = count_allocs resp').
  { unfold count_allocs. apply (count_status_permutation _ _ H); reflexivity. }
  split; [exact Hc |].
  unfold metric_value. rewrite Hc.
  apply Permutation_length in H. rewrite !length_map in H. rewrite H. reflexivity.
Qed.

(** ** [handleSetup] and [main] *)

(** The job file for three containers, character by character. *)
Example rendered_three :
  list_ascii_of_string (render_jobTemplate 3) =
  map ascii_of_nat
    [10; 106; 111; 98; 32; 34; 98; 101; 110; 99; 104; 34; 32; 123; 10; 9; 100;
     97; 116; 97; 99; 101; 110; 116; 101; 114; 115; 32; 61; 32; 91; 34; 100;
     99; 49; 34; 93; 10; 10; 9; 103; 114; 111; 117; 112; 32; 34; 99; 97; 99;
     104; 101; 34; 32; 123; 10; 9; 9; 99; 111; 117; 110; 116; 32; 61; 32; 51;
     10; 10; 9; 9; 114; 101; 115; 116; 97; 114; 116; 32; 123; 10; 9; 9; 9; 109;
     111; 100; 101; 32; 61; 32; 34; 102; 97; 105; 108; 34; 10; 9; 9; 9; 97;
     116; 116; 101; 109; 112; 116; 115; 32; 61; 32; 48; 10; 9; 9; 125; 10; 10;
     9; 9; 116; 97; 115; 107; 32; 34; 98; 101; 110; 99; 104; 34; 32; 123; 10;
     9; 9; 9; 100; 114; 105; 118; 101; 114; 32; 61; 32; 34; 100; 111; 99; 107;
     101; 114; 34; 10; 10; 9; 9; 9; 99; 111; 110; 102; 105; 103; 32; 123; 10;
     9; 9; 9; 9; 105; 109; 97; 103; 101; 32; 61; 32; 34; 114; 101; 100; 105;
     115; 58; 108; 97; 116; 101; 115; 116; 34; 10; 9; 9; 9; 125; 10; 10; 9; 9;
     9; 114; 101; 115; 111; 117; 114; 99; 101; 115; 32; 123; 10; 9; 9; 9; 9;
     99; 112; 117; 32; 61; 32; 49; 48; 48; 10; 9; 9; 9; 9; 109; 101; 109; 111;
     114; 121; 32; 61; 32; 49; 48; 48; 10; 9; 9; 9; 125; 10; 9; 9; 125; 10; 9;
     125; 10; 125; 10]%nat.
Proof. vm_compute. reflexivity. Qed.


Section MainFacts.
Context {StructsJob JobBody : Type}.
#[local] Abbreviation BenchRun R := (@Run StructsJob JobBody R).
#[local] Abbreviation MainRun R := (@CmdRun StructsJob JobBody R).
#[local] Abbreviation benchE' := (benchE StructsJob JobBody).
#[local] Abbreviation cmdE' := (@cmdE StructsJob JobBody).

Lemma observe_lift {R : Type} (t : itree benchE' R) :
  observe (lift t) =
  match observe t with
  | RetF r => RetF r
  | TauF t' => TauF (lift t')
  | VisF e k => VisF (inl1 e) (fun x => lift (k x))
  end.
Proof.
  change (observe (lift t)) with
    (observe (translateF (fun X (e : benchE' X) => inl1 e)
                (fun t' => lift t') (observe t))).
  destruct (observe t); reflexivity.
Qed.

Lemma lift_trace_sound {R : Type} (ot : itree' benchE' R) (tr : BenchRun R) :
  is_traceF ot tr -> forall t, observe t = ot -> is_trace (lift t) (lift_trace tr).
Proof.
  induction 1; intros t0 Heq; unfold is_trace; rewrite observe_lift, Heq; cbn.
  - constructor.
  - constructor.
  - constructor. apply (IHis_traceF t). reflexivity.
  - constructor.
  - constructor. apply (IHis_traceF (k x)). reflexivity.
Qed.

Lemma lift_trace_complete {R : Type} (ot : itree' cmdE' R) (tr : MainRun R) :
  is_traceF ot tr -> forall t, observe (lift t) = ot ->
  exists tr0 : BenchRun R, is_trace t tr0 /\ tr = lift_trace tr0.
Proof.
  induction 1; intros t0 Heq; rewrite observe_lift in Heq; unfold is_trace.
  - exists TEnd. split; constructor.
  - destruct (observe t0) eqn:Ht; try discriminate. inversion Heq; subst.
    exists (TRet r). split; constructor.
  - destruct (observe t0) eqn:Ht; try discriminate. inversion Heq; subst.
    destruct (IHis_traceF t1 eq_refl) as (tr0 & H0 & ->).
    exists tr0. split; [constructor; exact H0 | reflexivity].
  - destruct (observe t0) eqn:Ht; try discriminate.
    dependent destruction Heq.
    exists (TEventEnd e0). split; constructor.
  - destruct (observe t0) eqn:Ht; try discriminate.
    dependent destruction Heq.
    destruct (IHis_traceF (k0 x) eq_refl) as (tr0 & H0 & ->).
    exists (TEventResponse e0 x tr0). split; [constructor; exact H0 | reflexivity].
Qed.

(** The runs of a handler inside [main] are its own runs. *)
Lemma lift_runs {R : Type} (t : itree benchE' R) (tr : MainRun R) :
  is_trace (lift t) tr <-> exists tr0 : BenchRun R, is_trace t tr0 /\ tr = lift_trace tr0.
Proof.
  split.
  - intros H. apply (lift_trace_complete _ _ H t eq_refl).
  - intros (tr0 & H & ->). apply (lift_trace_sound _ _ H t eq_refl).
Qed.

Lemma exit_trace_sound {R : Type} (ot : itree' cmdE' Z) (tr : MainRun Z) :
  is_traceF ot tr -> forall t, observe t = ot ->
  is_trace (c <- t ;; exit (R := R) c) (exit_trace tr).
Proof.
  induction 1; intros t0 Heq; unfold is_trace; rewrite observe_bind, Heq; cbn.
  - constructor.
  - constructor.
  - constructor. apply (IHis_traceF t). reflexivity.
  - constructor.
  - constructor. apply (IHis_traceF (k x)). reflexivity.
Qed.

Lemma exit_trace_complete {R : Type} (ot : itree' cmdE' R) (tr : MainRun R) :
  is_traceF ot tr -> forall t, observe (c <- t ;; exit (R := R) c) = ot ->
  exists tr0 : MainRun Z, is_trace t tr0 /\ tr = exit_trace tr0.
Proof.
  induction 1; intros t0 Heq; rewrite observe_bind in Heq; unfold is_trace;
    destruct (observe t0) as [c | t1 | Y e0 k0] eqn:Ht; cbn in Heq;
    try discriminate; try (exists TEnd; split; constructor).
  - inversion Heq; subst.
    destruct (IHis_traceF t1 eq_refl) as (tr0 & H0 & ->).
    exists tr0. split; [constructor; exact H0 | reflexivity].
  - dependent destruction Heq. exists (TRet c). split; constructor.
  - dependent destruction Heq. exists (TEventEnd e). split; constructor.
  - dependent destruction Heq. destruct x.
  - dependent destruction Heq.
    destruct (IHis_traceF (k0 x) eq_refl) as (tr0 & H0 & ->).
    exists (TEventResponse e x tr0). split; [constructor; exact H0 | reflexivity].
Qed.

(** [os.Exit(handler())]: the runs of the handler, with the exit in the
    place of the return. *)
Lemma exit_runs {R : Type} (t : itree cmdE' Z) (tr : MainRun R) :
  is_trace (c <- t ;; exit (R := R) c) tr <->
  exists tr0 : MainRun Z, is_trace t tr0 /\ tr = exit_trace tr0.
Proof.
  split.
  - intros H. apply (exit_trace_complete _ _ H t eq_refl).
  - intros (tr0 & H & ->). apply (exit_trace_sound _ _ H t eq_refl).
Qed.

Lemma lift_fatal_runs {R : Type} (msg : string) (tr : MainRun R) :
  is_trace (lift (fatal msg)) tr <->
  tr = TEnd \/ tr = TEventEnd (inl1 (LogFatal msg)).
Proof.
  unfold is_trace. rewrite observe_lift. cbn. split.
  - intros H. apply is_traceF_vis_inv in H. destruct H as [H | [H | (x & _)]]; auto.
    destruct x.
  - intros [-> | ->]; constructor.
Qed.

Lemma lift_call_next {X R : Type} (e : benchE' X) (k : X -> itree cmdE' R)
  (x : X) (tr : MainRun R) :
  is_trace (v <- lift (ITree.trigger e) ;; k v) (inl1 e /> x ;> tr) <->
  is_trace (k x) tr.
Proof.
  unfold is_trace. rewrite observe_bind, observe_lift. cbn.
  rewrite is_traceF_vis_iff, observe_bind, observe_lift. cbn. reflexivity.
Qed.

Lemma lift_call_first {X R : Type} (e : benchE' X) (k : X -> itree cmdE' R)
  (tr : MainRun R) :
  is_trace (v <- lift (ITree.trigger e) ;; k v) tr ->
  tr = TEnd \/ tr = TEventEnd (inl1 e) \/
  exists (x : X) (tr' : MainRun R), tr = inl1 e /> x ;> tr' /\ is_trace (k x) tr'.
Proof.
  intros H. assert (H' := H). unfold is_trace in H'.
  rewrite observe_bind, observe_lift in H'. cbn in H'.
  apply is_traceF_vis_inv in H'.
  destruct H' as [-> | [-> | (x & tr' & -> & _)]]; auto.
  right. right. exists x, tr'. split; [reflexivity |].
  apply lift_call_next in H. exact H.
Qed.

(** *** [handleSetup] *)

Lemma handleSetup_numeric (os_Args : list string) (v : string) (n : Z) (tr : MainRun Z) :
  length os_Args = 2%nat -> Atoi v = Some n ->
  is_trace (handleSetup os_Args) (inl1 (Getenv "NOMAD_NUM_CONTAINERS") /> v ;> tr) <->
  is_trace
    (c <- ITree.trigger (inr1 (OsCreate "job.nomad")) ;;
     match c with
     | Some err => lift (fatal ("failed creating job file: " ++ err)%string)
     | None =>
         w <- ITree.trigger (inr1 (FileWriteString (render_jobTemplate n))) ;;
         match w with
         | Some err => lift (fatal ("failed writing to job file: " ++ err)%string)
         | None => ITree.trigger (inr1 FileClose) ;; Ret 0
         end
     end : itree cmdE' Z) tr.
Proof.
  intros Hargs Hn. unfold handleSetup. rewrite Hargs. cbn [Nat.eqb negb].
  rewrite lift_call_next, Hn. reflexivity.
Qed.

Lemma handleSetup_written (os_Args : list string) (v : string) (n : Z) (tr : MainRun Z) :
  length os_Args = 2%nat -> Atoi v = Some n ->
  is_trace (handleSetup os_Args) (setup_trace v n tr) <->
  tr = TEnd \/ tr = TEventEnd (inr1 FileClose) \/
  tr = inr1 FileClose /> tt ;> TEnd \/ tr = inr1 FileClose /> tt ;> TRet 0.
Proof.
  intros Hargs Hn. unfold setup_trace.
  rewrite (handleSetup_numeric os_Args v n) by assumption.
  unfold is_trace. do 2 run_step. cbn. split.
  - intros H. apply is_traceF_vis_inv in H.
    destruct H as [-> | [-> | ([] & tr' & -> & H)]]; auto.
    unfold is_trace in H. cbn in H. apply is_traceF_ret_inv in H.
    destruct H as [-> | ->]; auto.
  - intros [-> | [-> | [-> | ->]]]; constructor; unfold is_trace; cbn; constructor.
Qed.

(** The runs of [handleSetup]: those that stop before anything is written,
    and those that create the file and go on to write it. *)
Lemma handleSetup_runs (os_Args : list string) (tr : MainRun Z) :
  is_trace (handleSetup os_Args) tr ->
  (writes tr = [] /\ trace_ret tr = None /\ exit_codes tr = []) \/
  exists (v : string) (n : Z) (tail : MainRun Z),
    length os_Args = 2%nat /\ Atoi v = Some n /\
    tr = inl1 (Getenv "NOMAD_NUM_CONTAINERS") /> v ;>
         inr1 (OsCreate "job.nomad") /> None ;> tail /\
    starts_with (inr1 (FileWriteString (render_jobTemplate n)) : cmdE' _) tail /\
    writes tr = [render_jobTemplate n] /\
    exit_codes tr = [] /\
    (forall c : Z, trace_ret tr = Some c ->
       c = 0 /\ tr = setup_trace v n (inr1 FileClose /> tt ;> TRet 0)).
Proof.
  intros H.
  destruct (Nat.eqb (length os_Args) 2) eqn:Hargs.
  2: { unfold handleSetup in H. rewrite Hargs in H. cbn [negb] in H.
       apply lift_fatal_runs in H. destruct H as [-> | ->]; left; repeat split. }
  apply Nat.eqb_eq in Hargs.
  assert (H' := H). unfold handleSetup in H'. rewrite Hargs in H'.
  cbn [Nat.eqb negb] in H'. apply lift_call_first in H'.
  destruct H' as [-> | [-> | (v & tr1 & -> & H')]]; [left; repeat split .. |].
  destruct (Atoi v) as [n |] eqn:Hn.
  2: { apply lift_fatal_runs in H'. destruct H' as [-> | ->]; left; repeat split. }
  clear H'. apply (handleSetup_numeric os_Args v n) in H; [| assumption ..].
  unfold is_trace in H. cbn in H. apply is_traceF_vis_inv in H.
  destruct H as [-> | [-> | (created & tr2 & -> & H)]]; [left; repeat split .. |].
  apply (proj1 (is_trace_subst_ret _ _ _)) in H. destruct created as [err |].
  { apply lift_fatal_runs in H. destruct H as [-> | ->]; left; repeat split. }
  unfold is_trace in H. cbn in H. apply is_traceF_vis_inv in H.
  destruct H as [-> | [-> | (written & tr3 & -> & H)]]; [left; repeat split | |].
  - right. exists v, n. eexists. split; [exact Hargs |]. split; [exact Hn |].
    split; [reflexivity |]. split; [left; reflexivity |].
    split; [reflexivity |]. split; [reflexivity |].
    intros c Hc. discriminate Hc.
  - apply (proj1 (is_trace_subst_ret _ _ _)) in H.
    assert (Hrest : writes tr3 = [] /\ exit_codes tr3 = [] /\
                    (forall c : Z, trace_ret tr3 = Some c ->
                       c = 0 /\ written = None /\ tr3 = inr1 FileClose /> tt ;> TRet 0)).
    { destruct written as [err |].
      - apply lift_fatal_runs in H.
        destruct H as [-> | ->]; cbn; repeat split; discriminate.
      - unfold is_trace in H. cbn in H. apply is_traceF_vis_inv in H.
        destruct H as [-> | [-> | ([] & tr4 & -> & H)]];
          [cbn; repeat split; discriminate .. |].
        unfold is_trace in H. cbn in H. apply is_traceF_ret_inv in H.
        destruct H as [-> | ->]; cbn; repeat split; try discriminate; congruence. }
    destruct Hrest as (Hw & He & Hc).
    right. exists v, n. eexists. split; [exact Hargs |]. split; [exact Hn |].
    split; [reflexivity |]. split; [right; eauto |].
    cbn. rewrite Hw, He. split; [reflexivity |]. split; [reflexivity |].
    intros c Hret. destruct (Hc c Hret) as (-> & -> & ->). split; reflexivity.
Qed.

(** X16: with a numeral in NOMAD_NUM_CONTAINERS (of any sign), the setup
    command creates job.nomad in the working directory, writes to it the
    job template with that number as the count of the group, closes the
    file and returns 0; no other call comes in between. *)
Theorem handleSetup_writes_job_file (os_Args : list string) (v : string) (n : Z) :
  length os_Args = 2%nat ->
  Atoi v = Some n ->
  (forall tr : MainRun Z,
     is_trace (handleSetup os_Args) (inl1 (Getenv "NOMAD_NUM_CONTAINERS") /> v ;> tr) ->
     tr = TEnd \/ starts_with (inr1 (OsCreate "job.nomad") : cmdE' _) tr) /\
  (forall tr : MainRun Z,
     is_trace (handleSetup os_Args)
       (inl1 (Getenv "NOMAD_NUM_CONTAINERS") /> v ;>
        inr1 (OsCreate "job.nomad") /> None ;> tr) ->
     tr = TEnd \/
     starts_with (inr1 (FileWriteString (render_jobTemplate n)) : cmdE' _) tr) /\
  (forall tr : MainRun Z,
     is_trace (handleSetup os_Args) (setup_trace v n tr) ->
     tr = TEnd \/ starts_with (inr1 FileClose : cmdE' _) tr) /\
  (forall tr : MainRun Z,
     is_trace (handleSetup os_Args) (setup_trace v n (inr1 FileClose /> tt ;> tr)) <->
     tr = TEnd \/ tr = TRet 0).
Proof.
  intros Hargs Hn. split; [| split; [| split]].
  - intros tr H. apply (handleSetup_numeric os_Args v n) in H; [| assumption ..].
    unfold is_trace in H. cbn in H. apply is_traceF_vis_inv in H.
    unfold starts_with. destruct H as [H | [H | (x & tr' & H & _)]]; eauto.
  - intros tr H. apply (handleSetup_numeric os_Args v n) in H; [| assumption ..].
    unfold is_trace in H. revert H. run_step. cbn. intros H.
    apply is_traceF_vis_inv in H.
    unfold starts_with. destruct H as [H | [H | (x & tr' & H & _)]]; eauto.
  - intros tr H. apply (handleSetup_written os_Args v n) in H; [| assumption ..].
    unfold starts_with. destruct H as [-> | [-> | [-> | ->]]]; eauto.
  - intros tr. rewrite (handleSetup_written os_Args v n) by assumption.
    split.
    + intros [H | [H | [H | H]]]; try discriminate H; injection H as ->; auto.
    + intros [-> | ->]; auto.
Qed.

(** X17: each step of the setup command ends it when it fails: the wrong
    number of arguments, a variable that is no numeral, a file that cannot
    be created, a write that fails.  Only the fatal log line follows, with
    the diagnostic of that step; after a failed write the file is left
    unclosed. *)
Theorem handleSetup_failures (os_Args : list string) :
  (length os_Args <> 2%nat ->
   forall tr : MainRun Z,
     is_trace (handleSetup os_Args) tr <->
     tr = TEnd \/ tr = TEventEnd (inl1 (LogFatal "usage: nomad-bench setup"))) /\
  (length os_Args = 2%nat ->
   (forall (v : string) (tr : MainRun Z),
      Atoi v = None ->
      is_trace (handleSetup os_Args) (inl1 (Getenv "NOMAD_NUM_CONTAINERS") /> v ;> tr) <->
      tr = TEnd \/
      tr = TEventEnd (inl1 (LogFatal "NOMAD_NUM_CONTAINERS must be numeric"))) /\
   (forall (v : string) (n : Z) (err : Error) (tr : MainRun Z),
      Atoi v = Some n ->
      is_trace (handleSetup os_Args)
        (inl1 (Getenv "NOMAD_NUM_CONTAINERS") /> v ;>
         inr1 (OsCreate "job.nomad") /> Some err ;> tr) <->
      tr = TEnd \/
      tr = TEventEnd (inl1 (LogFatal ("failed creating job file: " ++ err)%string))) /\
   (forall (v : string) (n : Z) (err : Error) (tr : MainRun Z),
      Atoi v = Some n ->
      is_trace (handleSetup os_Args)
        (inl1 (Getenv "NOMAD_NUM_CONTAINERS") /> v ;>
         inr1 (OsCreate "job.nomad") /> None ;>
         inr1 (FileWriteString (render_jobTemplate n)) /> Some err ;> tr) <->
      tr = TEnd \/
      tr = TEventEnd (inl1 (LogFatal ("failed writing to job file: " ++ err)%string)))).
Proof.
  split.
  - intros Hargs tr. unfold handleSetup.
    apply Nat.eqb_neq in Hargs. rewrite Hargs. cbn [negb]. apply lift_fatal_runs.
  - intros Hargs. split; [| split].
    + intros v tr Hv. unfold handleSetup. rewrite Hargs. cbn [Nat.eqb negb].
      rewrite lift_call_next, Hv. apply lift_fatal_runs.
    + intros v n err tr Hn.
      rewrite (handleSetup_numeric os_Args v n) by assumption.
      unfold is_trace. run_step. rewrite observe_subst_ret. apply lift_fatal_runs.
    + intros v n err tr Hn.
      rewrite (handleSetup_numeric os_Args v n) by assumption.
      unfold is_trace. do 2 run_step. rewrite observe_subst_ret. apply lift_fatal_runs.
Qed.

(** X18: whatever the environment answers, the setup command writes at most
    once, and what it writes is the job template rendered with the number
    read from NOMAD_NUM_CONTAINERS; it writes only to the file that it
    created before with success. *)
Theorem handleSetup_writes_once (os_Args : list string) (tr : MainRun Z) :
  is_trace (handleSetup os_Args) tr ->
  writes tr <> [] ->
  exists (v : string) (n : Z) (tail : MainRun Z),
    length os_Args = 2%nat /\ Atoi v = Some n /\
    tr = inl1 (Getenv "NOMAD_NUM_CONTAINERS") /> v ;>
         inr1 (OsCreate "job.nomad") /> None ;> tail /\
    starts_with (inr1 (FileWriteString (render_jobTemplate n)) : cmdE' _) tail /\
    writes tr = [render_jobTemplate n].
Proof.
  intros H Hw. apply handleSetup_runs in H.
  destruct H as [(Hnone & _) | (v & n & tail & Hargs & Hn & -> & Hs & Hwr & _)];
    [contradiction |].
  exists v, n, tail. repeat split; assumption.
Qed.

(** X19: the setup command returns only 0, and only at the end of the one
    complete run: the file created, the rendered template written, the file
    closed. *)
Theorem handleSetup_returns_when_written (os_Args : list string) (tr : MainRun Z) (c : Z) :
  is_trace (handleSetup os_Args) tr ->
  trace_ret tr = Some c ->
  c = 0 /\
  length os_Args = 2%nat /\
  exists (v : string) (n : Z),
    Atoi v = Some n /\
    tr = setup_trace v n (inr1 FileClose /> tt ;> TRet 0).
Proof.
  intros H Hret. apply handleSetup_runs in H.
  destruct H as [(_ & Hnone & _) | (v & n & tail & Hargs & Hn & Htr & _ & _ & _ & Hc)];
    [congruence |].
  destruct (Hc c Hret) as [-> Hfull].
  split; [reflexivity |]. split; [exact Hargs |]. exists v, n. split; assumption.
Qed.

Lemma handleSetup_returns_zero (os_Args : list string) (tr : MainRun Z) (c : Z) :
  is_trace (handleSetup os_Args) tr -> trace_ret tr = Some c -> c = 0.
Proof.
  intros H Hret. apply handleSetup_runs in H.
  destruct H as [(_ & Hnone & _) | (v & n & tail & _ & _ & _ & _ & _ & _ & Hc)];
    [congruence |].
  apply (Hc c Hret).
Qed.

Lemma handleSetup_no_exit (os_Args : list string) (tr : MainRun Z) :
  is_trace (handleSetup os_Args) tr -> exit_codes tr = [].
Proof.
  intros H. apply handleSetup_runs in H.
  destruct H as [(_ & _ & He) | (v & n & tail & _ & _ & _ & _ & _ & He & _)]; exact He.
Qed.

End MainFacts.

(** *** The job file *)

Lemma list_ascii_of_string_append (a b : string) :
  list_ascii_of_string (a ++ b) = list_ascii_of_string a ++ list_ascii_of_string b.
Proof.
  induction a as [|c a IH]; [reflexivity |].
  change (String c a ++ b)%string with (String c (a ++ b)%string).
  cbn [list_ascii_of_string app]. rewrite IH. reflexivity.
Qed.

Lemma list_ascii_of_string_inj (a b : string) :
  list_ascii_of_string a = list_ascii_of_string b -> a = b.
Proof.
  intros H. apply (f_equal string_of_list_ascii) in H.
  rewrite !string_of_list_ascii_of_string in H. exact H.
Qed.

(** X20: the job files for different numbers of containers differ: the
    text is the template with the decimal numeral of the number in the
    place of its one verb, and different numbers have different numerals. *)
Theorem render_jobTemplate_distinct (a b : Z) :
  a <> b -> render_jobTemplate a <> render_jobTemplate b.
Proof.
  unfold render_jobTemplate. intros Hab H. apply Hab.
  apply (f_equal list_ascii_of_string) in H.
  rewrite !list_ascii_of_string_append in H.
  apply app_inv_head, app_inv_tail in H.
  apply fmt_d_inj, list_ascii_of_string_inj, H.
Qed.

(** X21: the count that the setup command puts into the job file is a
    numeral that reads back as the number parsed from NOMAD_NUM_CONTAINERS,
    however the variable spells it (a plus sign, leading zeros). *)
Theorem setup_count_reads_back (v : string) (n : Z) :
  Atoi v = Some n ->
  render_jobTemplate n = (jobTemplate_head ++ fmt_d n ++ jobTemplate_tail)%string /\
  Atoi (fmt_d n) = Some n.
Proof.
  intros Hv. split; [reflexivity |]. apply Atoi_fmt_d, (Atoi_range v n Hv).
Qed.

(** *** [main] *)

Section DispatchFacts.
Context {StructsJob JobBody : Type}.
Variable fmt_q : string -> string.
#[local] Abbreviation BenchRun R := (@Run StructsJob JobBody R).
#[local] Abbreviation MainRun R := (@CmdRun StructsJob JobBody R).

Lemma trace_ret_lift_trace {R : Type} (tr : BenchRun R) :
  trace_ret (lift_trace tr) = trace_ret tr.
Proof. induction tr; cbn; auto. Qed.

Lemma exit_codes_lift_trace {R : Type} (tr : BenchRun R) :
  exit_codes (lift_trace tr) = [].
Proof. induction tr; cbn; auto. Qed.

Lemma trace_ret_exit_trace {R : Type} (tr : MainRun Z) :
  trace_ret (exit_trace (R := R) tr) = None.
Proof. induction tr; cbn; auto. Qed.

Lemma exit_codes_exit_trace {R : Type} (tr : MainRun Z) :
  exit_codes (exit_trace (R := R) tr) =
  exit_codes tr ++ match trace_ret tr with Some c => [c] | None => [] end.
Proof.
  induction tr as [| c | X e | X e x tr IH]; cbn; try reflexivity.
  - rewrite app_nil_r. reflexivity.
  - rewrite IH, app_assoc. reflexivity.
Qed.

(** The runs of [main] for each command. *)
Lemma main_setup (os_Args : list string) (tr : MainRun unit) :
  (2 <= length os_Args)%nat -> nth 1 os_Args "" = "setup" ->
  is_trace (main fmt_q os_Args) tr <->
  exists tr0 : MainRun Z, is_trace (handleSetup os_Args) tr0 /\ tr = exit_trace tr0.
Proof.
  intros Hargs Hcmd. unfold main.
  replace (Nat.ltb (length os_Args) 2) with false by (symmetry; apply Nat.ltb_ge; lia).
  cbv zeta. rewrite Hcmd. cbn [String.eqb Ascii.eqb Bool.eqb andb]. apply exit_runs.
Qed.

Lemma main_lifted (os_Args : list string) (handler : list string -> itree _ Z)
  (tr : MainRun unit) :
  is_trace (c <- lift (handler os_Args) ;; exit c) tr <->
  exists tr0 : BenchRun Z, is_trace (handler os_Args) tr0 /\ tr = exit_trace (lift_trace tr0).
Proof.
  rewrite exit_runs. split.
  - intros (tr1 & H & ->). apply lift_runs in H. destruct H as (tr0 & H & ->).
    exists tr0. split; [exact H | reflexivity].
  - intros (tr0 & H & ->). exists (lift_trace tr0). split; [| reflexivity].
    apply lift_runs. exists tr0. split; [exact H | reflexivity].
Qed.

Lemma main_run (os_Args : list string) (tr : MainRun unit) :
  (2 <= length os_Args)%nat -> nth 1 os_Args "" = "run" ->
  is_trace (main fmt_q os_Args) tr <->
  exists tr0 : BenchRun Z, is_trace (handleRun os_Args) tr0 /\ tr = exit_trace (lift_trace tr0).
Proof.
  intros Hargs Hcmd. unfold main.
  replace (Nat.ltb (length os_Args) 2) with false by (symmetry; apply Nat.ltb_ge; lia).
  cbv zeta. rewrite Hcmd. cbn [String.eqb Ascii.eqb Bool.eqb andb].
  apply (main_lifted os_Args handleRun).
Qed.

Lemma main_status (os_Args : list string) (tr : MainRun unit) :
  (2 <= length os_Args)%nat -> nth 1 os_Args "" = "status" ->
  is_trace (main fmt_q os_Args) tr <->
  exists tr0 : BenchRun Z,
    is_trace (handleStatus os_Args) tr0 /\ tr = exit_trace (lift_trace tr0).
Proof.
  intros Hargs Hcmd. unfold main.
  replace (Nat.ltb (length os_Args) 2) with false by (symmetry; apply Nat.ltb_ge; lia).
  cbv zeta. rewrite Hcmd. cbn [String.eqb Ascii.eqb Bool.eqb andb].
  apply (main_lifted os_Args handleStatus).
Qed.

Lemma main_teardown (os_Args : list string) (tr : MainRun unit) :
  (2 <= length os_Args)%nat -> nth 1 os_Args "" = "teardown" ->
  is_trace (main fmt_q os_Args) tr <->
  exists tr0 : BenchRun Z,
    is_trace (handleTeardown os_Args) tr0 /\ tr = exit_trace (lift_trace tr0).
Proof.
  intros Hargs Hcmd. unfold main.
  replace (Nat.ltb (length os_Args) 2) with false by (symmetry; apply Nat.ltb_ge; lia).
  cbv zeta. rewrite Hcmd. cbn [String.eqb Ascii.eqb Bool.eqb andb].
  apply (main_lifted os_Args handleTeardown).
Qed.

Lemma main_unknown (os_Args : list string) (tr : MainRun unit) :
  (2 <= length os_Args)%nat ->
  ~ In (nth 1 os_Args "") ["setup"; "run"; "status"; "teardown"]%string ->
  is_trace (main fmt_q os_Args) tr <->
  tr = TEnd \/
  tr = TEventEnd (inl1 (LogFatal ("unknown command: " ++ fmt_q (nth 1 os_Args ""))%string)).
Proof.
  intros Hargs Hcmd. unfold main.
  replace (Nat.ltb (length os_Args) 2) with false by (symmetry; apply Nat.ltb_ge; lia).
  cbv zeta.
  destruct (String.eqb_spec (nth 1 os_Args "") "setup") as [He | _];
    [rewrite He in Hcmd; cbn in Hcmd; tauto |].
  destruct (String.eqb_spec (nth 1 os_Args "") "run") as [He | _];
    [rewrite He in Hcmd; cbn in Hcmd; tauto |].
  destruct (String.eqb_spec (nth 1 os_Args "") "status") as [He | _];
    [rewrite He in Hcmd; cbn in Hcmd; tauto |].
  destruct (String.eqb_spec (nth 1 os_Args "") "teardown") as [He | _];
    [rewrite He in Hcmd; cbn in Hcmd; tauto |].
  apply lift_fatal_runs.
Qed.

Lemma main_usage (os_Args : list string) (tr : MainRun unit) :
  (length os_Args < 2)%nat ->
  is_trace (main fmt_q os_Args) tr <->
  tr = TEnd \/ tr = TEventEnd (inl1 (LogFatal "usage: nomad-bench <command> [args]")).
Proof.
  intros Hargs. unfold main.
  replace (Nat.ltb (length os_Args) 2) with true by (symmetry; apply Nat.ltb_lt; lia).
  apply lift_fatal_runs.
Qed.

(** X22: [main] hands the command line to the handler that its second word
    names, and leaves the process with the status that the handler
    returns: its runs are the runs of that handler, with the call of
    [os.Exit] in the place of the return. *)
Theorem main_dispatches (os_Args : list string) :
  (2 <= length os_Args)%nat ->
  (nth 1 os_Args "" = "setup" ->
   forall tr : MainRun unit,
     is_trace (main fmt_q os_Args) tr <->
     exists tr0 : MainRun Z, is_trace (handleSetup os_Args) tr0 /\ tr = exit_trace tr0) /\
  (nth 1 os_Args "" = "run" ->
   forall tr : MainRun unit,
     is_trace (main fmt_q os_Args) tr <->
     exists tr0 : BenchRun Z,
       is_trace (handleRun os_Args) tr0 /\ tr = exit_trace (lift_trace tr0)) /\
  (nth 1 os_Args "" = "status" ->
   forall tr : MainRun unit,
     is_trace (main fmt_q os_Args) tr <->
     exists tr0 : BenchRun Z,
       is_trace (handleStatus os_Args) tr0 /\ tr = exit_trace (lift_trace tr0)) /\
  (nth 1 os_Args "" = "teardown" ->
   forall tr : MainRun unit,
     is_trace (main fmt_q os_Args) tr <->
     exists tr0 : BenchRun Z,
       is_trace (handleTeardown os_Args) tr0 /\ tr = exit_trace (lift_trace tr0)).
Proof.
  intros Hargs. split; [| split; [| split]]; intros Hcmd tr.
  - apply main_setup; assumption.
  - apply main_run; assumption.
  - apply main_status; assumption.
  - apply main_teardown; assumption.
Qed.

(** X23: without a command, and with a word that is none of setup, run,
    status and teardown, [main] calls no handler: it logs the usage line,
    or the unknown command in quotes, and dies. *)
Theorem main_rejects (os_Args : list string) :
  ((length os_Args < 2)%nat ->
   forall tr : MainRun unit,
     is_trace (main fmt_q os_Args) tr <->
     tr = TEnd \/
     tr = TEventEnd (inl1 (LogFatal "usage: nomad-bench <command> [args]"))) /\
  ((2 <= length os_Args)%nat ->
   ~ In (nth 1 os_Args "") ["setup"; "run"; "status"; "teardown"]%string ->
   forall tr : MainRun unit,
     is_trace (main fmt_q os_Args) tr <->
     tr = TEnd \/
     tr = TEventEnd
            (inl1 (LogFatal ("unknown command: " ++ fmt_q (nth 1 os_Args ""))%string))).
Proof.
  split.
  - intros Hargs tr. apply main_usage, Hargs.
  - intros Hargs Hcmd tr. apply main_unknown; assumption.
Qed.

(** X24: [main] never comes back, and it calls [os.Exit] with no status
    other than 0: every other way out of the program is a fatal log line.
    Under the status command it does not call [os.Exit] at all. *)
Theorem main_exits_zero (os_Args : list string) (tr : MainRun unit) :
  is_trace (main fmt_q os_Args) tr ->
  trace_ret tr = None /\
  (forall c : Z, In c (exit_codes tr) -> c = 0) /\
  (nth 1 os_Args "" = "status" -> exit_codes tr = []).
Proof.
  intros H.
  assert (Hlifted : forall tr0 : BenchRun Z,
            tr = exit_trace (lift_trace tr0) ->
            (forall c : Z, trace_ret tr0 = Some c -> c = 0) ->
            trace_ret tr = None /\
            (forall c : Z, In c (exit_codes tr) -> c = 0) /\
            (trace_ret tr0 = None -> exit_codes tr = [])).
  { intros tr0 -> Hzero. rewrite trace_ret_exit_trace, exit_codes_exit_trace.
    rewrite exit_codes_lift_trace, trace_ret_lift_trace. cbn [app].
    split; [reflexivity |]. split.
    - destruct (trace_ret tr0) as [c0 |]; [| intros c []].
      intros c [<- | []]. apply Hzero. reflexivity.
    - intros ->. reflexivity. }
  destruct (Nat.ltb_spec (length os_Args) 2) as [Hargs | Hargs].
  { apply main_usage in H; [| exact Hargs].
    destruct H as [-> | ->]; cbn; repeat split; try tauto. }
  destruct (String.eqb_spec (nth 1 os_Args "") "setup") as [Hsetup | Hsetup].
  { apply main_setup in H; [| assumption ..]. destruct H as (tr0 & H & ->).
    rewrite trace_ret_exit_trace, exit_codes_exit_trace.
    rewrite (handleSetup_no_exit os_Args tr0 H). cbn [app].
    split; [reflexivity |]. split.
    - destruct (trace_ret tr0) as [c0 |] eqn:Hret; [| intros c []].
      intros c [<- | []]. apply (handleSetup_returns_zero os_Args tr0 c0 H Hret).
    - intros Hst. rewrite Hsetup in Hst. discriminate Hst. }
  destruct (String.eqb_spec (nth 1 os_Args "") "run") as [Hrun | Hrun].
  { apply main_run in H; [| assumption ..]. destruct H as (tr0 & H & Htr).
    destruct (Hlifted tr0 Htr) as (Hr & Hc & _).
    - intros c. apply (handleRun_returns_zero os_Args tr0 c H).
    - split; [exact Hr |]. split; [exact Hc |].
      intros Hst. rewrite Hrun in Hst. discriminate Hst. }
  destruct (String.eqb_spec (nth 1 os_Args "") "status") as [Hstatus | Hstatus].
  { apply main_status in H; [| assumption ..]. destruct H as (tr0 & H & Htr).
    pose proof (handleStatus_no_return os_Args tr0 H) as Hnone.
    destruct (Hlifted tr0 Htr) as (Hr & Hc & He).
    - intros c Hc. congruence.
    - split; [exact Hr |]. split; [exact Hc |]. intros _. apply He, Hnone. }
  destruct (String.eqb_spec (nth 1 os_Args "") "teardown") as [Htd | Htd].
  { apply main_teardown in H; [| assumption ..]. destruct H as (tr0 & H & Htr).
    destruct (Hlifted tr0 Htr) as (Hr & Hc & _).
    - intros c. apply (handleTeardown_returns_zero os_Args tr0 c H).
    - split; [exact Hr |]. split; [exact Hc |].
      intros Hst. rewrite Htd in Hst. discriminate Hst. }
  apply main_unknown in H; [| exact Hargs |].
  - destruct H as [-> | ->]; cbn; repeat split; try tauto.
  - cbn. intros [He | [He | [He | [He | []]]]]; congruence.
Qed.

End DispatchFacts.

(** * Runs on sample data *)

Example Atoi_samples :
  Atoi "3" = Some 3 /\ Atoi "-5" = Some (-5) /\ Atoi "+17" = Some 17 /\
  Atoi "" = None /\ Atoi "many" = None /\ Atoi "1e3" = None /\
  Atoi "9223372036854775807" = Some max_int64 /\
  Atoi "9223372036854775808" = None.
Proof. repeat split. Qed.

Example job_ids_three : job_ids 3 = ["job-0"; "job-1"; "job-2"]%string.
Proof. reflexivity. Qed.

(** The scenario of the specification: index 5 with two running and one
    pending allocation, from the initial state. *)
Example first_response_scenario :
  index (watch_state watch_init [PollOk three_allocs (at_index 5) 100]) = 5 /\
  samples (watch_trace watch_init [PollOk three_allocs (at_index 5) 100]
           : @Run unit unit Z) =
  [("placed", 3, 100); ("booting", 1, 100); ("running", 2, 100)]%string.
Proof. split; reflexivity. Qed.

(** The same counts again under a higher index: the cursor moves, nothing is
    sent. *)
Example same_counts_scenario :
  index (watch_state watch_init
           [PollOk three_allocs (at_index 5) 100;
            PollOk three_allocs (at_index 6) 200]) = 6 /\
  samples (watch_trace watch_init
             [PollOk three_allocs (at_index 5) 100;
              PollOk three_allocs (at_index 6) 200] : @Run unit unit Z) =
  samples (watch_trace watch_init [PollOk three_allocs (at_index 5) 100]
           : @Run unit unit Z).
Proof. split; reflexivity. Qed.

(** C1, counterexample: the orchestrator reports index 5 and then index 3;
    the loop sends the cursors 1, 5 and 3. *)
Lemma watch_cursor_rolls_back :
  is_trace (watch_loop watch_init)
    (watch_trace watch_init stale_script : @Run unit unit Z) /\
  cursors (watch_trace watch_init stale_script : @Run unit unit Z) = [1; 5; 3] /\
  ~ Sorted Z.le (cursors (watch_trace watch_init stale_script : @Run unit unit Z)).
Proof.
  split; [apply watch_trace_sound |]. split; [reflexivity |].
  change (cursors (watch_trace watch_init stale_script : @Run unit unit Z))
    with [1; 5; 3].
  intros H. apply Sorted_inv in H. destruct H as [H _].
  apply Sorted_inv in H. destruct H as [_ H].
  apply HdRel_inv in H. lia.
Qed.

(** C1, an instance: a failed query between the answers with index 5 and 8. *)
Lemma watch_cursor_nondecreasing_witness :
  is_trace (watch_loop watch_init)
    (watch_trace watch_init growing_script : @Run unit unit Z) /\
  responses_never_behind (watch_trace watch_init growing_script : @Run unit unit Z) /\
  Sorted Z.le (cursors (watch_trace watch_init growing_script : @Run unit unit Z)).
Proof.
  assert (H : is_trace (watch_loop watch_init)
                (watch_trace watch_init growing_script : @Run unit unit Z))
    by apply watch_trace_sound.
  assert (Hnb : responses_never_behind
                  (watch_trace watch_init growing_script : @Run unit unit Z))
    by (cbn; repeat split; discriminate).
  split; [exact H |]. split; [exact Hnb |].
  exact (proj1 (watch_cursor_nondecreasing watch_init _ H Hnb)).
Defined.

(** C2, counterexample: the first response lists two running allocations
    and none pending.  No sample was ever sent for booting, and none is
    sent now: its aggregate, 0, is what the variable held from the start. *)
Lemma watch_first_zero_not_emitted :
  is_trace (watch_loop watch_init)
    (watch_trace watch_init [PollOk two_running (at_index 5) 100] : @Run unit unit Z) /\
  metric_value "booting" two_running = 0 /\
  last_emitted "booting" [] = None /\
  samples (watch_trace watch_init [PollOk two_running (at_index 5) 100]
           : @Run unit unit Z) =
  [("placed", 2, 100); ("running", 2, 100)]%string.
Proof.
  split; [apply watch_trace_sound |]. repeat split.
Qed.

(** C2, an instance: after two running and one pending allocation at index 5,
    two running ones at index 8. *)
Lemma watch_emits_on_change_witness :
  LastIndex (at_index 8) <>
  index (watch_state watch_init [PollOk three_allocs (at_index 5) 100]) /\
  is_trace (watch_loop watch_init)
    (watch_trace watch_init
       ([PollOk three_allocs (at_index 5) 100] ++ [PollOk two_running (at_index 8) 300])
     : @Run unit unit Z).
Proof.
  assert (H : LastIndex (at_index 8) <>
              index (watch_state watch_init [PollOk three_allocs (at_index 5) 100])).
  { cbn. discriminate. }
  split; [exact H |].
  exact (proj1 (@watch_emits_on_change unit unit
                  [PollOk three_allocs (at_index 5) 100] two_running (at_index 8) 300 H)).
Defined.

(** C3, an instance: the first answer reports the index 1 of the start. *)
Lemma watch_same_index_noop_witness :
  LastIndex (at_index 1) = index watch_init /\
  watch_next watch_init (PollOk three_allocs (at_index 1) 100) = watch_init.
Proof.
  split; [reflexivity |].
  exact (proj1 (proj2 (proj2
    (@watch_same_index_noop unit unit watch_init three_allocs (at_index 1) 100 eq_refl)))).
Defined.

(** C5, an instance: NOMAD_NUM_JOBS is 3. *)
Lemma handleRun_registers_in_order_witness :
  length run_args = 2%nat /\ Atoi "3" = Some 3 /\ 0 < 3 /\
  is_trace (handleRun run_args)
    (run_prelude "3" tt [] bench_job (register_trace bench_job (job_ids 3) (TRet 0))) /\
  map ID (registrations
            (run_prelude "3" tt [] bench_job
               (register_trace bench_job (job_ids 3) (TRet 0)))) =
  ["job-0"; "job-1"; "job-2"]%string.
Proof.
  pose proof (handleRun_registers_in_order run_args "3" 3 tt [] bench_job
                eq_refl eq_refl eq_refl) as (Hrun & _ & _ & _ & _ & _ & Hids & _).
  split; [reflexivity |]. split; [reflexivity |]. split; [reflexivity |].
  split.
  - apply Hrun. right. reflexivity.
  - exact (proj1 (Hids (TRet 0) (or_intror eq_refl))).
Defined.

(** C6, counterexample: with NOMAD_NUM_JOBS set to 0, which is no positive
    integer, the command runs to its end and returns 0. *)
Lemma handleRun_accepts_zero :
  Atoi "0" = Some 0 /\
  is_trace (handleRun run_args) (run_prelude "0" tt [] bench_job (TRet 0)) /\
  trace_ret (run_prelude "0" tt [] bench_job (TRet 0)) = Some 0 /\
  ~ ends_fatally (run_prelude "0" tt [] bench_job (TRet 0)).
Proof.
  split; [reflexivity |]. split; [| split].
  - apply (handleRun_prelude run_args "0" 0); [reflexivity | reflexivity |].
    apply register_loop_done; [lia | right; reflexivity].
  - reflexivity.
  - cbn. tauto.
Qed.

(** C6, an instance: NOMAD_NUM_JOBS is no numeral. *)
Lemma handleRun_validates_numeric_witness :
  length run_args = 2%nat /\
  is_trace (@handleRun unit unit run_args)
    (Getenv "NOMAD_NUM_JOBS" /> "many"%string ;>
     TEventEnd (LogFatal "NOMAD_NUM_JOBS must be numeric")).
Proof.
  split; [reflexivity |].
  apply (proj1 (@handleRun_validates_numeric unit unit run_args "many" eq_refl) eq_refl).
  right. reflexivity.
Defined.


(** C9, an instance: an empty listing, then the directory is removed. *)
Lemma handleTeardown_no_jobs_witness :
  length teardown_args = 3%nat /\
  is_trace (@handleTeardown unit unit teardown_args)
    (ApiNewClient /> None ;> JobsList /> inl [] ;>
     RemoveAll "/tmp/bench" /> None ;> TRet 0).
Proof.
  split; [reflexivity |].
  apply (proj2 (@handleTeardown_no_jobs unit unit teardown_args eq_refl)).
  right. reflexivity.
Defined.

(** C10, an instance: the first call after the two clients. *)
Lemma handleStatus_initial_state_witness :
  length status_args = 3%nat /\
  is_trace (@handleStatus unit unit status_args)
    (ApiNewClient /> None ;> StatusNewClient "127.0.0.1:8080" /> None ;>
     TEventEnd (AllocsList {| AllowStale := true; WaitIndex := 1 |})).
Proof.
  split; [reflexivity |].
  exact (proj1 (proj2 (proj2
    (@handleStatus_initial_state unit unit status_args eq_refl)))).
Defined.

(** ** Instances of the facts about the commands *)

Lemma three_registered_run : is_trace (handleRun run_args) three_registered.
Proof.
  apply (handleRun_registrations run_args "3" 3 3 tt [] bench_job (TRet 0) eq_refl eq_refl);
    [lia |].
  apply register_loop_done; [lia | right; reflexivity].
Qed.

Lemma two_deregistered_run : is_trace (handleTeardown teardown_args) two_deregistered.
Proof. apply (handleTeardown_success teardown_args two_jobs eq_refl). Qed.

Lemma status_watched_run : is_trace (handleStatus status_args) status_watched.
Proof.
  apply (handleStatus_watches status_args _ eq_refl), watch_trace_sound.
Qed.

Lemma three_containers_run : is_trace (handleSetup setup_args) three_containers.
Proof.
  apply (handleSetup_written setup_args "3" 3 _ eq_refl eq_refl).
  right. right. right. reflexivity.
Qed.

Lemma main_run_three :
  is_trace (main quote_plain run_args)
    (exit_trace (lift_trace three_registered) : @CmdRun unit unit unit).
Proof.
  apply main_run; [cbn; lia | reflexivity |].
  exists three_registered. split; [exact three_registered_run | reflexivity].
Qed.

(** X1, an instance: NOMAD_NUM_JOBS is 3 and every step succeeds. *)
Lemma handleRun_registers_prefix_witness :
  is_trace (handleRun run_args) three_registered /\
  registrations three_registered <> [] /\
  exists (v : string) (K : Z) (job : unit) (buf : Buffer)
         (apiJob : ApiJob unit) (tail : @Run unit unit Z) (n : nat),
    length run_args = 2%nat /\ Atoi v = Some K /\
    three_registered = run_prelude v job buf apiJob tail /\
    (0 < n)%nat /\ Z.of_nat n <= K /\
    registrations three_registered = map (set_ID apiJob) (ids_from 0 n) /\
    length (registrations three_registered) = n /\
    (forall k : nat, (k < n)%nat ->
       nth_error (map ID (registrations three_registered)) k =
       Some ("job-" ++ fmt_d (Z.of_nat k))%string) /\
    (forall j : ApiJob unit, In j (registrations three_registered) -> Body j = Body apiJob).
Proof.
  assert (Hne : registrations three_registered <> []) by (vm_compute; discriminate).
  split; [exact three_registered_run |]. split; [exact Hne |].
  exact (handleRun_registers_prefix run_args three_registered three_registered_run Hne).
Defined.


(** X3, an instance: the job file does not parse. *)
Lemma handleRun_failures_witness :
  length run_args = 2%nat /\ Atoi "3" = Some 3 /\
  is_trace (@handleRun unit unit run_args)
    (Getenv "NOMAD_NUM_JOBS" /> "3"%string ;>
     ParseFile "job.nomad" /> inr "no such file"%string ;>
     TEventEnd (LogFatal "failed parsing job file: no such file")).
Proof.
  split; [reflexivity |]. split; [reflexivity |].
  apply (proj1 (proj2 (@handleRun_failures unit unit run_args) eq_refl "3" 3 eq_refl)).
  right. reflexivity.
Defined.

(** X4, an instance: the three identifiers of the run for three jobs. *)
Lemma handleRun_ids_distinct_witness :
  is_trace (handleRun run_args) three_registered /\
  NoDup (map ID (registrations three_registered)).
Proof.
  split; [exact three_registered_run |].
  exact (handleRun_ids_distinct run_args three_registered three_registered_run).
Defined.

(** X5, an instance: two jobs are listed. *)
Lemma handleTeardown_deregisters_all_witness :
  length teardown_args = 3%nat /\
  is_trace (handleTeardown teardown_args) two_deregistered.
Proof.
  split; [reflexivity |].
  apply (proj2 (proj2 (@handleTeardown_deregisters_all unit unit teardown_args two_jobs
                         eq_refl))).
  right. reflexivity.
Defined.

(** X6, an instance: the second of two deregistrations fails. *)
Lemma handleTeardown_fails_fast_witness :
  length teardown_args = 3%nat /\
  is_trace (@handleTeardown unit unit teardown_args)
    (ApiNewClient /> None ;> JobsList /> inl two_jobs ;>
     JobsDeregister "job-0" /> None ;>
     JobsDeregister "job-1" /> Some "no leader"%string ;>
     TEventEnd (LogFatal "failed deregistering job: no leader")).
Proof.
  split; [reflexivity |].
  apply (proj2 (@handleTeardown_fails_fast unit unit teardown_args
                  [{| StubID := "job-0" |}] [] {| StubID := "job-1" |} "no leader" _
                  eq_refl)).
  right. reflexivity.
Defined.

(** X7, an instance: the run that deregisters two jobs. *)
Lemma handleTeardown_removes_last_witness :
  is_trace (handleTeardown teardown_args) two_deregistered /\
  removals two_deregistered <> [] /\
  removals two_deregistered = ["/tmp/bench"]%string /\
  deregistrations two_deregistered = ["job-0"; "job-1"]%string.
Proof.
  assert (Hne : removals two_deregistered <> []) by (cbn; discriminate).
  split; [exact two_deregistered_run |]. split; [exact Hne |].
  split.
  - exact (proj1 (proj2 (handleTeardown_removes_last teardown_args two_deregistered
                           two_deregistered_run Hne))).
  - reflexivity.
Defined.

(** X8, an instance: the same run. *)
Lemma handleTeardown_deregisters_in_order_witness :
  is_trace (handleTeardown teardown_args) two_deregistered /\
  (deregistrations two_deregistered = [] \/
   exists (jobs : list JobListStub) (tail : @Run unit unit Z) (rest : list string),
     two_deregistered = ApiNewClient /> None ;> JobsList /> inl jobs ;> tail /\
     map StubID jobs = deregistrations two_deregistered ++ rest).
Proof.
  split; [exact two_deregistered_run |].
  exact (handleTeardown_deregisters_in_order teardown_args two_deregistered
           two_deregistered_run).
Defined.

(** X9, an instance: the same run returns 0. *)
Lemma handleTeardown_returns_after_removal_witness :
  is_trace (handleTeardown teardown_args) two_deregistered /\
  trace_ret two_deregistered = Some 0 /\
  exists jobs : list JobListStub,
    two_deregistered =
    teardown_prelude jobs (RemoveAll (nth 2 teardown_args "") /> None ;> TRet 0).
Proof.
  split; [exact two_deregistered_run |]. split; [reflexivity |].
  exact (proj2 (proj2 (handleTeardown_returns_after_removal teardown_args
                         two_deregistered 0 two_deregistered_run eq_refl))).
Defined.

(** X10, an instance: the listing fails. *)
Lemma handleTeardown_failures_witness :
  length teardown_args = 3%nat /\
  is_trace (@handleTeardown unit unit teardown_args)
    (ApiNewClient /> None ;> JobsList /> inr "no leader"%string ;>
     TEventEnd (LogFatal "failed listing jobs: no leader")).
Proof.
  split; [reflexivity |].
  apply (proj1 (proj2 (proj2 (@handleTeardown_failures unit unit teardown_args) eq_refl))
           "no leader"%string).
  right. reflexivity.
Defined.

(** X11, an instance: a run over three answers. *)
Lemma handleStatus_never_returns_witness :
  is_trace (handleStatus status_args) status_watched /\
  trace_ret status_watched = None.
Proof.
  split; [exact status_watched_run |].
  exact (proj1 (handleStatus_never_returns status_args status_watched status_watched_run)).
Defined.

(** X12, an instance: the same run. *)
Lemma handleStatus_only_observes_witness :
  is_trace (handleStatus status_args) status_watched /\
  all_calls status_call status_watched.
Proof.
  split; [exact status_watched_run |].
  exact (handleStatus_only_observes status_args status_watched status_watched_run).
Defined.

(** X13, an instance: the status server cannot be reached. *)
Lemma handleStatus_failures_witness :
  length status_args = 3%nat /\
  is_trace (@handleStatus unit unit status_args)
    (ApiNewClient /> None ;> StatusNewClient "127.0.0.1:8080" /> Some "refused"%string ;>
     TEventEnd (LogFatal "failed contacting status server: refused")).
Proof.
  split; [reflexivity |].
  apply (proj2 (proj2 (proj2 (@handleStatus_failures unit unit status_args) eq_refl))
           "refused"%string).
  right. reflexivity.
Defined.

(** X14, an instance: booting after one pending allocation and then none. *)
Lemma watch_sink_in_sync_witness :
  In "booting"%string metric_names /\
  last_emitted "booting" (samples (watch_trace watch_init growing_script : @Run unit unit Z))
  = Some 0 /\
  last_or_zero "booting" (samples (watch_trace watch_init growing_script : @Run unit unit Z))
  = metric_value "booting" two_running.
Proof.
  assert (H : In "booting"%string metric_names) by (right; left; reflexivity).
  split; [exact H |]. split; [reflexivity |].
  exact (proj2 (@watch_sink_in_sync unit unit growing_script "booting" H)).
Defined.

(** X15, an instance: a response and the same response in reverse. *)
Lemma aggregates_order_independent_witness :
  Permutation (map ClientStatus three_allocs) (map ClientStatus (rev three_allocs)) /\
  count_allocs three_allocs = count_allocs (rev three_allocs) /\
  metric_value "running" three_allocs = metric_value "running" (rev three_allocs).
Proof.
  assert (H : Permutation (map ClientStatus three_allocs)
                (map ClientStatus (rev three_allocs)))
    by apply Permutation_map, Permutation_rev.
  split; [exact H |].
  exact (aggregates_order_independent three_allocs (rev three_allocs) "running" H).
Defined.

(** X16, an instance: NOMAD_NUM_CONTAINERS is 3. *)
Lemma handleSetup_writes_job_file_witness :
  length setup_args = 2%nat /\ Atoi "3" = Some 3 /\
  is_trace (handleSetup setup_args) three_containers.
Proof.
  split; [reflexivity |]. split; [reflexivity |].
  apply (proj2 (proj2 (proj2 (@handleSetup_writes_job_file unit unit setup_args "3" 3
                                eq_refl eq_refl)))).
  right. reflexivity.
Defined.

(** X17, an instance: the disk is full. *)
Lemma handleSetup_failures_witness :
  length setup_args = 2%nat /\ Atoi "3" = Some 3 /\
  is_trace (@handleSetup unit unit setup_args)
    (inl1 (Getenv "NOMAD_NUM_CONTAINERS") /> "3"%string ;>
     inr1 (OsCreate "job.nomad") /> None ;>
     inr1 (FileWriteString (render_jobTemplate 3)) /> Some "no space left"%string ;>
     TEventEnd (inl1 (LogFatal "failed writing to job file: no space left"))).
Proof.
  split; [reflexivity |]. split; [reflexivity |].
  apply (proj2 (proj2 (proj2 (@handleSetup_failures unit unit setup_args) eq_refl))
           "3"%string 3 "no space left"%string _ eq_refl).
  right. reflexivity.
Defined.

(** X18, an instance: the run that writes the file for three containers. *)
Lemma handleSetup_writes_once_witness :
  is_trace (handleSetup setup_args) three_containers /\
  writes three_containers <> [] /\
  exists (v : string) (n : Z) (tail : @CmdRun unit unit Z),
    length setup_args = 2%nat /\ Atoi v = Some n /\
    three_containers =
      inl1 (Getenv "NOMAD_NUM_CONTAINERS") /> v ;>
      inr1 (OsCreate "job.nomad") /> None ;> tail /\
    starts_with (inr1 (FileWriteString (render_jobTemplate n)) : cmdE _) tail /\
    writes three_containers = [render_jobTemplate n].
Proof.
  assert (Hne : writes three_containers <> []) by (cbn; discriminate).
  split; [exact three_containers_run |]. split; [exact Hne |].
  exact (handleSetup_writes_once setup_args three_containers three_containers_run Hne).
Defined.

(** X19, an instance: the same run returns 0. *)
Lemma handleSetup_returns_when_written_witness :
  is_trace (handleSetup setup_args) three_containers /\
  trace_ret three_containers = Some 0 /\
  exists (v : string) (n : Z),
    Atoi v = Some n /\
    three_containers = setup_trace v n (inr1 FileClose /> tt ;> TRet 0).
Proof.
  split; [exact three_containers_run |]. split; [reflexivity |].
  exact (proj2 (proj2 (handleSetup_returns_when_written setup_args three_containers 0
                         three_containers_run eq_refl))).
Defined.

(** X20, an instance: three containers and four. *)
Lemma render_jobTemplate_distinct_witness :
  3 <> 4 /\ render_jobTemplate 3 <> render_jobTemplate 4.
Proof.
  assert (H : 3 <> 4) by discriminate.
  split; [exact H | exact (render_jobTemplate_distinct 3 4 H)].
Defined.

(** X21, an instance: the variable holds +007. *)
Lemma setup_count_reads_back_witness :
  Atoi "+007" = Some 7 /\ fmt_d 7 = "7"%string /\ Atoi (fmt_d 7) = Some 7.
Proof.
  split; [reflexivity |]. split; [reflexivity |].
  exact (proj2 (setup_count_reads_back "+007" 7 eq_refl)).
Defined.

(** X22, an instance: the run command. *)
Lemma main_dispatches_witness :
  (2 <= length run_args)%nat /\ nth 1 run_args ""%string = "run"%string /\
  is_trace (main quote_plain run_args)
    (exit_trace (lift_trace three_registered) : @CmdRun unit unit unit).
Proof.
  assert (H : (2 <= length run_args)%nat) by (cbn; lia).
  split; [exact H |]. split; [reflexivity |].
  apply (proj1 (proj2 (@main_dispatches unit unit quote_plain run_args H)) eq_refl).
  exists three_registered. split; [exact three_registered_run | reflexivity].
Defined.

(** X23, an instance: a command that does not exist. *)
Lemma main_rejects_witness :
  (2 <= length ["nomad-bench"; "deploy"]%string)%nat /\
  ~ In "deploy"%string ["setup"; "run"; "status"; "teardown"]%string /\
  is_trace (main quote_plain ["nomad-bench"; "deploy"]%string)
    (TEventEnd (inl1 (LogFatal ("unknown command: " ++ quote_plain "deploy")%string))
     : @CmdRun unit unit unit).
Proof.
  assert (H : (2 <= length ["nomad-bench"; "deploy"]%string)%nat) by (cbn; lia).
  assert (Hcmd : ~ In "deploy"%string ["setup"; "run"; "status"; "teardown"]%string).
  { cbn. intros [He | [He | [He | [He | []]]]]; discriminate He. }
  split; [exact H |]. split; [exact Hcmd |].
  apply (proj2 (@main_rejects unit unit quote_plain ["nomad-bench"; "deploy"]%string)
           H Hcmd).
  right. reflexivity.
Defined.

(** X24, an instance: the run command that registers three jobs leaves with
    the status 0. *)
Lemma main_exits_zero_witness :
  is_trace (main quote_plain run_args)
    (exit_trace (lift_trace three_registered) : @CmdRun unit unit unit) /\
  exit_codes (exit_trace (lift_trace three_registered) : @CmdRun unit unit unit) = [0] /\
  forall c : Z,
    In c (exit_codes (exit_trace (lift_trace three_registered) : @CmdRun unit unit unit)) ->
    c = 0.
Proof.
  split; [exact main_run_three |]. split; [reflexivity |].
  exact (proj1 (proj2 (main_exits_zero quote_plain run_args _ main_run_three))).
Defined.
